(** * Inverter Modbus/MQTT bridge: acquisition and publication engine

    Shallow embedding of [fetch_inverter_data.py]: the register decoder
    ([SolarInverter.process_register]), the telemetry mapper
    ([SolarInverter.get_telemetry]), the paged Modbus reader
    ([SolarInverter.read_modbus]), the poll cycle
    ([SolarInverter.read_serial_data]), the availability rule
    ([_publish_inverter_availability]), the liveness probe
    ([HealthHandler.do_GET]) and one iteration of the loop of [main].

    Conventions.
    - Python [int] is [Z]; Python [float] is a binary64 primitive float.
    - Wall-clock timestamps ([time.time()]) are exact rationals [Q]: the
      availability and health rules only compare differences of
      timestamps with an integer bound.
    - Exceptions are values of [exn]; a computation that can raise returns
      a [result].
    - Logging and the fixed delays have no effect on the modelled state
      and are left out; the one [time.sleep] whose argument comes from the
      configuration is kept, since it raises on a negative argument and
      on one too large for the interpreter's clock type. *)

From Stdlib Require Import ZArith QArith Lia PrimFloat SpecFloat FloatOps.
From stdpp Require Import base option list gmap strings pretty.

Local Open Scope Z_scope.

(** ** Exceptions and results *)

Inductive exn : Type :=
| TypeError (msg : string)
| KeyError (key : Z)
| AttributeError (msg : string)
| ValueError (msg : string)
| OverflowError (msg : string)
| SerialException (msg : string)
| ModbusException (msg : string).

Inductive result (A : Type) : Type :=
| Ok (a : A)
| Raise (e : exn).
Arguments Ok {A} a.
Arguments Raise {A} e.

Definition result_bind {A B} (r : result A) (k : A -> result B) : result B :=
  match r with
  | Ok a => k a
  | Raise e => Raise e
  end.

Declare Scope py_scope.
Delimit Scope py_scope with py.
Notation "'let*' x ':=' r 'in' k" := (result_bind r (fun x => k))
  (at level 10, x name, r at level 100, k at level 200) : py_scope.

(** ** Python numbers *)

Inductive number : Type :=
| PyInt (z : Z)
| PyFloat (f : float).

Definition sf_of_Z (z : Z) : spec_float :=
  match z with
  | Z0 => S754_zero false
  | Zpos p => S754_finite false p 0
  | Zneg p => S754_finite true p 0
  end.

(** [a / b] on Python ints: the binary64 nearest to the exact quotient
    (used here only with [b = 10 ** decimals], which is positive). Python
    raises [OverflowError] instead of returning an infinity; a register
    holds 16 bits, and on such values the quotient is finite. *)
Definition int_truediv (a b : Z) : float :=
  SF2Prim (SFdiv prec emax (sf_of_Z a) (sf_of_Z b)).

(** Nearest integer to [n / d] for [d > 0], ties to the even one. *)
Definition round_half_even (n d : Z) : Z :=
  let q := n / d in
  match 2 * (n mod d) ?= d with
  | Lt => q
  | Gt => q + 1
  | Eq => if Z.even q then q else q + 1
  end.

(** [round(x, ndigits)] on a Python float, for [ndigits >= 0]: the exact
    binary value of [x] is rounded half-even to a multiple of
    [10 ** -ndigits], and that decimal is converted back to the nearest
    binary64; zeros, infinities and NaN round to themselves, as does every
    [x] when [ndigits] exceeds 323. *)
Definition py_round (x : float) (ndigits : Z) : float :=
  match Prim2SF x with
  | S754_finite s m e =>
      if 323 <? ndigits then x
      else
        let p := 10 ^ ndigits in
        let n := if 0 <=? e then Zpos m * 2 ^ e * p
                 else round_half_even (Zpos m * p) (2 ^ (- e)) in
        if n =? 0 then SF2Prim (S754_zero s)
        else SF2Prim (SFdiv prec emax (sf_of_Z (if s then - n else n)) (sf_of_Z p))
  | _ => x
  end.

(** Exact comparison of an int with a float, as Python's [==] does it. *)
Definition int_float_eqb (a : Z) (f : float) : bool :=
  match Prim2SF f with
  | S754_zero _ => a =? 0
  | S754_finite s m e =>
      let sm := if s then Zneg m else Zpos m in
      if 0 <=? e then a =? sm * 2 ^ e else a * 2 ^ (- e) =? sm
  | _ => false
  end.

(** [x == y] on numbers. *)
Definition number_eqb (x y : number) : bool :=
  match x, y with
  | PyInt a, PyInt b => a =? b
  | PyFloat f, PyFloat g => PrimFloat.eqb f g
  | PyInt a, PyFloat g => int_float_eqb a g
  | PyFloat f, PyInt b => int_float_eqb b f
  end.

(** ** Dynamically typed arguments of [process_register]

    The two positional parameters of [process_register] receive whatever
    the caller passes: an int or the register dict. *)

Inductive pyobj : Type :=
| ObjInt (z : Z)
| ObjDict (m : gmap Z Z).

(** [container[key]] *)
Definition py_getitem (container key : pyobj) : result Z :=
  match container with
  | ObjInt _ => Raise (TypeError "'int' object is not subscriptable")
  | ObjDict m =>
      match key with
      | ObjDict _ => Raise (TypeError "unhashable type: 'dict'")
      | ObjInt k =>
          match m !! k with
          | Some v => Ok v
          | None => Raise (KeyError k)
          end
      end
  end.

(** ** RegisterDecoder: [SolarInverter.process_register] *)

Definition process_register (register_map address : pyobj)
    (decimals : Z) (signed : bool) : result number :=
  (let* value := py_getitem register_map address in
   let value := if signed && (32767 <? value) then value - 65536 else value in
   if 0 <? decimals
   then Ok (PyFloat (py_round (int_truediv value (10 ^ decimals)) decimals))
   else Ok (PyInt value))%py.

(** ** Telemetry snapshot dictionaries

    A Python [dict] from field name to number, in insertion order. *)

Definition dict : Type := list (string * number).

Fixpoint dict_set (d : dict) (k : string) (v : number) : dict :=
  match d with
  | [] => [(k, v)]
  | (k', v') :: d' =>
      if String.eqb k' k then (k', v) :: d' else (k', v') :: dict_set d' k v
  end.

(** [d.update(kvs)] *)
Definition dict_update (d kvs : dict) : dict :=
  fold_left (fun acc kv => dict_set acc (fst kv) (snd kv)) kvs d.

Fixpoint dict_get (d : dict) (k : string) : option number :=
  match d with
  | [] => None
  | (k', v') :: d' => if String.eqb k' k then Some v' else dict_get d' k
  end.

(** [d1 == d2]: same number of keys, and every key of [d1] is bound in
    [d2] to an equal value. *)
Definition dict_eqb (d1 d2 : dict) : bool :=
  Nat.eqb (length d1) (length d2)
  && forallb (fun kv => match dict_get d2 (fst kv) with
                        | Some v' => number_eqb (snd kv) v'
                        | None => false
                        end) d1.

(** [{"normal": {...}}], the value [get_telemetry] returns. *)
Record TelemetryFeedback : Type := { normal : dict }.

(** [{"telemetry": {...}}], the [log_data] of a poll cycle. *)
Record InverterData : Type := { log_telemetry : TelemetryFeedback }.

(** [a != b] on [log_data] dictionaries. *)
Definition InverterData_neb (a b : InverterData) : bool :=
  negb (dict_eqb (normal (log_telemetry a)) (normal (log_telemetry b))).

(** ** The [Telemetry] object

    Its attributes, by name; [Telemetry()] sets each of them to [None]. *)

Definition Telemetry_fields : list string :=
  ["battery_voltage"; "battery_current"; "battery_power"; "battery_soc";
   "grid_input_voltage"; "grid_line_voltage"; "grid_power"; "l1_voltage";
   "l1_current"; "l1_power"; "l1_apparent_power"; "l1_load"; "l2_voltage";
   "l2_current"; "l2_power"; "l2_apparent_power"; "l2_load";
   "total_output_power"; "total_output_load"; "pv1_voltage"; "pv1_current";
   "pv1_power"; "pv2_voltage"; "pv2_current"; "pv2_power";
   "total_pv_power"; "year"; "month"; "day"; "hour"; "minute"; "second";
   "energy_today"; "energy_year"; "conf_line_voltage";
   "conf_line_frequency"; "conf_l2_power"; "conf_chrg_float_voltage";
   "conf_chrg_max_current"; "conf_chrg_grid_current"; "conf_pointback";
   "conf_l1_cutoff"; "conf_l2_cutoff"].

Definition Telemetry_init : gmap string (option number) :=
  list_to_map ((fun k => (k, None)) <$> Telemetry_fields).

(** Computations of [get_telemetry]: they update the attributes of
    [self.telemetry] and may raise. *)
Definition TM (A : Type) : Type :=
  gmap string (option number) -> result A * gmap string (option number).

Definition tm_ret {A} (a : A) : TM A := fun t => (Ok a, t).

Definition tm_bind {A B} (c : TM A) (k : A -> TM B) : TM B :=
  fun t =>
    match c t with
    | (Ok a, t') => k a t'
    | (Raise e, t') => (Raise e, t')
    end.

Declare Scope tm_scope.
Delimit Scope tm_scope with tm.
Notation "'let*' x ':=' c 'in' k" := (tm_bind c (fun x => k))
  (at level 10, x name, c at level 100, k at level 200) : tm_scope.

(** [self.telemetry.<name> = <value>]; the stored value is what the later
    [self.telemetry.<name>] reads back. *)
Definition setattr (name : string) (value : result number) : TM number :=
  fun t =>
    match value with
    | Ok v => (Ok v, <[name := Some v]> t)
    | Raise e => (Raise e, t)
    end.

(** ** TelemetryMapper: [SolarInverter.get_telemetry]

    Every call is written with its positional arguments in the order of
    the source: the address literal first, the register dict second. *)

Definition get_telemetry (register_map : gmap Z Z)
  : TM (option TelemetryFeedback) :=
  (let feedback : dict := [] in
   let* battery_voltage := setattr "battery_voltage"
     (process_register (ObjInt 277) (ObjDict register_map) 1 false) in
   let* battery_current := setattr "battery_current"
     (process_register (ObjInt 278) (ObjDict register_map) 1 true) in
   let* battery_power := setattr "battery_power"
     (process_register (ObjInt 279) (ObjDict register_map) 0 true) in
   let* battery_soc := setattr "battery_soc"
     (process_register (ObjInt 280) (ObjDict register_map) 0 false) in
   let feedback := dict_update feedback
     [("battery_voltage", battery_voltage);
      ("battery_current", battery_current);
      ("battery_power", battery_power);
      ("battery_soc", battery_soc)] in
   let* grid_input_voltage := setattr "grid_input_voltage"
     (process_register (ObjInt 338) (ObjDict register_map) 1 false) in
   let* grid_line_voltage := setattr "grid_line_voltage"
     (process_register (ObjInt 342) (ObjDict register_map) 1 false) in
   let* grid_power := setattr "grid_power"
     (process_register (ObjInt 340) (ObjDict register_map) 0 false) in
   let feedback := dict_update feedback
     [("grid_input_voltage", grid_input_voltage);
      ("grid_line_voltage", grid_line_voltage);
      ("grid_power", grid_power)] in
   let* l1_voltage := setattr "l1_voltage"
     (process_register (ObjInt 346) (ObjDict register_map) 1 false) in
   let* l1_current := setattr "l1_current"
     (process_register (ObjInt 347) (ObjDict register_map) 1 false) in
   let* l1_power := setattr "l1_power"
     (process_register (ObjInt 348) (ObjDict register_map) 0 true) in
   let* l1_apparent_power := setattr "l1_apparent_power"
     (process_register (ObjInt 349) (ObjDict register_map) 0 true) in
   let* l1_load := setattr "l1_load"
     (process_register (ObjInt 350) (ObjDict register_map) 0 false) in
   let feedback := dict_update feedback
     [("l1_voltage", l1_voltage);
      ("l1_current", l1_current);
      ("l1_power", l1_power);
      ("l1_apparent_power", l1_apparent_power);
      ("l1_load", l1_load)] in
   let* l2_voltage := setattr "l2_voltage"
     (process_register (ObjInt 384) (ObjDict register_map) 1 false) in
   let* l2_current := setattr "l2_current"
     (process_register (ObjInt 385) (ObjDict register_map) 1 false) in
   let* l2_apparent_power := setattr "l2_apparent_power"
     (process_register (ObjInt 386) (ObjDict register_map) 0 true) in
   let* l2_power := setattr "l2_power"
     (process_register (ObjInt 387) (ObjDict register_map) 0 true) in
   let* l2_load := setattr "l2_load"
     (process_register (ObjInt 388) (ObjDict register_map) 0 false) in
   let feedback := dict_update feedback
     [("l2_voltage", l2_voltage);
      ("l2_current", l2_current);
      ("l2_apparent_power", l2_apparent_power);
      ("l2_power", l2_power);
      ("l2_load", l2_load)] in
   let* total_output_power := setattr "total_output_power"
     (process_register (ObjInt 344) (ObjDict register_map) 0 false) in
   let* total_output_load := setattr "total_output_load"
     (process_register (ObjInt 256) (ObjDict register_map) 0 false) in
   let feedback := dict_update feedback
     [("total_output_power", total_output_power);
      ("total_output_load", total_output_load)] in
   let* pv1_voltage := setattr "pv1_voltage"
     (process_register (ObjInt 351) (ObjDict register_map) 1 false) in
   let* pv1_current := setattr "pv1_current"
     (process_register (ObjInt 352) (ObjDict register_map) 1 false) in
   let* pv1_power := setattr "pv1_power"
     (process_register (ObjInt 353) (ObjDict register_map) 0 false) in
   let feedback := dict_update feedback
     [("pv1_voltage", pv1_voltage);
      ("pv1_current", pv1_current);
      ("pv1_power", pv1_power)] in
   let* pv2_voltage := setattr "pv2_voltage"
     (process_register (ObjInt 389) (ObjDict register_map) 1 false) in
   let* pv2_current := setattr "pv2_current"
     (process_register (ObjInt 390) (ObjDict register_map) 1 false) in
   let* pv2_power := setattr "pv2_power"
     (process_register (ObjInt 391) (ObjDict register_map) 0 false) in
   let feedback := dict_update feedback
     [("pv2_voltage", pv2_voltage);
      ("pv2_current", pv2_current);
      ("pv2_power", pv2_power)] in
   let* total_pv_power := setattr "total_pv_power"
     (process_register (ObjInt 302) (ObjDict register_map) 0 false) in
   let feedback := dict_update feedback
     [("total_pv_power", total_pv_power)] in
   let* year := setattr "year"
     (process_register (ObjInt 696) (ObjDict register_map) 0 false) in
   let* month := setattr "month"
     (process_register (ObjInt 697) (ObjDict register_map) 0 false) in
   let* day := setattr "day"
     (process_register (ObjInt 698) (ObjDict register_map) 0 false) in
   let* hour := setattr "hour"
     (process_register (ObjInt 699) (ObjDict register_map) 0 false) in
   let* minute := setattr "minute"
     (process_register (ObjInt 700) (ObjDict register_map) 0 false) in
   let* second := setattr "second"
     (process_register (ObjInt 701) (ObjDict register_map) 0 false) in
   let feedback := dict_update feedback
     [("year", year);
      ("month", month);
      ("day", day);
      ("hour", hour);
      ("minute", minute);
      ("second", second)] in
   let* energy_today := setattr "energy_today"
     (process_register (ObjInt 702) (ObjDict register_map) 2 false) in
   let* energy_year := setattr "energy_year"
     (process_register (ObjInt 704) (ObjDict register_map) 2 false) in
   let feedback := dict_update feedback
     [("energy_today", energy_today);
      ("energy_year", energy_year)] in
   let* conf_line_voltage := setattr "conf_line_voltage"
     (process_register (ObjInt 606) (ObjDict register_map) 1 false) in
   let* conf_l2_power := setattr "conf_l2_power"
     (process_register (ObjInt 607) (ObjDict register_map) 0 false) in
   let* conf_line_frequency := setattr "conf_line_frequency"
     (process_register (ObjInt 608) (ObjDict register_map) 0 false) in
   let* conf_chrg_float_voltage := setattr "conf_chrg_float_voltage"
     (process_register (ObjInt 638) (ObjDict register_map) 1 false) in
   let* conf_chrg_max_current := setattr "conf_chrg_max_current"
     (process_register (ObjInt 640) (ObjDict register_map) 1 false) in
   let* conf_chrg_grid_current := setattr "conf_chrg_grid_current"
     (process_register (ObjInt 641) (ObjDict register_map) 1 false) in
   let* conf_pointback := setattr "conf_pointback"
     (process_register (ObjInt 644) (ObjDict register_map) 1 false) in
   let* conf_l1_cutoff := setattr "conf_l1_cutoff"
     (process_register (ObjInt 645) (ObjDict register_map) 1 false) in
   let* conf_l2_cutoff := setattr "conf_l2_cutoff"
     (process_register (ObjInt 646) (ObjDict register_map) 1 false) in
   let feedback := dict_update feedback
     [("voltage_conf", conf_line_voltage);
      ("l2_power_conf", conf_l2_power);
      ("frequency_conf", conf_line_frequency);
      ("floating_charging_voltage", conf_chrg_float_voltage);
      ("max_total_charging_current", conf_chrg_max_current);
      ("max_grid_charging_current", conf_chrg_grid_current);
      ("soc_point_back_to_utility", conf_pointback);
      ("l1_cutoff_voltage", conf_l1_cutoff);
      ("l2_cutoff_voltage", conf_l2_cutoff)] in
   tm_ret (Some {| normal := feedback |}))%tm.

(** ** The Modbus instrument

    The serial line and the device behind it are the environment: [device]
    gives the outcome of the n-th register request, for its starting
    address and register count. *)

Inductive response : Type :=
| Registers (values : list Z)
| Failure (e : exn).

Record Instrument : Type := {
  serial_is_open : bool;
  requests : nat;
  device : nat -> Z -> Z -> response
}.

(** [instrument.read_registers(registeraddress, number_of_registers,
    functioncode=3)] *)
Definition Instrument_read_registers (ins : Instrument)
    (registeraddress number_of_registers : Z) : result (list Z) * Instrument :=
  (match device ins (requests ins) registeraddress number_of_registers with
   | Registers values => Ok values
   | Failure e => Raise e
   end,
   {| serial_is_open := serial_is_open ins;
      requests := S (requests ins);
      device := device ins |}).

(** [instrument.serial.flushOutput()] and [flushInput()]: both raise on a
    port that is not open. *)
Definition Serial_flush (ins : Instrument) : result unit :=
  if serial_is_open ins then Ok tt
  else Raise (SerialException "Attempting to use a port that is not open").

(** ** ModbusPagedReader *)

Definition FRAME_READ_RETRIES : nat := 5.
Definition REGISTER_PAGE : Z := 124.

(** [SolarInverter.read_registers]: a raised exception is logged and the
    empty list returned. *)
Definition read_registers (page_address : Z) (ins : Instrument)
  : list Z * Instrument :=
  let '(r, ins) := Instrument_read_registers ins page_address REGISTER_PAGE in
  (match r with
   | Ok values => values
   | Raise _ => []
   end, ins).

(** [for ret in range(n): values = self.read_registers(page_address)] *)
Fixpoint retry_loop (n : nat) (page_address : Z) (values : list Z)
    (ins : Instrument) : list Z * Instrument :=
  match n with
  | O => (values, ins)
  | S n' =>
      let '(values, ins) := read_registers page_address ins in
      retry_loop n' page_address values ins
  end.

(** [{page_address + i: val for i, val in enumerate(values)}] *)
Definition page_dict (page_address : Z) (values : list Z) : gmap Z Z :=
  fold_left (fun m kv => <[fst kv := snd kv]> m)
    (imap (fun i val => (page_address + Z.of_nat i, val)) values) ∅.

(** The body of [for p in range(pages)], over the pages still to visit.
    The [if len(values) > 0: break] sits at the level of the page loop,
    after the retry loop, and leaves the page loop; the merge into
    [register_map] is the last statement of the page body. *)
Fixpoint page_loop (ps : list Z) (start_address : Z)
    (register_map : gmap Z Z) (ins : Instrument) : gmap Z Z * Instrument :=
  match ps with
  | [] => (register_map, ins)
  | p :: ps' =>
      let page_address := start_address + REGISTER_PAGE * p in
      let values : list Z := [] in
      let '(values, ins) :=
        retry_loop FRAME_READ_RETRIES page_address values ins in
      if (0 <? length values)%nat then (register_map, ins)
      else
        let register_map := page_dict page_address values ∪ register_map in
        page_loop ps' start_address register_map ins
  end.

(** [SolarInverter.read_modbus]; the caller's dict is updated in place, so
    the updated dict is returned. *)
Definition read_modbus (register_map : gmap Z Z) (start_address pages : Z)
    (ins : Instrument) : gmap Z Z * Instrument :=
  page_loop (seqZ 0 pages) start_address register_map ins.

(** ** Shared application state *)

(** What is handed to [publish]: a plain string, the heartbeat document
    (its [publish_counter]; the formatted local time is not modelled) or
    the sensors document. *)
Inductive payload : Type :=
| Text (s : string)
| HeartbeatJson (publish_counter : Z)
| SensorsJson (log_data : InverterData).

Record message : Type := {
  topic : string;
  body : payload;
  retain : bool
}.

(** The Paho client: its network-loop thread ([None], or a thread that is
    alive or not) and the messages handed to [publish], oldest first. *)
Record Client : Type := {
  loop_thread : option bool;
  outbox : list message
}.

(** The [app_state.inverter] dict. *)
Record Inverter : Type := {
  address : Z;
  last_success_ts : Q;
  publish_counter : Z;
  availability : string
}.

Record AppState : Type := {
  mqtt_client : option Client;
  instrument : option Instrument;
  inverter : Inverter
}.

Definition set_instrument (app : AppState) (ins : Instrument) : AppState :=
  {| mqtt_client := mqtt_client app;
     instrument := Some ins;
     inverter := inverter app |}.

(** ** PollCycle *)

Record SolarInverter : Type := {
  modbus_id : Z;
  last_status : option InverterData;
  telemetry : gmap string (option number)
}.

(** [SolarInverter(modbus_id)] *)
Definition SolarInverter_init (modbus_id : Z) : SolarInverter :=
  {| modbus_id := modbus_id; last_status := None; telemetry := Telemetry_init |}.

(** What [read_serial_data] returns: the bare [None], or a pair. *)
Inductive retval : Type :=
| RetNone
| RetPair (log_data : option InverterData) (poll_success : bool).

Section PollCycle.

(** [self.read_modbus] and [self.get_telemetry], as the poll cycle calls
    them through [self]. *)
Variable read_modbus_m :
  gmap Z Z -> Z -> Z -> Instrument -> gmap Z Z * Instrument.
Variable get_telemetry_m :
  gmap Z Z -> TM (option TelemetryFeedback).

Definition read_serial_data_via (self : SolarInverter) (app : AppState)
  : retval * SolarInverter * AppState :=
  match instrument app with
  | None => (RetNone, self, app)
  | Some ins =>
      let register_map : gmap Z Z := ∅ in
      match (let* _ := Serial_flush ins in Serial_flush ins)%py with
      | Raise _ => (RetPair None false, self, app)
      | Ok _ =>
          let '(register_map, ins) := read_modbus_m register_map 100 3 ins in
          let '(register_map, ins) := read_modbus_m register_map 600 1 ins in
          let app := set_instrument app ins in
          let '(r, tel) := get_telemetry_m register_map (telemetry self) in
          let self := {| modbus_id := modbus_id self;
                         last_status := last_status self;
                         telemetry := tel |} in
          match r with
          | Raise _ => (RetPair None false, self, app)
          | Ok None => (RetPair None false, self, app)
          | Ok (Some telemetry_feedback) =>
              let log_data := {| log_telemetry := telemetry_feedback |} in
              if match last_status self with
                 | None => true
                 | Some previous => InverterData_neb previous log_data
                 end
              then (RetPair (Some log_data) true,
                    {| modbus_id := modbus_id self;
                       last_status := Some log_data;
                       telemetry := telemetry self |},
                    app)
              else (RetPair None true, self, app)
          end
      end
  end.

End PollCycle.

(** [SolarInverter.read_serial_data] *)
Definition read_serial_data (self : SolarInverter) (app : AppState)
  : retval * SolarInverter * AppState :=
  read_serial_data_via read_modbus get_telemetry self app.

(** ** Configuration and process-wide state *)

Record Config : Type := {
  MODBUS_ID : Z;
  MQTT_TOPIC : string;
  MQTT_UPDATE_INTERVAL : Z;
  ENABLE_HA_DISCOVERY_CONFIG : bool
}.

(** [app_state] and the module globals [last_update_ts] and
    [mqtt_connected]. *)
Record World : Type := {
  app_state : AppState;
  last_update_ts : Q;
  mqtt_connected : bool
}.

Definition Qlt_bool (a b : Q) : bool := negb (Qle_bool b a).

Definition _serial_is_open (w : World) : bool :=
  match instrument (app_state w) with
  | None => false
  | Some ins => serial_is_open ins
  end.

Definition _mqtt_loop_running (w : World) : bool :=
  match mqtt_client (app_state w) with
  | None => false
  | Some c =>
      match loop_thread c with
      | None => false
      | Some alive => alive
      end
  end.

Definition _compute_max_age_seconds (cfg : Config) : Z :=
  let cycle_pause := MQTT_UPDATE_INTERVAL cfg in
  let expected_cycle := Z.max cycle_pause 0 in
  Z.max 15 (expected_cycle * 3 + 5).

Definition _availability_topic (cfg : Config) (modbus_id : Z) : string :=
  (MQTT_TOPIC cfg +:+ "/inverter-" +:+ pretty modbus_id +:+ "/availability")%string.

Definition _heartbeat_topic (cfg : Config) (modbus_id : Z) : string :=
  (MQTT_TOPIC cfg +:+ "/inverter-" +:+ pretty modbus_id +:+ "/heartbeat")%string.

(** ** Liveness probe: [HealthHandler.do_GET]

    The status code and the body written. *)
Definition do_GET (cfg : Config) (path : string) (now : Q) (w : World)
  : Z * string :=
  if negb (String.eqb path "/health") then (404, EmptyString)
  else
    let max_age := _compute_max_age_seconds cfg in
    let healthy :=
      mqtt_connected w
      && _mqtt_loop_running w
      && _serial_is_open w
      && Qlt_bool (now - last_update_ts w) (inject_Z max_age) in
    if healthy then (200, "ok"%string) else (503, "unhealthy"%string).

(** [on_mqtt_connect] and [on_mqtt_disconnect] *)
Definition on_mqtt_connect (reason_code : Z) (w : World) : World :=
  {| app_state := app_state w;
     last_update_ts := last_update_ts w;
     mqtt_connected := reason_code =? 0 |}.

Definition on_mqtt_disconnect (w : World) : World :=
  {| app_state := app_state w;
     last_update_ts := last_update_ts w;
     mqtt_connected := false |}.

(** ** Statements of the main loop: they update the world and may raise *)

Definition WM (A : Type) : Type := World -> result A * World.

Definition wm_ret {A} (a : A) : WM A := fun w => (Ok a, w).

Definition wm_bind {A B} (c : WM A) (k : A -> WM B) : WM B :=
  fun w =>
    match c w with
    | (Ok a, w') => k a w'
    | (Raise e, w') => (Raise e, w')
    end.

Declare Scope wm_scope.
Delimit Scope wm_scope with wm.
Notation "'let*' x ':=' c 'in' k" := (wm_bind c (fun x => k))
  (at level 10, x name, c at level 100, k at level 200) : wm_scope.
Notation "c1 ;; c2" := (wm_bind c1 (fun _ => c2))
  (at level 100, c2 at level 200, right associativity) : wm_scope.

Definition with_inverter (f : Inverter -> Inverter) : WM unit :=
  fun w =>
    (Ok tt,
     {| app_state :=
          {| mqtt_client := mqtt_client (app_state w);
             instrument := instrument (app_state w);
             inverter := f (inverter (app_state w)) |};
        last_update_ts := last_update_ts w;
        mqtt_connected := mqtt_connected w |}).

Definition set_last_update_ts (now : Q) : WM unit :=
  fun w =>
    (Ok tt,
     {| app_state := app_state w;
        last_update_ts := now;
        mqtt_connected := mqtt_connected w |}).

(** [app_state.mqtt_client.publish(topic, payload, retain=...)] *)
Definition publish (topic : string) (body : payload) (retain : bool) : WM unit :=
  fun w =>
    match mqtt_client (app_state w) with
    | None =>
        (Raise (AttributeError "'NoneType' object has no attribute 'publish'"), w)
    | Some c =>
        (Ok tt,
         {| app_state :=
              {| mqtt_client :=
                   Some {| loop_thread := loop_thread c;
                           outbox := outbox c ++
                             [{| topic := topic; body := body; retain := retain |}] |};
                 instrument := instrument (app_state w);
                 inverter := inverter (app_state w) |};
            last_update_ts := last_update_ts w;
            mqtt_connected := mqtt_connected w |})
    end.

(** [time.sleep(secs)] on an int. The interpreter first converts the
    length to its clock type, a signed 64-bit count of nanoseconds, and
    raises [OverflowError] when it does not fit; it then refuses a negative
    length. A length that passes both checks is handed to the operating
    system, which may still refuse one within its uptime of the largest
    length; the statements about a sleep that returns are made for lengths
    up to [2^31 - 1] seconds. *)
Definition PyTime_MAX_SECONDS : Z := (2 ^ 63 - 1) / 10 ^ 9.

Definition sleep_error (secs : Z) : option exn :=
  if PyTime_MAX_SECONDS <? Z.abs secs
  then Some (OverflowError "timestamp too large to convert to C _PyTime_t")
  else if secs <? 0
       then Some (ValueError "sleep length must be non-negative")
       else None.

Definition sleep (secs : Z) : WM unit :=
  fun w =>
    match sleep_error secs with
    | Some e => (Raise e, w)
    | None => (Ok tt, w)
    end.

(** The state the availability rule computes for the device. *)
Definition desired_availability (cfg : Config) (inv : Inverter) (now : Q)
  : string :=
  let max_age := _compute_max_age_seconds cfg in
  let last_success := last_success_ts inv in
  let is_online :=
    Qlt_bool 0 last_success
    && Qle_bool (now - last_success) (inject_Z max_age) in
  if is_online then "online"%string else "offline"%string.

(** ** AvailabilityTracker: [_publish_inverter_availability] *)
Definition _publish_inverter_availability (cfg : Config) (now : Q) : WM unit :=
  fun w =>
    match mqtt_client (app_state w) with
    | None => (Ok tt, w)
    | Some _ =>
        let inv := inverter (app_state w) in
        let desired := desired_availability cfg inv now in
        if negb (String.eqb (availability inv) desired)
        then
          (publish (_availability_topic cfg (address inv)) (Text desired) false ;;
           with_inverter (fun inv =>
             {| address := address inv;
                last_success_ts := last_success_ts inv;
                publish_counter := publish_counter inv;
                availability := desired |}))%wm w
        else (Ok tt, w)
    end.

(** ** MainLoop *)

(** [log_data, poll_success = <value>] *)
Definition unpack_pair (r : retval) : WM (option InverterData * bool) :=
  fun w =>
    match r with
    | RetNone =>
        (Raise (TypeError "cannot unpack non-iterable NoneType object"), w)
    | RetPair log_data poll_success => (Ok (log_data, poll_success), w)
    end.

(** The [try] body of one iteration of [while True], after
    [read_serial_data] has returned [r] and [time.time()] has given [now]. *)
Definition main_loop_body (cfg : Config) (r : retval) (now : Q) : WM unit :=
  (let* unpacked := unpack_pair r in
   let log_data := fst unpacked in
   let poll_success := snd unpacked in
   (if poll_success then
      set_last_update_ts now ;;
      with_inverter (fun inv =>
        {| address := address inv;
           last_success_ts := now;
           publish_counter := publish_counter inv;
           availability := availability inv |}) ;;
      with_inverter (fun inv =>
        {| address := address inv;
           last_success_ts := last_success_ts inv;
           publish_counter := publish_counter inv + 1;
           availability := availability inv |}) ;;
      (fun w =>
         publish (_heartbeat_topic cfg (MODBUS_ID cfg))
           (HeartbeatJson (publish_counter (inverter (app_state w)))) false w) ;;
      publish (_availability_topic cfg (MODBUS_ID cfg)) (Text "online") false ;;
      with_inverter (fun inv =>
        {| address := address inv;
           last_success_ts := last_success_ts inv;
           publish_counter := publish_counter inv;
           availability := "online" |})
    else wm_ret tt) ;;
   match log_data with
   | Some d =>
       publish (MQTT_TOPIC cfg +:+ "/inverter-" +:+ pretty (MODBUS_ID cfg)
                +:+ "/sensors")%string (SensorsJson d) false
   | None => wm_ret tt
   end ;;
   _publish_inverter_availability cfg now ;;
   publish (MQTT_TOPIC cfg +:+ "/availability")%string (Text "online") false ;;
   sleep (MQTT_UPDATE_INTERVAL cfg))%wm.

(** One iteration with its [except Exception]: the exception caught, if
    any, and the world the next iteration starts from. *)
Definition main_loop_iteration (cfg : Config) (r : retval) (now : Q)
    (w : World) : option exn * World :=
  match main_loop_body cfg r now w with
  | (Ok _, w') => (None, w')
  | (Raise e, w') => (Some e, w')
  end.

(** The iterations of the loop over the successive results of
    [read_serial_data] and clock readings. *)
Fixpoint main_loop (cfg : Config) (polls : list (retval * Q)) (w : World)
  : World :=
  match polls with
  | [] => w
  | (r, now) :: polls' =>
      main_loop cfg polls' (snd (main_loop_iteration cfg r now w))
  end.

(** [main] up to the start of the loop: [client] and [ins] are what
    [initialize_mqtt] and [initialize_serial] return, [t0] is [time.time()]
    and [discovery] stands for the messages the auto-discovery collaborator
    publishes. *)
Definition main_startup (cfg : Config) (client : Client) (ins : Instrument)
    (t0 : Q) (discovery : list message) (w : World) : result unit * World :=
  ((fun w =>
      (Ok tt,
       {| app_state :=
            {| mqtt_client := Some client;
               instrument := Some ins;
               inverter := inverter (app_state w) |};
          last_update_ts := last_update_ts w;
          mqtt_connected := mqtt_connected w |})) ;;
   publish (_availability_topic cfg (MODBUS_ID cfg)) (Text "offline") false ;;
   with_inverter (fun _ =>
     {| address := MODBUS_ID cfg;
        last_success_ts := 0;
        publish_counter := 0;
        availability := "offline" |}) ;;
   set_last_update_ts t0 ;;
   (if ENABLE_HA_DISCOVERY_CONFIG cfg
    then
      fold_right (fun m k => publish (topic m) (body m) (retain m) ;; k)
        (wm_ret tt) discovery
    else wm_ret tt))%wm w.

(** The module-level state before [main] runs. [app_state.inverter] is the
    empty dict until [main] fills it: the fields given here are
    placeholders, all four overwritten by [main_startup]. *)
Definition World_init : World :=
  {| app_state :=
       {| mqtt_client := None;
          instrument := None;
          inverter := {| address := 0; last_success_ts := 0;
                         publish_counter := 0; availability := EmptyString |} |};
     last_update_ts := 0;
     mqtt_connected := false |}.

(** * Definitions used by the statements: specification-side functions
      and concrete inputs *)

(** ** RegisterDecoder *)

(** The decode rule in the words of the specification: reinterpret as
    two's complement when signed and above 32767; scale and round when
    [decimals > 0]; leave the integer unchanged when [decimals = 0]. *)
Definition decode_spec (rawValue decimals : Z) (signed : bool) : number :=
  let value :=
    if signed && (32767 <? rawValue) then rawValue - 65536 else rawValue in
  if decimals =? 0 then PyInt value
  else PyFloat (py_round (int_truediv value (10 ^ decimals)) decimals).

(** ** TelemetryMapper *)

(** The register addresses of the schema, in the order [get_telemetry]
    asks for them. *)
Definition schema_addresses : list Z :=
  [277; 278; 279; 280; 338; 342; 340; 346; 347; 348; 349; 350;
   384; 385; 386; 387; 388; 344; 256; 351; 352; 353; 389; 390; 391;
   302; 696; 697; 698; 699; 700; 701; 702; 704;
   606; 607; 608; 638; 640; 641; 644; 645; 646].

(** A register map that binds every address of the schema. *)
Definition complete_register_map : gmap Z Z :=
  list_to_map ((fun a => (a, 2200)) <$> schema_addresses).

(** ** ModbusPagedReader *)

(** A device that leaves the first four requests unanswered and answers
    every later one with the 124 registers asked for. *)
Definition fifth_attempt_device (n : nat) (registeraddress count : Z)
  : response :=
  if (n <? 4)%nat then Failure (ModbusException "No communication with the instrument")
  else Registers ((fun i => registeraddress + i) <$> seqZ 0 count).

Definition fifth_attempt_instrument : Instrument :=
  {| serial_is_open := true; requests := 0; device := fifth_attempt_device |}.

(** ** PollCycle *)

Definition is_success (r : retval) : bool :=
  match r with
  | RetPair _ true => true
  | _ => false
  end.

(** [cycles_from reader mapper h self]: starting from a freshly built
    [SolarInverter], the poll cycles run so far returned the values [h],
    oldest first, and left the object in state [self]. The shared
    application state is arbitrary at every cycle. *)
Inductive cycles_from
    (reader : gmap Z Z -> Z -> Z -> Instrument -> gmap Z Z * Instrument)
    (mapper : gmap Z Z -> TM (option TelemetryFeedback))
  : list retval -> SolarInverter -> Prop :=
| cycles_nil (id : Z) : cycles_from reader mapper [] (SolarInverter_init id)
| cycles_snoc (h : list retval) (self : SolarInverter) (app : AppState) :
    cycles_from reader mapper h self ->
    cycles_from reader mapper
      (h ++ [fst (fst (read_serial_data_via reader mapper self app))])
      (snd (fst (read_serial_data_via reader mapper self app))).

(** The snapshot a cycle decodes: [None] when flushing the port raises or
    the mapper raises or returns [None]. *)
Definition decoded_snapshot
    (reader : gmap Z Z -> Z -> Z -> Instrument -> gmap Z Z * Instrument)
    (mapper : gmap Z Z -> TM (option TelemetryFeedback))
    (self : SolarInverter) (ins : Instrument) : option InverterData :=
  if serial_is_open ins then
    let '(register_map, ins) := reader ∅ 100 3 ins in
    let '(register_map, ins) := reader register_map 600 1 ins in
    match fst (mapper register_map (telemetry self)) with
    | Ok (Some telemetry_feedback) =>
        Some {| log_telemetry := telemetry_feedback |}
    | _ => None
    end
  else None.

(** A reader and a mapper to run the cycle on: the reader stores one
    register per request, the mapper reports register 100 as the state of
    charge. *)
Definition one_register_reader (register_map : gmap Z Z)
    (start_address pages : Z) (ins : Instrument) : gmap Z Z * Instrument :=
  let '(values, ins) := read_registers start_address ins in
  (page_dict start_address (take 1 values) ∪ register_map, ins).

Definition soc_mapper (register_map : gmap Z Z)
  : TM (option TelemetryFeedback) :=
  (let* battery_soc := setattr "battery_soc"
     (process_register (ObjDict register_map) (ObjInt 100) 0 false) in
   tm_ret (Some {| normal := [("battery_soc", battery_soc)] |}))%tm.

(** ** Main loop *)

Definition count_successes (polls : list (retval * Q)) : nat :=
  length (List.filter (fun p => is_success (fst p)) polls).

Definition outbox_of (w : World) : list message :=
  match mqtt_client (app_state w) with
  | Some c => outbox c
  | None => []
  end.

(** The messages handed to the client between two states of the world. *)
Definition published_since (w w' : World) : list message :=
  drop (length (outbox_of w)) (outbox_of w').

Definition device_availability_messages (cfg : Config) (w w' : World)
  : list message :=
  List.filter
    (fun m => String.eqb (topic m)
                (_availability_topic cfg (address (inverter (app_state w)))))
    (published_since w w').

Definition default_config : Config :=
  {| MODBUS_ID := 1;
     MQTT_TOPIC := "inverter";
     MQTT_UPDATE_INTERVAL := 30;
     ENABLE_HA_DISCOVERY_CONFIG := true |}.

Definition running_client : Client :=
  {| loop_thread := Some true; outbox := [] |}.

(** A world in which the device is already stored as online. *)
Definition online_world : World :=
  {| app_state :=
       {| mqtt_client := Some running_client;
          instrument := Some fifth_attempt_instrument;
          inverter := {| address := 1; last_success_ts := 1000;
                         publish_counter := 1; availability := "online" |} |};
     last_update_ts := 1000;
     mqtt_connected := true |}.

(** A device that answers every request with one register holding the
    number of the request, and an application state around it. *)
Definition counting_device (n : nat) (registeraddress count : Z) : response :=
  Registers [Z.of_nat n].

Definition counting_app (n : nat) : AppState :=
  {| mqtt_client := Some running_client;
     instrument := Some {| serial_is_open := true; requests := n;
                           device := counting_device |};
     inverter := {| address := 1; last_success_ts := 0;
                    publish_counter := 0; availability := "offline" |} |}.

(** The messages of one iteration, by kind. *)
Definition availability_message (cfg : Config) (id : Z) (state : string)
  : message :=
  {| topic := _availability_topic cfg id; body := Text state; retain := false |}.

Definition heartbeat_message (cfg : Config) (counter : Z) : message :=
  {| topic := _heartbeat_topic cfg (MODBUS_ID cfg);
     body := HeartbeatJson counter; retain := false |}.

Definition sensors_message (cfg : Config) (d : InverterData) : message :=
  {| topic := (MQTT_TOPIC cfg +:+ "/inverter-" +:+ pretty (MODBUS_ID cfg)
               +:+ "/sensors")%string;
     body := SensorsJson d; retain := false |}.

Definition process_online_message (cfg : Config) : message :=
  {| topic := (MQTT_TOPIC cfg +:+ "/availability")%string;
     body := Text "online"; retain := false |}.

(** ** Liveness probe: the four signals, read off the state

    The thread of the client's network loop is alive; the serial port of
    the instrument is open; the last update is younger than [maxAge]. *)
Definition loop_thread_alive (w : World) : Prop :=
  exists c, mqtt_client (app_state w) = Some c /\ loop_thread c = Some true.

Definition serial_port_open (w : World) : Prop :=
  exists ins, instrument (app_state w) = Some ins /\ serial_is_open ins = true.

Definition last_update_fresh (cfg : Config) (now : Q) (w : World) : Prop :=
  (now - last_update_ts w
   < inject_Z (Z.max 15 (3 * MQTT_UPDATE_INTERVAL cfg + 5)))%Q.

(** A world given by its four signals' raw state. *)
Definition probe_world (client : option Client) (ins : option Instrument)
    (connected : bool) (last_update : Q) : World :=
  {| app_state :=
       {| mqtt_client := client;
          instrument := ins;
          inverter := {| address := 1; last_success_ts := 0;
                         publish_counter := 0; availability := "offline" |} |};
     last_update_ts := last_update;
     mqtt_connected := connected |}.

Definition client_with_thread (t : option bool) : Client :=
  {| loop_thread := t; outbox := [] |}.

Definition port (is_open : bool) : Instrument :=
  {| serial_is_open := is_open; requests := 0; device := counting_device |}.

(** The callbacks the client's network thread runs, in the order it runs
    them. *)
Inductive callback : Type :=
| Connect (reason_code : Z)
| Disconnect.

Definition run_callback (cb : callback) (w : World) : World :=
  match cb with
  | Connect reason_code => on_mqtt_connect reason_code w
  | Disconnect => on_mqtt_disconnect w
  end.

Definition run_callbacks (cbs : list callback) (w : World) : World :=
  fold_left (fun w cb => run_callback cb w) cbs w.

(** ** Definitions for the properties of the reader and of the whole loop *)

(** What [read_registers] hands back for the request numbered [n]: the
    registers the device answers with, or the empty list when the request
    raises. *)
Definition answer (ins : Instrument) (n : nat) (page_address : Z) : list Z :=
  match device ins n page_address REGISTER_PAGE with
  | Registers values => values
  | Failure _ => []
  end.

Definition with_app_state (app : AppState) (w : World) : World :=
  {| app_state := app;
     last_update_ts := last_update_ts w;
     mqtt_connected := mqtt_connected w |}.

(** One pass through the body of [while True] in [main]:
    [read_serial_data] on the shared state, then the clock reading [now],
    then the rest of the body. *)
Definition main_cycle (cfg : Config) (now : Q) (st : SolarInverter * World)
  : option exn * (SolarInverter * World) :=
  let '(r, self, app) := read_serial_data (fst st) (app_state (snd st)) in
  let '(e, w) := main_loop_iteration cfg r now (with_app_state app (snd st)) in
  (e, (self, w)).

(** The passes of the loop at the successive clock readings [nows]. *)
Fixpoint main_run (cfg : Config) (nows : list Q) (st : SolarInverter * World)
  : SolarInverter * World :=
  match nows with
  | [] => st
  | now :: nows' => main_run cfg nows' (snd (main_cycle cfg now st))
  end.

(** The clock reading of the last successful poll of a run, [t] if there
    is none. *)
Definition last_success_time (polls : list (retval * Q)) (t : Q) : Q :=
  fold_left (fun t p => if is_success (fst p) then snd p else t) polls t.

(** The counters carried by the heartbeat documents among some messages. *)
Definition heartbeat_counters (ms : list message) : list Z :=
  flat_map (fun m => match body m with
                     | HeartbeatJson counter => [counter]
                     | _ => []
                     end) ms.

(** A snapshot dictionary as the mapper builds them: no key twice, no NaN
    among the values. *)
Definition well_formed_dict (d : dict) : Prop :=
  NoDup (fst <$> d)
  /\ Forall (fun kv => number_eqb (snd kv) (snd kv) = true) d.

(** The inverter record and the messages of one iteration of the main
    loop that runs with a broker client, written out: [inv] is the record
    before the iteration. *)
Definition inverter_after (cfg : Config) (inv : Inverter) (now : Q)
    (poll_success : bool) : Inverter :=
  let polled :=
    {| address := address inv;
       last_success_ts := if poll_success then now else last_success_ts inv;
       publish_counter :=
         if poll_success then publish_counter inv + 1 else publish_counter inv;
       availability :=
         if poll_success then "online"%string else availability inv |} in
  {| address := address polled;
     last_success_ts := last_success_ts polled;
     publish_counter := publish_counter polled;
     availability := desired_availability cfg polled now |}.

Definition iteration_messages (cfg : Config) (inv : Inverter) (now : Q)
    (log_data : option InverterData) (poll_success : bool) : list message :=
  let stored := if poll_success then "online"%string else availability inv in
  let desired := availability (inverter_after cfg inv now poll_success) in
  (if poll_success
   then [heartbeat_message cfg (publish_counter inv + 1);
         availability_message cfg (MODBUS_ID cfg) "online"]
   else [])
  ++ match log_data with
     | Some d => [sensors_message cfg d]
     | None => []
     end
  ++ (if String.eqb stored desired then []
      else [availability_message cfg (address inv) desired])
  ++ [process_online_message cfg].

(** The sensors documents among some messages, and the snapshots that the
    polls of a run handed to the loop. *)
Definition sensor_documents (ms : list message) : list InverterData :=
  flat_map (fun m => match body m with
                     | SensorsJson d => [d]
                     | _ => []
                     end) ms.

Definition handed_snapshots (polls : list (retval * Q)) : list InverterData :=
  flat_map (fun p => match fst p with
                     | RetPair (Some d) _ => [d]
                     | _ => []
                     end) polls.

(** ** Configuration loading: [get_env_value] and the [Config] class

    The environment is a map from variable names to strings. A value is
    [None], an int, a bool or a string; [Config] asks for [int], [bool]
    and [str] only, and the [float] branch is not modelled. *)

Inductive ConfigValue : Type :=
| CNone
| CInt (n : Z)
| CBool (b : bool)
| CStr (s : string).

Inductive return_type : Type := TInt | TBool | TStr.

Definition ascii_lower (a : Ascii.ascii) : Ascii.ascii :=
  let n := Ascii.nat_of_ascii a in
  if ((65 <=? n) && (n <=? 90))%nat then Ascii.ascii_of_nat (n + 32) else a.

(** [s.lower()]; only its effect on ASCII letters matters for the
    comparison with the four words below. *)
Fixpoint string_lower (s : string) : string :=
  match s with
  | EmptyString => EmptyString
  | String a s' => String (ascii_lower a) (string_lower s')
  end.

(** [str(value)] *)
Definition py_str (value : ConfigValue) : string :=
  match value with
  | CNone => "None"
  | CInt n => pretty n
  | CBool b => if b then "True" else "False"
  | CStr s => s
  end.

Definition truthy_words : list string := ["true"; "1"; "yes"; "on"]%string.

Section GetEnvValue.

(** [int(s)] on a string: the integer, or [None] when it raises
    [ValueError]. *)
Variable py_int : string -> option Z.

(** [int(value)], [None] when it raises [ValueError] or [TypeError]. *)
Definition int_of_value (value : ConfigValue) : option Z :=
  match value with
  | CNone => None
  | CInt n => Some n
  | CBool b => Some (if b then 1 else 0)
  | CStr s => py_int s
  end.

Definition get_env_value (env : gmap string string) (var_name : string)
    (default : ConfigValue) (return_type : return_type) : ConfigValue :=
  let value :=
    match env !! var_name with
    | Some s => CStr s
    | None => default
    end in
  match value with
  | CNone => default
  | CStr EmptyString => default
  | _ =>
      match return_type with
      | TInt =>
          match int_of_value value with
          | Some n => CInt n
          | None => default
          end
      | TBool =>
          match value with
          | CBool b => CBool b
          | _ =>
              CBool (bool_decide (string_lower (py_str value) ∈ truthy_words))
          end
      | TStr => CStr (py_str value)
      end
  end.

(** The attributes of [Config] that the modelled code reads, as the class
    body computes them. Each default has the type asked for, so each
    result has it too (see [get_env_value_typed]); the fallbacks of the
    matches below are never taken. *)
Definition Config_of_env (env : gmap string string) : Config :=
  {| MODBUS_ID :=
       match get_env_value env "MODBUS_ID" (CInt 1) TInt with
       | CInt n => n
       | _ => 1
       end;
     MQTT_TOPIC :=
       match get_env_value env "MQTT_TOPIC" (CStr "inverter") TStr with
       | CStr s => s
       | _ => "inverter"
       end;
     MQTT_UPDATE_INTERVAL :=
       match get_env_value env "MQTT_UPDATE_INTERVAL" (CInt 30) TInt with
       | CInt n => n
       | _ => 30
       end;
     ENABLE_HA_DISCOVERY_CONFIG :=
       match get_env_value env "ENABLE_HA_DISCOVERY_CONFIG" (CBool true) TBool with
       | CBool b => b
       | _ => true
       end |}.

End GetEnvValue.


(** ** Discovery documents: [ha_auto_discovery.py]

    The part of the module that [main] runs:
    [AutoDiscoveryConfig.create_autodiscovery_sensors] and what it calls.
    A JSON value is a tree; an object keeps its keys in insertion order. *)

Module Discovery.

#[local] Unset Elimination Schemes.

Inductive json : Type :=
| JStr (s : string)
| JInt (n : Z)
| JList (items : list json)
| JObj (fields : list (string * json)).

#[local] Set Elimination Schemes.

(** [o[k] = v] and [o.get(k)] on the fields of an object. *)
Fixpoint obj_set (o : list (string * json)) (k : string) (v : json)
  : list (string * json) :=
  match o with
  | [] => [(k, v)]
  | (k', v') :: o' =>
      if String.eqb k' k then (k', v) :: o' else (k', v') :: obj_set o' k v
  end.

Fixpoint obj_get (o : list (string * json)) (k : string) : option json :=
  match o with
  | [] => None
  | (k', v') :: o' => if String.eqb k' k then Some v' else obj_get o' k
  end.

Definition BASE_SENSOR : list (string * json) :=
  [("name", JStr "Solar Inverter Data Logger");
   ("uniq_id", JStr "");
   ("obj_id", JStr "");
   ("stat_t", JStr "");
   ("val_tpl", JStr "");
   ("avty", JList []);
   ("dev", JObj [])]%string.

Definition DEVICE_BASE_CONFIG : list (string * json) :=
  [("hw", JStr "11k");
   ("sw", JStr "0.0");
   ("mdl", JStr "Solar Inverter 11kW");
   ("mf", JStr "No Name")]%string.

(** One entry of [TELEMETRY_SENSOR_TEMPLATES], as the keyword arguments it
    gives [create_sensor_config]: a key the entry does not have takes the
    default of the parameter ([False] for [invert_value], [None] for the
    others). *)
Record template : Type := {
  name : string;
  value_template_key : string;
  invert_value : bool;
  unit_of_measurement : option string;
  suggested_display_precision : option Z;
  icon : option string;
  device_class : option string;
  state_class : option string;
  entity_category : option string
}.

Local Open Scope string_scope.

Definition TELEMETRY_SENSOR_TEMPLATES : list template :=
  [{| name := "Battery Voltage"; value_template_key := "battery_voltage";
      invert_value := false;
      unit_of_measurement := (Some "V");
      suggested_display_precision := (Some 1);
      icon := (Some "flash-triangle-outline");
      device_class := (Some "voltage");
      state_class := None;
      entity_category := None |};
   {| name := "Battery Current"; value_template_key := "battery_current";
      invert_value := false;
      unit_of_measurement := (Some "A");
      suggested_display_precision := (Some 1);
      icon := (Some "mdi:current-ac");
      device_class := (Some "current");
      state_class := None;
      entity_category := None |};
   {| name := "Battery Power"; value_template_key := "battery_power";
      invert_value := false;
      unit_of_measurement := (Some "W");
      suggested_display_precision := (Some 0);
      icon := (Some "mdi:flash-outline");
      device_class := (Some "power");
      state_class := None;
      entity_category := None |};
   {| name := "Battery State of Charge"; value_template_key := "battery_soc";
      invert_value := false;
      unit_of_measurement := (Some "%");
      suggested_display_precision := (Some 0);
      icon := (Some "mdi:battery-charging-50");
      device_class := (Some "battery");
      state_class := None;
      entity_category := None |};
   {| name := "Grid Input Voltage"; value_template_key := "grid_input_voltage";
      invert_value := false;
      unit_of_measurement := (Some "V");
      suggested_display_precision := (Some 1);
      icon := (Some "mdi:flash-triangle-outline");
      device_class := (Some "voltage");
      state_class := (Some "measurement");
      entity_category := None |};
   {| name := "Grid Line Voltage"; value_template_key := "grid_line_voltage";
      invert_value := false;
      unit_of_measurement := (Some "V");
      suggested_display_precision := (Some 1);
      icon := (Some "mdi:flash-triangle-outline");
      device_class := (Some "voltage");
      state_class := (Some "measurement");
      entity_category := None |};
   {| name := "Grid Power"; value_template_key := "grid_power";
      invert_value := false;
      unit_of_measurement := (Some "W");
      suggested_display_precision := (Some 0);
      icon := (Some "mdi:flash-outline");
      device_class := (Some "power");
      state_class := (Some "measurement");
      entity_category := None |};
   {| name := "L1 Voltage"; value_template_key := "l1_voltage";
      invert_value := false;
      unit_of_measurement := (Some "V");
      suggested_display_precision := (Some 1);
      icon := (Some "mdi:flash-triangle-outline");
      device_class := (Some "voltage");
      state_class := (Some "measurement");
      entity_category := None |};
   {| name := "L1 Current"; value_template_key := "l1_current";
      invert_value := false;
      unit_of_measurement := (Some "A");
      suggested_display_precision := (Some 1);
      icon := (Some "mdi:current-ac");
      device_class := (Some "current");
      state_class := (Some "measurement");
      entity_category := None |};
   {| name := "L1 Power"; value_template_key := "l1_power";
      invert_value := false;
      unit_of_measurement := (Some "W");
      suggested_display_precision := (Some 0);
      icon := (Some "mdi:flash-outline");
      device_class := (Some "power");
      state_class := (Some "measurement");
      entity_category := None |};
   {| name := "L1 Apparent Power"; value_template_key := "l1_apparent_power";
      invert_value := false;
      unit_of_measurement := (Some "VA");
      suggested_display_precision := (Some 0);
      icon := (Some "mdi:flash-outline");
      device_class := (Some "apparent_power");
      state_class := (Some "measurement");
      entity_category := None |};
   {| name := "L1 Load"; value_template_key := "l1_load";
      invert_value := false;
      unit_of_measurement := (Some "%");
      suggested_display_precision := (Some 0);
      icon := (Some "mdi:reload");
      device_class := (Some "battery");
      state_class := (Some "measurement");
      entity_category := None |};
   {| name := "L2 Voltage"; value_template_key := "l2_voltage";
      invert_value := false;
      unit_of_measurement := (Some "V");
      suggested_display_precision := (Some 1);
      icon := (Some "mdi:flash-triangle-outline");
      device_class := (Some "voltage");
      state_class := (Some "measurement");
      entity_category := None |};
   {| name := "L2 Current"; value_template_key := "l2_current";
      invert_value := false;
      unit_of_measurement := (Some "A");
      suggested_display_precision := (Some 1);
      icon := (Some "mdi:current-ac");
      device_class := (Some "current");
      state_class := (Some "measurement");
      entity_category := None |};
   {| name := "L2 Power"; value_template_key := "l2_power";
      invert_value := false;
      unit_of_measurement := (Some "W");
      suggested_display_precision := (Some 0);
      icon := (Some "mdi:flash-outline");
      device_class := (Some "power");
      state_class := (Some "measurement");
      entity_category := None |};
   {| name := "L2 Apparent Power"; value_template_key := "l2_apparent_power";
      invert_value := false;
      unit_of_measurement := (Some "VA");
      suggested_display_precision := (Some 0);
      icon := (Some "mdi:flash-outline");
      device_class := (Some "apparent_power");
      state_class := (Some "measurement");
      entity_category := None |};
   {| name := "L2 Load"; value_template_key := "l2_load";
      invert_value := false;
      unit_of_measurement := (Some "%");
      suggested_display_precision := (Some 0);
      icon := (Some "mdi:reload");
      device_class := (Some "battery");
      state_class := (Some "measurement");
      entity_category := None |};
   {| name := "Total Output Power"; value_template_key := "total_output_power";
      invert_value := false;
      unit_of_measurement := (Some "VA");
      suggested_display_precision := (Some 0);
      icon := (Some "mdi:flash-outline");
      device_class := (Some "apparent_power");
      state_class := (Some "measurement");
      entity_category := None |};
   {| name := "Total Output Load"; value_template_key := "total_output_load";
      invert_value := false;
      unit_of_measurement := (Some "%");
      suggested_display_precision := (Some 0);
      icon := (Some "mdi:reload");
      device_class := (Some "battery");
      state_class := (Some "measurement");
      entity_category := None |};
   {| name := "PV1 Voltage"; value_template_key := "pv1_voltage";
      invert_value := false;
      unit_of_measurement := (Some "V");
      suggested_display_precision := (Some 1);
      icon := (Some "mdi:flash-triangle-outline");
      device_class := (Some "voltage");
      state_class := (Some "measurement");
      entity_category := None |};
   {| name := "PV1 Current"; value_template_key := "pv1_current";
      invert_value := false;
      unit_of_measurement := (Some "A");
      suggested_display_precision := (Some 1);
      icon := (Some "mdi:current-ac");
      device_class := (Some "current");
      state_class := (Some "measurement");
      entity_category := None |};
   {| name := "PV1 Power"; value_template_key := "pv1_power";
      invert_value := false;
      unit_of_measurement := (Some "W");
      suggested_display_precision := (Some 0);
      icon := (Some "mdi:flash-outline");
      device_class := (Some "power");
      state_class := (Some "measurement");
      entity_category := None |};
   {| name := "PV2 Voltage"; value_template_key := "pv2_voltage";
      invert_value := false;
      unit_of_measurement := (Some "V");
      suggested_display_precision := (Some 1);
      icon := (Some "mdi:flash-triangle-outline");
      device_class := (Some "voltage");
      state_class := (Some "measurement");
      entity_category := None |};
   {| name := "PV2 Current"; value_template_key := "pv2_current";
      invert_value := false;
      unit_of_measurement := (Some "A");
      suggested_display_precision := (Some 1);
      icon := (Some "mdi:current-ac");
      device_class := (Some "current");
      state_class := (Some "measurement");
      entity_category := None |};
   {| name := "PV2 Power"; value_template_key := "pv2_power";
      invert_value := false;
      unit_of_measurement := (Some "W");
      suggested_display_precision := (Some 0);
      icon := (Some "mdi:flash-outline");
      device_class := (Some "power");
      state_class := (Some "measurement");
      entity_category := None |};
   {| name := "Total PV Power"; value_template_key := "total_pv_power";
      invert_value := false;
      unit_of_measurement := (Some "W");
      suggested_display_precision := (Some 0);
      icon := (Some "mdi:flash-outline");
      device_class := (Some "power");
      state_class := (Some "measurement");
      entity_category := None |};
   {| name := "Year"; value_template_key := "year";
      invert_value := false;
      unit_of_measurement := None;
      suggested_display_precision := None;
      icon := (Some "mdi:calendar-month");
      device_class := None;
      state_class := None;
      entity_category := None |};
   {| name := "Month"; value_template_key := "month";
      invert_value := false;
      unit_of_measurement := None;
      suggested_display_precision := None;
      icon := (Some "mdi:calendar-month");
      device_class := None;
      state_class := None;
      entity_category := None |};
   {| name := "Day"; value_template_key := "day";
      invert_value := false;
      unit_of_measurement := None;
      suggested_display_precision := None;
      icon := (Some "mdi:calendar-today");
      device_class := None;
      state_class := None;
      entity_category := None |};
   {| name := "Hour"; value_template_key := "hour";
      invert_value := false;
      unit_of_measurement := None;
      suggested_display_precision := None;
      icon := (Some "mdi:clock-outline");
      device_class := None;
      state_class := None;
      entity_category := None |};
   {| name := "Minute"; value_template_key := "minute";
      invert_value := false;
      unit_of_measurement := None;
      suggested_display_precision := None;
      icon := (Some "mdi:clock-outline");
      device_class := None;
      state_class := None;
      entity_category := None |};
   {| name := "Second"; value_template_key := "second";
      invert_value := false;
      unit_of_measurement := None;
      suggested_display_precision := None;
      icon := (Some "mdi:clock-outline");
      device_class := None;
      state_class := None;
      entity_category := None |};
   {| name := "Energy Today"; value_template_key := "energy_today";
      invert_value := false;
      unit_of_measurement := (Some "kWh");
      suggested_display_precision := (Some 2);
      icon := (Some "mdi:flash-outline");
      device_class := (Some "energy");
      state_class := (Some "total_increasing");
      entity_category := None |};
   {| name := "Energy Year"; value_template_key := "energy_year";
      invert_value := false;
      unit_of_measurement := (Some "kWh");
      suggested_display_precision := (Some 2);
      icon := (Some "mdi:flash-outline");
      device_class := (Some "energy");
      state_class := (Some "total_increasing");
      entity_category := None |};
   {| name := "Voltage Configuration"; value_template_key := "voltage_conf";
      invert_value := false;
      unit_of_measurement := (Some "V");
      suggested_display_precision := (Some 1);
      icon := (Some "mdi:flash-triangle-outline");
      device_class := (Some "voltage");
      state_class := (Some "measurement");
      entity_category := None |};
   {| name := "L2 Power Configuration"; value_template_key := "l2_power_conf";
      invert_value := false;
      unit_of_measurement := (Some "W");
      suggested_display_precision := (Some 0);
      icon := (Some "mdi:flash-outline");
      device_class := (Some "power");
      state_class := (Some "measurement");
      entity_category := None |};
   {| name := "Frequency Configuration"; value_template_key := "frequency_conf";
      invert_value := false;
      unit_of_measurement := (Some "Hz");
      suggested_display_precision := (Some 0);
      icon := (Some "mdi:waveform");
      device_class := (Some "frequency");
      state_class := (Some "measurement");
      entity_category := None |};
   {| name := "Floating Charging Voltage"; value_template_key := "floating_charging_voltage";
      invert_value := false;
      unit_of_measurement := (Some "V");
      suggested_display_precision := (Some 1);
      icon := (Some "mdi:flash-triangle-outline");
      device_class := (Some "voltage");
      state_class := (Some "measurement");
      entity_category := None |};
   {| name := "Max Total Charging Current"; value_template_key := "max_total_charging_current";
      invert_value := false;
      unit_of_measurement := (Some "A");
      suggested_display_precision := (Some 1);
      icon := (Some "mdi:current-ac");
      device_class := (Some "current");
      state_class := (Some "measurement");
      entity_category := None |};
   {| name := "Max Grid Charging Current"; value_template_key := "max_grid_charging_current";
      invert_value := false;
      unit_of_measurement := (Some "A");
      suggested_display_precision := (Some 1);
      icon := (Some "mdi:current-ac");
      device_class := (Some "current");
      state_class := (Some "measurement");
      entity_category := None |};
   {| name := "SOC Point Back to Utility"; value_template_key := "soc_point_back_to_utility";
      invert_value := false;
      unit_of_measurement := (Some "V");
      suggested_display_precision := (Some 1);
      icon := (Some "mdi:flash-triangle-outline");
      device_class := (Some "voltage");
      state_class := (Some "measurement");
      entity_category := None |};
   {| name := "L1 Cutoff Voltage"; value_template_key := "l1_cutoff_voltage";
      invert_value := false;
      unit_of_measurement := (Some "V");
      suggested_display_precision := (Some 1);
      icon := (Some "mdi:flash-triangle-outline");
      device_class := (Some "voltage");
      state_class := (Some "measurement");
      entity_category := None |};
   {| name := "L2 Cutoff Voltage"; value_template_key := "l2_cutoff_voltage";
      invert_value := false;
      unit_of_measurement := (Some "V");
      suggested_display_precision := (Some 1);
      icon := (Some "mdi:flash-triangle-outline");
      device_class := (Some "voltage");
      state_class := (Some "measurement");
      entity_category := None |}].

Local Close Scope string_scope.

(** What is handed to [mqtt_client.publish]. *)
Record document : Type := {
  doc_topic : string;
  doc_config : list (string * json);
  doc_retain : bool;
  doc_qos : Z
}.

(** The [AutoDiscoveryConfig] object. Its client is [None] or holds the
    documents published so far, oldest first. *)
Record AutoDiscoveryConfig : Type := {
  mqtt_topic : string;
  discovery_prefix : string;
  invert_ha_dis_charge_measurements : bool;
  mqtt_client : option (list document);
  _device_info_published : gset Z
}.

Definition set_published (self : AutoDiscoveryConfig) (s : gset Z)
  : AutoDiscoveryConfig :=
  {| mqtt_topic := mqtt_topic self;
     discovery_prefix := discovery_prefix self;
     invert_ha_dis_charge_measurements := invert_ha_dis_charge_measurements self;
     mqtt_client := mqtt_client self;
     _device_info_published := s |}.

Definition _add_device_info (self : AutoDiscoveryConfig)
    (entity : list (string * json)) (modbus_id : Z)
  : list (string * json) * AutoDiscoveryConfig :=
  if bool_decide (modbus_id ∉ _device_info_published self) then
    let dev := DEVICE_BASE_CONFIG in
    let dev := obj_set dev "name" (JStr ("Inverter-" +:+ pretty modbus_id)) in
    let dev := obj_set dev "ids" (JStr ("Inverter_" +:+ pretty modbus_id)) in
    let dev :=
      if 0 <? modbus_id then obj_set dev "via_device" (JStr "inverter_0")
      else dev in
    (obj_set entity "dev" (JObj dev),
     set_published self ({[modbus_id]} ∪ _device_info_published self))
  else
    let dev := [("ids"%string, JStr ("inverter_" +:+ pretty modbus_id))] in
    let dev :=
      if 0 <? modbus_id then obj_set dev "via_device" (JStr "inverter_0")
      else dev in
    (obj_set entity "dev" (JObj dev), self).

Definition _build_availability (self : AutoDiscoveryConfig) (modbus_id : Z)
  : json :=
  JList
    [JObj [("t"%string, JStr (mqtt_topic self +:+ "/availability"))];
     JObj [("t"%string,
            JStr (mqtt_topic self +:+ "/inverter-" +:+ pretty modbus_id
                  +:+ "/availability"))]].

Definition _build_base_entity (self : AutoDiscoveryConfig) (modbus_id : Z)
    (name value_template uniq_obj_id : string) (state_topic : option string)
  : list (string * json) * AutoDiscoveryConfig :=
  let entity := BASE_SENSOR in
  let '(entity, self) := _add_device_info self entity modbus_id in
  let entity := obj_set entity "name" (JStr name) in
  let entity := obj_set entity "avty" (_build_availability self modbus_id) in
  let entity := obj_set entity "avty_mode" (JStr "all") in
  let entity :=
    obj_set entity "stat_t"
      (JStr match state_topic with
            | Some (String a t) => String a t
            | _ => mqtt_topic self +:+ "/inverter-" +:+ pretty modbus_id
                   +:+ "/sensors"
            end) in
  let entity := obj_set entity "val_tpl" (JStr value_template) in
  let entity := obj_set entity "uniq_id" (JStr uniq_obj_id) in
  let entity := obj_set entity "obj_id" (JStr uniq_obj_id) in
  (entity, self).

(** [for key, value in optional_fields.items(): if value is not None:
    entity[key] = value] *)
Definition _apply_optional_fields (entity : list (string * json))
    (optional_fields : list (string * option json)) : list (string * json) :=
  fold_left (fun entity kv =>
               match snd kv with
               | Some value => obj_set entity (fst kv) value
               | None => entity
               end) optional_fields entity.

(** [_publish_config]: the broker call sits in a [try]; without a client
    the exception is logged and nothing is published. *)
Definition _publish_config (self : AutoDiscoveryConfig) (entity_type : string)
    (modbus_id : Z) (name value_template_key : string)
    (config : list (string * json)) : AutoDiscoveryConfig :=
  let discovery_topic :=
    (discovery_prefix self +:+ "/" +:+ entity_type +:+ "/inverter-"
     +:+ pretty modbus_id +:+ "/" +:+ value_template_key +:+ "/config")%string in
  {| mqtt_topic := mqtt_topic self;
     discovery_prefix := discovery_prefix self;
     invert_ha_dis_charge_measurements := invert_ha_dis_charge_measurements self;
     mqtt_client :=
       match mqtt_client self with
       | Some docs =>
           Some (docs ++ [{| doc_topic := discovery_topic;
                             doc_config := config;
                             doc_retain := true;
                             doc_qos := 1 |}])
       | None => None
       end;
     _device_info_published := _device_info_published self |}.

Definition _build_sensor_config (self : AutoDiscoveryConfig) (modbus_id : Z)
    (value_template_group : string) (t : template)
  : list (string * json) * AutoDiscoveryConfig :=
  let value_template_expr :=
    ("value_json." +:+ value_template_group +:+ ".normal."
     +:+ value_template_key t)%string in
  let '(sensor, self') :=
    _build_base_entity self modbus_id (name t)
      (if invert_value t && invert_ha_dis_charge_measurements self
       then "{{ (" +:+ value_template_expr +:+ " | float) * -1 }}"
       else "{{ " +:+ value_template_expr +:+ " }}")%string
      ("inverter_" +:+ pretty modbus_id +:+ "_" +:+ value_template_key t)%string
      None in
  let optional_fields :=
    [("stat_cla", JStr <$> state_class t);
     ("unit_of_meas", JStr <$> unit_of_measurement t);
     ("sug_dsp_prc", JInt <$> suggested_display_precision t);
     ("ic", JStr <$> icon t);
     ("ent_cat", JStr <$> entity_category t);
     ("dev_cla", JStr <$> device_class t)]%string in
  (_apply_optional_fields sensor optional_fields, self').

(** [create_sensor_config], with [_publish_sensor_config] *)
Definition create_sensor_config (self : AutoDiscoveryConfig) (modbus_id : Z)
    (value_template_group : string) (t : template) : AutoDiscoveryConfig :=
  let '(sensor_config, self) :=
    _build_sensor_config self modbus_id value_template_group t in
  _publish_config self "sensor" modbus_id (name t) (value_template_key t)
    sensor_config.

Definition create_heartbeat_sensor_config (self : AutoDiscoveryConfig)
    (modbus_id : Z) : AutoDiscoveryConfig :=
  let name := "Last Publish"%string in
  let value_template_key := "last_publish"%string in
  let state_topic :=
    (mqtt_topic self +:+ "/inverter-" +:+ pretty modbus_id +:+ "/heartbeat")%string in
  let value_template := "{{ value_json.last_publish }}"%string in
  let '(sensor, self) :=
    _build_base_entity self modbus_id name value_template
      ("inverter_" +:+ pretty modbus_id +:+ "_" +:+ value_template_key)%string
      (Some state_topic) in
  let sensor :=
    _apply_optional_fields sensor
      [("ic"%string, Some (JStr "mdi:update"));
       ("ent_cat"%string, Some (JStr "diagnostic"))] in
  _publish_config self "sensor" modbus_id name value_template_key sensor.

Definition create_sensors_from (templates : list template)
    (self : AutoDiscoveryConfig) (modbus_id : Z) : AutoDiscoveryConfig :=
  fold_left (fun self t => create_sensor_config self modbus_id "telemetry" t)
    templates self.

Definition create_autodiscovery_sensors (self : AutoDiscoveryConfig)
    (modbus_id : Z) : AutoDiscoveryConfig :=
  let self := set_published self (_device_info_published self ∖ {[modbus_id]}) in
  let self := create_sensors_from TELEMETRY_SENSOR_TEMPLATES self modbus_id in
  create_heartbeat_sensor_config self modbus_id.

(** [AutoDiscoveryConfig(...)] as [main] builds it, with a client that has
    published nothing yet. *)
Definition init (mqtt_topic discovery_prefix : string) (invert : bool)
  : AutoDiscoveryConfig :=
  {| mqtt_topic := mqtt_topic;
     discovery_prefix := discovery_prefix;
     invert_ha_dis_charge_measurements := invert;
     mqtt_client := Some [];
     _device_info_published := ∅ |}.

(** The documents a client holds. *)
Definition documents (self : AutoDiscoveryConfig) : list document :=
  match mqtt_client self with
  | Some docs => docs
  | None => []
  end.

End Discovery.

(** The two device blocks [_add_device_info] writes, the topic of a
    discovery document and the entity [_build_base_entity] returns, written
    out. *)
Definition full_device_block (modbus_id : Z)
  : list (string * Discovery.json) :=
  [("hw", Discovery.JStr "11k");
   ("sw", Discovery.JStr "0.0");
   ("mdl", Discovery.JStr "Solar Inverter 11kW");
   ("mf", Discovery.JStr "No Name");
   ("name", Discovery.JStr ("Inverter-" +:+ pretty modbus_id));
   ("ids", Discovery.JStr ("Inverter_" +:+ pretty modbus_id))]%string
  ++ (if 0 <? modbus_id
      then [("via_device"%string, Discovery.JStr "inverter_0")] else []).

Definition short_device_block (modbus_id : Z)
  : list (string * Discovery.json) :=
  [("ids"%string, Discovery.JStr ("inverter_" +:+ pretty modbus_id))]
  ++ (if 0 <? modbus_id
      then [("via_device"%string, Discovery.JStr "inverter_0")] else []).

Definition discovery_topic (prefix : string) (modbus_id : Z) (key : string)
  : string :=
  (prefix +:+ "/sensor/inverter-" +:+ pretty modbus_id +:+ "/" +:+ key
   +:+ "/config")%string.

Definition base_entity (mqtt_topic : string) (modbus_id : Z)
    (name value_template uniq_obj_id state_topic : string)
    (dev : list (string * Discovery.json)) : list (string * Discovery.json) :=
  [("name", Discovery.JStr name);
   ("uniq_id", Discovery.JStr uniq_obj_id);
   ("obj_id", Discovery.JStr uniq_obj_id);
   ("stat_t", Discovery.JStr state_topic);
   ("val_tpl", Discovery.JStr value_template);
   ("avty",
    Discovery.JList
      [Discovery.JObj
         [("t", Discovery.JStr (mqtt_topic +:+ "/availability"))];
       Discovery.JObj
         [("t", Discovery.JStr (mqtt_topic +:+ "/inverter-"
                                +:+ pretty modbus_id +:+ "/availability"))]]);
   ("dev", Discovery.JObj dev);
   ("avty_mode", Discovery.JStr "all")]%string.

(** The documents [create_sensor_config] and
    [create_heartbeat_sensor_config] publish, written out: [first] tells
    whether the id is not yet in [_device_info_published]. *)
Definition sensor_document (mqtt_topic prefix : string) (invert first : bool)
    (modbus_id : Z) (group : string) (t : Discovery.template)
  : Discovery.document :=
  let expr :=
    ("value_json." +:+ group +:+ ".normal."
     +:+ Discovery.value_template_key t)%string in
  {| Discovery.doc_topic :=
       discovery_topic prefix modbus_id (Discovery.value_template_key t);
     Discovery.doc_config :=
       Discovery._apply_optional_fields
         (base_entity mqtt_topic modbus_id (Discovery.name t)
            (if Discovery.invert_value t && invert
             then "{{ (" +:+ expr +:+ " | float) * -1 }}"
             else "{{ " +:+ expr +:+ " }}")%string
            ("inverter_" +:+ pretty modbus_id +:+ "_"
             +:+ Discovery.value_template_key t)%string
            (mqtt_topic +:+ "/inverter-" +:+ pretty modbus_id +:+ "/sensors")%string
            (if first then full_device_block modbus_id
             else short_device_block modbus_id))
         [("stat_cla", Discovery.JStr <$> Discovery.state_class t);
          ("unit_of_meas", Discovery.JStr <$> Discovery.unit_of_measurement t);
          ("sug_dsp_prc",
           Discovery.JInt <$> Discovery.suggested_display_precision t);
          ("ic", Discovery.JStr <$> Discovery.icon t);
          ("ent_cat", Discovery.JStr <$> Discovery.entity_category t);
          ("dev_cla", Discovery.JStr <$> Discovery.device_class t)]%string;
     Discovery.doc_retain := true;
     Discovery.doc_qos := 1 |}.

Definition heartbeat_document (mqtt_topic prefix : string) (first : bool)
    (modbus_id : Z) : Discovery.document :=
  {| Discovery.doc_topic := discovery_topic prefix modbus_id "last_publish";
     Discovery.doc_config :=
       base_entity mqtt_topic modbus_id "Last Publish"
         "{{ value_json.last_publish }}"
         ("inverter_" +:+ pretty modbus_id +:+ "_last_publish")%string
         (mqtt_topic +:+ "/inverter-" +:+ pretty modbus_id +:+ "/heartbeat")%string
         (if first then full_device_block modbus_id
          else short_device_block modbus_id)
       ++ [("ic", Discovery.JStr "mdi:update");
           ("ent_cat", Discovery.JStr "diagnostic")]%string;
     Discovery.doc_retain := true;
     Discovery.doc_qos := 1 |}.

Definition expected_sensor_documents (mqtt_topic prefix : string)
    (invert : bool) (modbus_id : Z) (templates : list Discovery.template)
  : list Discovery.document :=
  match templates with
  | [] => []
  | t0 :: rest =>
      sensor_document mqtt_topic prefix invert true modbus_id "telemetry" t0
      :: map (sensor_document mqtt_topic prefix invert false modbus_id
                "telemetry") rest
  end.

Definition expected_documents (mqtt_topic prefix : string) (invert : bool)
    (modbus_id : Z) (templates : list Discovery.template)
  : list Discovery.document :=
  expected_sensor_documents mqtt_topic prefix invert modbus_id templates
  ++ [heartbeat_document mqtt_topic prefix
        (match templates with [] => true | _ => false end) modbus_id].

(** The device block and the unique id a discovery document carries. *)
Definition device_block (d : Discovery.document) : option Discovery.json :=
  Discovery.obj_get (Discovery.doc_config d) "dev".

Definition unique_id (d : Discovery.document) : option Discovery.json :=
  Discovery.obj_get (Discovery.doc_config d) "uniq_id".

(** A discovery document that is retained, published with QoS 1, lists
    the process and device availability topics of [main] with mode "all",
    and has the given state topic. *)
Definition points_at (cfg : Config) (modbus_id : Z) (state_topic : string)
    (d : Discovery.document) : Prop :=
  Discovery.doc_retain d = true
  /\ Discovery.doc_qos d = 1
  /\ Discovery.obj_get (Discovery.doc_config d) "avty"
     = Some (Discovery.JList
               [Discovery.JObj
                  [("t"%string,
                    Discovery.JStr (topic (process_online_message cfg)))];
                Discovery.JObj
                  [("t"%string,
                    Discovery.JStr (_availability_topic cfg modbus_id))]])
  /\ Discovery.obj_get (Discovery.doc_config d) "avty_mode"
     = Some (Discovery.JStr "all")
  /\ Discovery.obj_get (Discovery.doc_config d) "stat_t"
     = Some (Discovery.JStr state_topic).

(** * Theorems *)

(** ** RegisterDecoder *)

(** C3. For a register map binding [a] to the raw value [v] and
    [decimals >= 0], [process_register] returns the spec's decode of [v]:
    [v - 65536] when signed and [v > 32767] (else [v]), divided by
    [10 ^ decimals] and rounded to [decimals] places when [decimals > 0],
    unchanged when [decimals = 0]. In particular 65535 signed with no
    decimals decodes to -1 and 2200 unsigned with one decimal to 220.0. *)
Theorem process_register_decodes (register_map : gmap Z Z) (a v decimals : Z)
    (signed : bool) :
  register_map !! a = Some v ->
  0 <= decimals ->
  process_register (ObjDict register_map) (ObjInt a) decimals signed
    = Ok (decode_spec v decimals signed)
  /\ decode_spec 65535 0 true = PyInt (-1)
  /\ decode_spec 2200 1 false = PyFloat 220%float.
Proof.
  intros Hv Hd. split; [|split; reflexivity].
  unfold process_register, decode_spec, py_getitem, result_bind.
  rewrite Hv.
  destruct (Z.ltb_spec 0 decimals), (Z.eqb_spec decimals 0); try lia; reflexivity.
Qed.

Lemma process_register_decodes_witness :
  process_register (ObjDict {[277 := 2200]}) (ObjInt 277) 1 false
    = Ok (decode_spec 2200 1 false)
  /\ decode_spec 65535 0 true = PyInt (-1)
  /\ decode_spec 2200 1 false = PyFloat 220%float.
Proof.
  apply (process_register_decodes {[277 := 2200]} 277 2200 1 false).
  - reflexivity.
  - lia.
Defined.

(** The float results are the binary64 values Python prints as -0.1,
    123.45 and -327.68; rounding works on the exact binary value, ties to
    even: [round(2.675, 2)] is 2.67 and [round(0.125, 2)] is 0.12. *)
Example decode_signed_one_decimal :
  process_register (ObjDict {[278 := 65535]}) (ObjInt 278) 1 true
  = Ok (PyFloat (-0x1.999999999999ap-4)%float).
Proof. reflexivity. Qed.

Example decode_two_decimals :
  process_register (ObjDict {[702 := 12345]}) (ObjInt 702) 2 false
  = Ok (PyFloat 0x1.edccccccccccdp+6%float)
  /\ process_register (ObjDict {[702 := 32768]}) (ObjInt 702) 2 true
     = Ok (PyFloat (-0x1.47ae147ae147bp+8)%float).
Proof. split; reflexivity. Qed.

Example py_round_ties :
  py_round 0x1.5666666666666p+1%float 2 = 0x1.55c28f5c28f5cp+1%float
  /\ py_round 0x1p-3%float 2 = 0x1.eb851eb851eb8p-4%float.
Proof. split; reflexivity. Qed.

(** A missing address is reported by a [KeyError] naming it. *)
Lemma process_register_missing (register_map : gmap Z Z) (a decimals : Z)
    (signed : bool) :
  register_map !! a = None ->
  process_register (ObjDict register_map) (ObjInt a) decimals signed
    = Raise (KeyError a).
Proof.
  intros Hv. unfold process_register, py_getitem, result_bind.
  now rewrite Hv.
Qed.

(** ** TelemetryMapper *)

(** Whatever the register map holds, [get_telemetry] raises a [TypeError]
    at its first [process_register] call and leaves the [Telemetry] object
    untouched. *)
Lemma get_telemetry_raises (register_map : gmap Z Z)
    (tel : gmap string (option number)) :
  get_telemetry register_map tel
    = (Raise (TypeError "'int' object is not subscriptable"), tel).
Proof. reflexivity. Qed.

(** C2 (the code departs from the claim). On a register map that binds all
    43 schema addresses the mapper returns no snapshot: it raises a
    [TypeError], which names no address. *)
Theorem get_telemetry_complete_map_raises :
  Forall (fun a => is_Some (complete_register_map !! a)) schema_addresses
  /\ fst (get_telemetry complete_register_map Telemetry_init)
     = Raise (TypeError "'int' object is not subscriptable").
Proof.
  split.
  - apply Forall_forall. intros a Ha.
    unfold schema_addresses in Ha.
    repeat (apply elem_of_cons in Ha as [-> | Ha]; [vm_compute; eauto |]).
    now apply elem_of_nil in Ha.
  - reflexivity.
Qed.

(** ** ModbusPagedReader *)

Lemma page_loop_cons (p : Z) (ps : list Z) (start_address : Z)
    (register_map : gmap Z Z) (ins : Instrument) :
  page_loop (p :: ps) start_address register_map ins
  = let r := retry_loop FRAME_READ_RETRIES
               (start_address + REGISTER_PAGE * p) [] ins in
    if (0 <? length (fst r))%nat then (register_map, snd r)
    else page_loop ps start_address
           (page_dict (start_address + REGISTER_PAGE * p) (fst r) ∪ register_map)
           (snd r).
Proof.
  cbn [page_loop].
  now destruct (retry_loop FRAME_READ_RETRIES _ [] ins).
Qed.

(** The merge statement is reached only with an empty [values], so the
    reader never adds a register to the caller's dict. *)
Lemma read_modbus_leaves_map (register_map : gmap Z Z)
    (start_address pages : Z) (ins : Instrument) :
  fst (read_modbus register_map start_address pages ins) = register_map.
Proof.
  unfold read_modbus.
  generalize (seqZ 0 pages) as ps. intros ps. revert register_map ins.
  induction ps as [|p ps IH]; intros register_map ins; [reflexivity|].
  rewrite page_loop_cons. cbv zeta.
  destruct (retry_loop _ _ _ _) as [values ins'].
  cbn [fst snd].
  destruct values as [|v values]; cbn [length Nat.ltb Nat.leb].
  - rewrite IH. unfold page_dict. cbn. apply (left_id_L ∅ (∪)).
  - reflexivity.
Qed.

(** C1 (the code departs from the claim). The device fails the first four
    requests for page 0 and answers the fifth with 124 registers; the
    reader issues exactly these five requests, stores none of the 124
    registers and does not go on to pages 1 and 2. *)
Theorem read_modbus_fifth_attempt_not_merged :
  (exists values,
     device fifth_attempt_instrument 4 100 REGISTER_PAGE = Registers values
     /\ length values = 124%nat)
  /\ fst (read_modbus ∅ 100 3 fifth_attempt_instrument) = ∅
  /\ requests (snd (read_modbus ∅ 100 3 fifth_attempt_instrument)) = 5%nat.
Proof.
  split; [|split].
  - eexists. split; [reflexivity|]. reflexivity.
  - apply read_modbus_leaves_map.
  - reflexivity.
Qed.

(** ** PollCycle *)

(** One cycle with an instrument, by cases on what it decodes. *)
Lemma read_serial_data_via_cases
    (reader : gmap Z Z -> Z -> Z -> Instrument -> gmap Z Z * Instrument)
    (mapper : gmap Z Z -> TM (option TelemetryFeedback))
    (self : SolarInverter) (app : AppState) (ins : Instrument) :
  instrument app = Some ins ->
  let r := fst (fst (read_serial_data_via reader mapper self app)) in
  let self' := snd (fst (read_serial_data_via reader mapper self app)) in
  match decoded_snapshot reader mapper self ins with
  | None => r = RetPair None false /\ last_status self' = last_status self
  | Some snapshot =>
      if match last_status self with
         | None => true
         | Some previous => InverterData_neb previous snapshot
         end
      then r = RetPair (Some snapshot) true /\ last_status self' = Some snapshot
      else r = RetPair None true /\ last_status self' = last_status self
  end.
Proof.
  intros Hins. unfold read_serial_data_via, decoded_snapshot, Serial_flush.
  rewrite Hins.
  destruct (serial_is_open ins); cbn [result_bind]; [|now split].
  destruct (reader ∅ 100 3 ins) as [register_map ins1].
  destruct (reader register_map 600 1 ins1) as [register_map2 ins2].
  destruct (mapper register_map2 (telemetry self)) as [[[fb|]|e] tel];
    cbn [fst snd last_status]; try now split.
  destruct (last_status self) as [previous|]; [|now split].
  destruct (InverterData_neb previous _); now split.
Qed.

(** The remembered snapshot is [None] exactly as long as no cycle has
    returned success. *)
Lemma cycles_from_last_status
    (reader : gmap Z Z -> Z -> Z -> Instrument -> gmap Z Z * Instrument)
    (mapper : gmap Z Z -> TM (option TelemetryFeedback))
    (h : list retval) (self : SolarInverter) :
  cycles_from reader mapper h self ->
  last_status self = None <-> forallb (fun r => negb (is_success r)) h = true.
Proof.
  induction 1 as [id|h self app Hc IH]; [now split|].
  rewrite forallb_app. cbn [forallb]. rewrite andb_true_r, andb_true_iff, <- IH.
  destruct (instrument app) as [ins|] eqn:Hins.
  - pose proof (read_serial_data_via_cases reader mapper self app ins Hins) as Hcase.
    cbv zeta in Hcase.
    destruct (decoded_snapshot reader mapper self ins) as [snapshot|].
    + destruct (last_status self) as [previous|].
      * destruct (InverterData_neb previous snapshot);
          destruct Hcase as [-> ->]; cbn; split; try easy; intros []; easy.
      * destruct Hcase as [-> ->]; cbn. split; try easy; intros []; easy.
    + destruct Hcase as [-> ->]; cbn. tauto.
  - unfold read_serial_data_via. rewrite Hins. cbn. tauto.
Qed.

(** C4. After any run of earlier cycles, a poll cycle with an instrument
    returns [(snapshot, True)] and remembers the snapshot exactly when it
    decodes a snapshot and either no earlier cycle succeeded or the
    snapshot differs from the remembered one; it returns [(None, True)],
    remembering what it had, when the decoded snapshot is unchanged; and it
    returns [(None, False)] when the port or the mapper raises. It always
    returns a value to its caller. *)
Theorem read_serial_data_outcomes
    (reader : gmap Z Z -> Z -> Z -> Instrument -> gmap Z Z * Instrument)
    (mapper : gmap Z Z -> TM (option TelemetryFeedback))
    (h : list retval) (self : SolarInverter) (app : AppState)
    (ins : Instrument) :
  cycles_from reader mapper h self ->
  instrument app = Some ins ->
  let r := fst (fst (read_serial_data_via reader mapper self app)) in
  let self' := snd (fst (read_serial_data_via reader mapper self app)) in
  match decoded_snapshot reader mapper self ins with
  | None => r = RetPair None false /\ last_status self' = last_status self
  | Some snapshot =>
      let first_success := forallb (fun r => negb (is_success r)) h in
      let differs :=
        match last_status self with
        | None => false
        | Some previous => InverterData_neb previous snapshot
        end in
      if first_success || differs
      then r = RetPair (Some snapshot) true /\ last_status self' = Some snapshot
      else r = RetPair None true /\ last_status self' = last_status self
  end.
Proof.
  intros Hc Hins.
  pose proof (read_serial_data_via_cases reader mapper self app ins Hins) as Hcase.
  pose proof (cycles_from_last_status reader mapper h self Hc) as Hinv.
  cbv zeta in *.
  destruct (decoded_snapshot reader mapper self ins) as [snapshot|]; [|exact Hcase].
  destruct (last_status self) as [previous|].
  - destruct (forallb _ h); [|exact Hcase].
    destruct Hinv as [_ Hinv]. now specialize (Hinv eq_refl).
  - destruct Hinv as [Hinv _]. now rewrite (Hinv eq_refl).
Qed.

Lemma read_serial_data_outcomes_witness :
  let cycle := read_serial_data_via one_register_reader soc_mapper in
  let first := cycle (SolarInverter_init 1) (counting_app 0) in
  let second := cycle (snd (fst first)) (counting_app 0) in
  let third := cycle (snd (fst second)) (counting_app 5) in
  let snapshot v :=
    {| log_telemetry := {| normal := [("battery_soc"%string, PyInt v)] |} |} in
  (fst (fst first) = RetPair (Some (snapshot 0)) true
   /\ last_status (snd (fst first)) = Some (snapshot 0))
  /\ (fst (fst second) = RetPair None true
      /\ last_status (snd (fst second)) = Some (snapshot 0))
  /\ (fst (fst third) = RetPair (Some (snapshot 5)) true
      /\ last_status (snd (fst third)) = Some (snapshot 5)).
Proof.
  pose (reader := one_register_reader).
  pose (mapper := soc_mapper).
  pose (self0 := SolarInverter_init 1).
  pose (c1 := read_serial_data_via reader mapper self0 (counting_app 0)).
  pose (c2 := read_serial_data_via reader mapper (snd (fst c1)) (counting_app 0)).
  assert (H0 : cycles_from reader mapper [] self0) by constructor.
  assert (H1 : cycles_from reader mapper ([] ++ [fst (fst c1)]) (snd (fst c1)))
    by (apply cycles_snoc; exact H0).
  assert (H2 : cycles_from reader mapper
                 (([] ++ [fst (fst c1)]) ++ [fst (fst c2)]) (snd (fst c2)))
    by (apply cycles_snoc; exact H1).
  split; [|split].
  - exact (read_serial_data_outcomes reader mapper [] self0 (counting_app 0)
             _ H0 eq_refl).
  - exact (read_serial_data_outcomes reader mapper _ _ (counting_app 0)
             _ H1 eq_refl).
  - exact (read_serial_data_outcomes reader mapper _ _ (counting_app 5)
             _ H2 eq_refl).
Defined.

(** With the reader and the mapper of the class itself no cycle decodes a
    snapshot: every cycle with an instrument returns [(None, False)]. *)
Lemma read_serial_data_never_succeeds (self : SolarInverter) (app : AppState)
    (ins : Instrument) :
  instrument app = Some ins ->
  fst (fst (read_serial_data self app)) = RetPair None false.
Proof.
  intros Hins. unfold read_serial_data.
  pose proof (read_serial_data_via_cases read_modbus get_telemetry self app ins Hins)
    as Hcase.
  cbv zeta in Hcase.
  assert (Hnone : decoded_snapshot read_modbus get_telemetry self ins = None).
  { unfold decoded_snapshot. destruct (serial_is_open ins); [|reflexivity].
    destruct (read_modbus ∅ 100 3 ins) as [register_map ins1].
    destruct (read_modbus register_map 600 1 ins1) as [register_map2 ins2].
    now rewrite get_telemetry_raises. }
  rewrite Hnone in Hcase. apply Hcase.
Qed.

(** C9. With no instrument the poll cycle returns the bare [None], and the
    iteration of the main loop that unpacks it raises a [TypeError] and
    leaves the world as it was; with an instrument the cycle always returns
    a pair. *)
Theorem read_serial_data_without_instrument
    (reader : gmap Z Z -> Z -> Z -> Instrument -> gmap Z Z * Instrument)
    (mapper : gmap Z Z -> TM (option TelemetryFeedback))
    (self : SolarInverter) (app : AppState) :
  (instrument app = None ->
   read_serial_data_via reader mapper self app = (RetNone, self, app)
   /\ forall cfg now w,
        main_loop_iteration cfg RetNone now w
        = (Some (TypeError "cannot unpack non-iterable NoneType object"), w))
  /\ (forall ins, instrument app = Some ins ->
      exists log_data poll_success,
        fst (fst (read_serial_data_via reader mapper self app))
        = RetPair log_data poll_success).
Proof.
  split.
  - intros Hins. split; [|reflexivity].
    unfold read_serial_data_via. now rewrite Hins.
  - intros ins Hins.
    pose proof (read_serial_data_via_cases reader mapper self app ins Hins)
      as Hcase.
    cbv zeta in Hcase.
    destruct (decoded_snapshot reader mapper self ins) as [snapshot|].
    + destruct (match last_status self with
                | None => true
                | Some previous => InverterData_neb previous snapshot
                end); destruct Hcase as [-> _]; eauto.
    + destruct Hcase as [-> _]; eauto.
Qed.

Lemma read_serial_data_without_instrument_witness :
  (read_serial_data (SolarInverter_init 1) (app_state World_init)
   = (RetNone, SolarInverter_init 1, app_state World_init)
   /\ forall cfg now w,
        main_loop_iteration cfg RetNone now w
        = (Some (TypeError "cannot unpack non-iterable NoneType object"), w))
  /\ exists log_data poll_success,
       fst (fst (read_serial_data (SolarInverter_init 1) (counting_app 0)))
       = RetPair log_data poll_success.
Proof.
  split.
  - apply (read_serial_data_without_instrument read_modbus get_telemetry
             (SolarInverter_init 1) (app_state World_init)).
    reflexivity.
  - eapply (read_serial_data_without_instrument read_modbus get_telemetry
              (SolarInverter_init 1) (counting_app 0)).
    reflexivity.
Defined.

(** ** AvailabilityTracker *)

Lemma Qlt_bool_iff (a b : Q) : Qlt_bool a b = true <-> (a < b)%Q.
Proof.
  unfold Qlt_bool. rewrite negb_true_iff, <- not_true_iff_false, Qle_bool_iff.
  split; [apply Qnot_le_lt | apply Qlt_not_le].
Qed.

Lemma max_age_formula (cfg : Config) :
  _compute_max_age_seconds cfg = Z.max 15 (3 * MQTT_UPDATE_INTERVAL cfg + 5).
Proof. unfold _compute_max_age_seconds. lia. Qed.

Lemma desired_availability_online (cfg : Config) (inv : Inverter) (now : Q) :
  desired_availability cfg inv now = "online"%string
  <-> (0 < last_success_ts inv)%Q
      /\ (now - last_success_ts inv
          <= inject_Z (_compute_max_age_seconds cfg))%Q.
Proof.
  unfold desired_availability.
  rewrite <- Qlt_bool_iff, <- Qle_bool_iff, <- andb_true_iff.
  destruct (_ && _); split; congruence.
Qed.

Lemma desired_availability_offline (cfg : Config) (inv : Inverter) (now : Q) :
  desired_availability cfg inv now = "offline"%string
  <-> ~ ((0 < last_success_ts inv)%Q
         /\ (now - last_success_ts inv
             <= inject_Z (_compute_max_age_seconds cfg))%Q).
Proof.
  rewrite <- desired_availability_online.
  unfold desired_availability.
  destruct (_ && _); split; congruence.
Qed.

(** C5. [maxAge = max(15, 3 * pollInterval + 5)]; the state computed for
    the device, which [_publish_inverter_availability] stores, is online if
    and only if the last success timestamp is positive and lies at most
    [maxAge] seconds before [now]. With a poll interval of 30, [maxAge] is
    95, a (positive) last success 94 seconds ago gives online and one 96
    seconds ago gives offline. *)
Theorem availability_rule (cfg : Config) (now : Q) (w : World) (c : Client) :
  mqtt_client (app_state w) = Some c ->
  let inv := inverter (app_state w) in
  let max_age := _compute_max_age_seconds cfg in
  max_age = Z.max 15 (3 * MQTT_UPDATE_INTERVAL cfg + 5)
  /\ availability
       (inverter (app_state (snd (_publish_inverter_availability cfg now w))))
     = desired_availability cfg inv now
  /\ (desired_availability cfg inv now = "online"%string
      <-> (0 < last_success_ts inv)%Q
          /\ (now - last_success_ts inv <= inject_Z max_age)%Q)
  /\ (desired_availability cfg inv now = "offline"%string
      <-> ~ ((0 < last_success_ts inv)%Q
             /\ (now - last_success_ts inv <= inject_Z max_age)%Q))
  /\ (MQTT_UPDATE_INTERVAL cfg = 30 ->
      max_age = 95
      /\ ((last_success_ts inv == now - 94)%Q ->
          (0 < last_success_ts inv)%Q ->
          desired_availability cfg inv now = "online"%string)
      /\ ((last_success_ts inv == now - 96)%Q ->
          desired_availability cfg inv now = "offline"%string)).
Proof.
  intros Hc inv max_age. split; [apply max_age_formula|].
  split.
  { unfold _publish_inverter_availability. rewrite Hc. fold inv.
    destruct (String.eqb (availability inv) (desired_availability cfg inv now))
      eqn:E; cbn [negb].
    - now apply String.eqb_eq in E.
    - unfold wm_bind, publish. rewrite Hc. reflexivity. }
  split; [apply desired_availability_online|].
  split; [apply desired_availability_offline|].
  intros H30.
  assert (Hmax : max_age = 95).
  { unfold max_age, _compute_max_age_seconds. rewrite H30. reflexivity. }
  split; [exact Hmax|]. split.
  - intros Hts Hpos. apply desired_availability_online.
    split; [exact Hpos|]. fold max_age. rewrite Hmax, Hts.
    unfold Qle, Qminus, Qplus, Qopp, inject_Z. cbn. lia.
  - intros Hts. apply desired_availability_offline.
    intros [_ Hle]. fold max_age in Hle. rewrite Hmax, Hts in Hle.
    revert Hle. unfold Qle, Qminus, Qplus, Qopp, inject_Z. cbn. lia.
Qed.

Lemma availability_rule_witness :
  _compute_max_age_seconds default_config = 95
  /\ desired_availability default_config
       (inverter (app_state online_world)) 1094 = "online"%string
  /\ desired_availability default_config
       (inverter (app_state online_world)) 1096 = "offline"%string.
Proof.
  destruct (availability_rule default_config 1094 online_world running_client
              eq_refl) as (_ & _ & _ & _ & H94).
  destruct (availability_rule default_config 1096 online_world running_client
              eq_refl) as (_ & _ & _ & _ & H96).
  destruct (H94 eq_refl) as (Hmax & Hon & _).
  destruct (H96 eq_refl) as (_ & _ & Hoff).
  split; [exact Hmax|]. split.
  - apply Hon; reflexivity.
  - apply Hoff; reflexivity.
Defined.

(** ** Liveness probe *)

Lemma do_GET_health (cfg : Config) (now : Q) (w : World) :
  let healthy :=
    mqtt_connected w = true
    /\ _mqtt_loop_running w = true
    /\ _serial_is_open w = true
    /\ (now - last_update_ts w < inject_Z (_compute_max_age_seconds cfg))%Q in
  (fst (do_GET cfg "/health" now w) = 200 <-> healthy)
  /\ (fst (do_GET cfg "/health" now w) = 503 <-> ~ healthy).
Proof.
  intros healthy. unfold do_GET. cbn [String.eqb Ascii.eqb Bool.eqb negb].
  assert (Hh : mqtt_connected w && _mqtt_loop_running w && _serial_is_open w
               && Qlt_bool (now - last_update_ts w)
                    (inject_Z (_compute_max_age_seconds cfg)) = true
               <-> healthy).
  { unfold healthy. rewrite !andb_true_iff, Qlt_bool_iff. tauto. }
  destruct (_ && _ && _ && _); cbn [fst].
  - split; split; try easy.
    + intros _. now apply Hh.
    + intros Hn. exfalso. apply Hn. now apply Hh.
  - split; split; try easy.
    + intros Hy. apply Hh in Hy. discriminate.
    + intros _ Hy. apply Hh in Hy. discriminate.
Qed.

Lemma mqtt_loop_running_iff (w : World) :
  _mqtt_loop_running w = true <-> loop_thread_alive w.
Proof.
  unfold _mqtt_loop_running, loop_thread_alive.
  destruct (mqtt_client (app_state w)) as [c|].
  - destruct (loop_thread c) as [[|]|] eqn:Ht; split;
      try discriminate; try (intros (c' & [= <-] & Hc'); congruence).
    intros _. now exists c.
  - split; [discriminate | intros (c' & Hc' & _); discriminate].
Qed.

Lemma serial_is_open_iff (w : World) :
  _serial_is_open w = true <-> serial_port_open w.
Proof.
  unfold _serial_is_open, serial_port_open.
  destruct (instrument (app_state w)) as [ins|].
  - split; [intros H; now exists ins | intros (i & [= <-] & H); exact H].
  - split; [discriminate | intros (i & Hi & _); discriminate].
Qed.

(** The probe over the raw state. *)
Lemma do_GET_health_state (cfg : Config) (now : Q) (w : World) :
  let healthy :=
    mqtt_connected w = true
    /\ loop_thread_alive w
    /\ serial_port_open w
    /\ last_update_fresh cfg now w in
  (fst (do_GET cfg "/health" now w) = 200 <-> healthy)
  /\ (fst (do_GET cfg "/health" now w) = 503 <-> ~ healthy).
Proof.
  cbv zeta. destruct (do_GET_health cfg now w) as [H200 H503].
  unfold last_update_fresh. rewrite <- max_age_formula.
  rewrite <- mqtt_loop_running_iff, <- serial_is_open_iff.
  split; assumption.
Qed.

(** C7. A GET of [/health] is answered 200 exactly when the connection
    flag is set, the client's network-loop thread exists and is alive, the
    instrument exists and its serial port is open, and the time since
    [last_update_ts] is below [maxAge]; it is answered 503 when any of the
    four fails; every other path is answered 404. *)
Theorem do_GET_status (cfg : Config) (path : string) (now : Q) (w : World) :
  let healthy :=
    mqtt_connected w = true
    /\ (exists c, mqtt_client (app_state w) = Some c
                  /\ loop_thread c = Some true)
    /\ (exists ins, instrument (app_state w) = Some ins
                    /\ serial_is_open ins = true)
    /\ (now - last_update_ts w
        < inject_Z (Z.max 15 (3 * MQTT_UPDATE_INTERVAL cfg + 5)))%Q in
  (path = "/health"%string ->
   (fst (do_GET cfg path now w) = 200 <-> healthy)
   /\ (fst (do_GET cfg path now w) = 503 <-> ~ healthy))
  /\ (path <> "/health"%string -> fst (do_GET cfg path now w) = 404).
Proof.
  intros healthy. split.
  - intros ->. apply do_GET_health_state.
  - intros Hne. unfold do_GET. apply String.eqb_neq in Hne. now rewrite Hne.
Qed.

Lemma do_GET_status_witness :
  let status w := fst (do_GET default_config "/health" 1030 w) in
  let alive := Some (client_with_thread (Some true)) in
  status (probe_world alive (Some (port true)) true 1000) = 200
  /\ status (probe_world alive (Some (port true)) false 1000) = 503
  /\ status (probe_world (Some (client_with_thread (Some false)))
               (Some (port true)) true 1000) = 503
  /\ status (probe_world (Some (client_with_thread None))
               (Some (port true)) true 1000) = 503
  /\ status (probe_world None (Some (port true)) true 1000) = 503
  /\ status (probe_world alive (Some (port false)) true 1000) = 503
  /\ status (probe_world alive None true 1000) = 503
  /\ status (probe_world alive (Some (port true)) true 935) = 503
  /\ fst (do_GET default_config "/healthz" 1030
             (probe_world alive (Some (port true)) true 1000)) = 404.
Proof.
  cbv zeta.
  repeat match goal with |- _ /\ _ => split end.
  - apply (do_GET_status default_config "/health" 1030
             (probe_world (Some (client_with_thread (Some true)))
                (Some (port true)) true 1000)); [reflexivity|].
    split; [reflexivity|]. split; [eexists; split; reflexivity|].
    split; [eexists; split; reflexivity|]. reflexivity.
  - apply (do_GET_status default_config "/health" 1030
             (probe_world (Some (client_with_thread (Some true)))
                (Some (port true)) false 1000)); [reflexivity|].
    intros (Hconn & _). discriminate Hconn.
  - apply (do_GET_status default_config "/health" 1030
             (probe_world (Some (client_with_thread (Some false)))
                (Some (port true)) true 1000)); [reflexivity|].
    intros (_ & (c & [= <-] & Ht) & _). discriminate Ht.
  - apply (do_GET_status default_config "/health" 1030
             (probe_world (Some (client_with_thread None))
                (Some (port true)) true 1000)); [reflexivity|].
    intros (_ & (c & [= <-] & Ht) & _). discriminate Ht.
  - apply (do_GET_status default_config "/health" 1030
             (probe_world None (Some (port true)) true 1000)); [reflexivity|].
    intros (_ & (c & Hc & _) & _). discriminate Hc.
  - apply (do_GET_status default_config "/health" 1030
             (probe_world (Some (client_with_thread (Some true)))
                (Some (port false)) true 1000)); [reflexivity|].
    intros (_ & _ & (i & [= <-] & Hi) & _). discriminate Hi.
  - apply (do_GET_status default_config "/health" 1030
             (probe_world (Some (client_with_thread (Some true)))
                None true 1000)); [reflexivity|].
    intros (_ & _ & (i & Hi & _) & _). discriminate Hi.
  - apply (do_GET_status default_config "/health" 1030
             (probe_world (Some (client_with_thread (Some true)))
                (Some (port true)) true 935)); [reflexivity|].
    intros (_ & _ & _ & Hfresh). vm_compute in Hfresh. discriminate Hfresh.
  - apply (do_GET_status default_config "/healthz" 1030
             (probe_world (Some (client_with_thread (Some true)))
                (Some (port true)) true 1000)).
    discriminate.
Defined.

(** ** Startup *)

Lemma publish_with_client (w : World) (c : Client) (t : string) (b : payload)
    (r : bool) :
  mqtt_client (app_state w) = Some c ->
  publish t b r w
  = (Ok tt,
     {| app_state :=
          {| mqtt_client :=
               Some {| loop_thread := loop_thread c;
                       outbox := outbox c ++
                                 [{| topic := t; body := b; retain := r |}] |};
             instrument := instrument (app_state w);
             inverter := inverter (app_state w) |};
        last_update_ts := last_update_ts w;
        mqtt_connected := mqtt_connected w |}).
Proof. intros Hc. unfold publish. now rewrite Hc. Qed.

(** Publishing a list of messages only extends the outbox. *)
Lemma publish_all_frame (discovery : list message) (w : World) (c : Client) :
  mqtt_client (app_state w) = Some c ->
  let w' :=
    snd (fold_right
           (fun m k => (publish (topic m) (body m) (retain m) ;; k)%wm)
           (wm_ret tt) discovery w) in
  (exists c', mqtt_client (app_state w') = Some c'
              /\ loop_thread c' = loop_thread c)
  /\ instrument (app_state w') = instrument (app_state w)
  /\ inverter (app_state w') = inverter (app_state w)
  /\ last_update_ts w' = last_update_ts w
  /\ mqtt_connected w' = mqtt_connected w.
Proof.
  revert w c. induction discovery as [|m ms IH]; intros w c Hc.
  - cbn. eauto 10.
  - cbn [fold_right]. cbv zeta in IH |- *. unfold wm_bind in IH |- *.
    rewrite (publish_with_client w c _ _ _ Hc).
    match goal with
    | |- context [fold_right ?f ?z ms ?w1] =>
        destruct (IH w1 _ eq_refl) as ((c' & Hc' & Hl) & Hi & Hv & Ht & Hm)
    end.
    cbn [app_state instrument inverter last_update_ts mqtt_connected
         loop_thread] in Hl, Hi, Hv, Ht, Hm.
    repeat split; try assumption. eauto.
Qed.

(** C10. When [main] reaches its loop, [last_update_ts] holds the startup
    time [t0] although no read has succeeded (the device's own
    [last_success_ts] is 0 and its counter 0); so, once the broker callback
    has reported the connection and with the loop thread alive and the port
    open, [/health] is answered 200 for as long as [now - t0 < maxAge], and
    503 from then on. *)
Theorem startup_probe_healthy (cfg : Config) (client : Client)
    (ins : Instrument) (t0 now : Q) (discovery : list message) :
  let w0 := snd (main_startup cfg client ins t0 discovery World_init) in
  let w := on_mqtt_connect 0 w0 in
  last_update_ts w0 = t0
  /\ last_success_ts (inverter (app_state w0)) = 0%Q
  /\ publish_counter (inverter (app_state w0)) = 0
  /\ (loop_thread client = Some true ->
      serial_is_open ins = true ->
      ((now - t0 < inject_Z (_compute_max_age_seconds cfg))%Q ->
       fst (do_GET cfg "/health" now w) = 200)
      /\ ((inject_Z (_compute_max_age_seconds cfg) <= now - t0)%Q ->
          fst (do_GET cfg "/health" now w) = 503)).
Proof.
  intros w0 w.
  assert (Hw0 : (exists c', mqtt_client (app_state w0) = Some c'
                            /\ loop_thread c' = loop_thread client)
                /\ instrument (app_state w0) = Some ins
                /\ inverter (app_state w0)
                   = {| address := MODBUS_ID cfg; last_success_ts := 0;
                        publish_counter := 0; availability := "offline" |}
                /\ last_update_ts w0 = t0).
  { unfold w0, main_startup, wm_bind, publish, with_inverter,
      set_last_update_ts. cbn [app_state mqtt_client World_init].
    destruct (ENABLE_HA_DISCOVERY_CONFIG cfg).
    - match goal with
      | |- context [fold_right ?f ?z discovery ?w1] =>
          pose proof (publish_all_frame discovery w1 _ eq_refl) as Hf
      end.
      cbv zeta in Hf. unfold wm_bind, publish in Hf.
      destruct Hf as ((c' & Hc' & Hl) & Hi & Hv & Ht & _).
      rewrite Hi, Hv, Ht. eauto 10.
    - cbn. eauto 10. }
  destruct Hw0 as ((c' & Hc' & Hl) & Hi & Hv & Ht).
  split; [exact Ht|]. rewrite Hv. split; [reflexivity|]. split; [reflexivity|].
  intros Halive Hopen.
  destruct (do_GET_health cfg now w) as [H200 H503].
  assert (Hloop : _mqtt_loop_running w = true).
  { unfold _mqtt_loop_running, w, on_mqtt_connect. cbn [app_state].
    now rewrite Hc', Hl, Halive. }
  assert (Hser : _serial_is_open w = true).
  { unfold _serial_is_open, w, on_mqtt_connect. cbn [app_state].
    now rewrite Hi. }
  assert (Hts : last_update_ts w = t0) by exact Ht.
  split.
  - intros Hfresh. apply H200. rewrite Hts. repeat split; assumption.
  - intros Hstale. apply H503. rewrite Hts.
    intros (_ & _ & _ & Hlt). now apply Qlt_not_le in Hlt.
Qed.

Lemma startup_probe_healthy_witness :
  let w0 :=
    snd (main_startup default_config running_client fifth_attempt_instrument
           1000 [] World_init) in
  last_success_ts (inverter (app_state w0)) = 0%Q
  /\ fst (do_GET default_config "/health" 1094 (on_mqtt_connect 0 w0)) = 200
  /\ fst (do_GET default_config "/health" 1095 (on_mqtt_connect 0 w0)) = 503.
Proof.
  destruct (startup_probe_healthy default_config running_client
              fifth_attempt_instrument 1000 1094 [])
    as (_ & Hnever & _ & H1094).
  destruct (startup_probe_healthy default_config running_client
              fifth_attempt_instrument 1000 1095 [])
    as (_ & _ & _ & H1095).
  split; [exact Hnever|]. split.
  - apply H1094; reflexivity.
  - apply H1095; try reflexivity. discriminate.
Defined.

(** ** MainLoop *)

Ltac run_statements :=
  unfold main_loop_iteration, main_loop_body, _publish_inverter_availability,
    unpack_pair, wm_bind, wm_ret, publish, with_inverter, set_last_update_ts,
    sleep;
  cbn [app_state mqtt_client instrument inverter last_update_ts
       mqtt_connected address last_success_ts publish_counter availability
       loop_thread outbox fst snd].

(** One iteration adds one to the counter when the poll succeeded and
    leaves it alone otherwise. *)
Lemma main_loop_iteration_counter (cfg : Config) (r : retval) (now : Q)
    (w : World) :
  publish_counter (inverter (app_state (snd (main_loop_iteration cfg r now w))))
  = publish_counter (inverter (app_state w)) + (if is_success r then 1 else 0).
Proof.
  destruct w as [[client ins inv] ts conn].
  destruct r as [|log_data [|]]; [cbn; lia | |];
    destruct client as [c|], log_data as [d|]; run_statements;
    repeat match goal with
           | |- context [negb (String.eqb ?a ?b)] =>
               destruct (String.eqb a b);
               cbn [negb app_state mqtt_client inverter publish_counter
                    fst snd]
           | |- context [sleep_error (MQTT_UPDATE_INTERVAL cfg)] =>
               destruct (sleep_error (MQTT_UPDATE_INTERVAL cfg));
               cbn [app_state mqtt_client inverter publish_counter fst snd]
           end;
    cbn [is_success]; lia.
Qed.

Lemma main_loop_counter (cfg : Config) (polls : list (retval * Q)) (w : World) :
  publish_counter (inverter (app_state (main_loop cfg polls w)))
  = publish_counter (inverter (app_state w)) + Z.of_nat (count_successes polls).
Proof.
  revert w. induction polls as [|[r now] polls IH]; intros w.
  - cbn. lia.
  - cbn [main_loop]. rewrite IH, main_loop_iteration_counter.
    unfold count_successes. cbn [List.filter fst].
    destruct (is_success r); cbn [length]; lia.
Qed.

(** C8. In one iteration of the main loop the publish counter grows by
    exactly 1 when the poll cycle succeeded and keeps its value otherwise;
    over any sequence of iterations it ends at its initial value plus the
    number of successful cycles, so it never decreases and is never
    reset. *)
Theorem publish_counter_counts_successes (cfg : Config)
    (polls : list (retval * Q)) (r : retval) (now : Q) (w : World) :
  let counter w := publish_counter (inverter (app_state w)) in
  (is_success r = true ->
   counter (snd (main_loop_iteration cfg r now w)) = counter w + 1)
  /\ (is_success r = false ->
      counter (snd (main_loop_iteration cfg r now w)) = counter w)
  /\ counter (main_loop cfg polls w)
     = counter w + Z.of_nat (count_successes polls)
  /\ counter w <= counter (main_loop cfg polls w).
Proof.
  intros counter. unfold counter.
  rewrite main_loop_iteration_counter, main_loop_counter.
  repeat split; try (intros ->); lia.
Qed.

Lemma publish_counter_counts_successes_witness :
  let counter w := publish_counter (inverter (app_state w)) in
  let polls :=
    [(RetPair None true, 1030%Q); (RetPair None false, 1061%Q);
     (RetNone, 1102%Q); (RetPair None true, 1133%Q)] in
  counter (snd (main_loop_iteration default_config (RetPair None true) 1030
                  online_world)) = 2
  /\ counter (snd (main_loop_iteration default_config (RetPair None false) 1030
                     online_world)) = 1
  /\ counter (main_loop default_config polls online_world) = 3.
Proof.
  cbv zeta.
  destruct (publish_counter_counts_successes default_config []
              (RetPair None true) 1030 online_world) as (Hsucc & _).
  destruct (publish_counter_counts_successes default_config
              [(RetPair None true, 1030%Q); (RetPair None false, 1061%Q);
               (RetNone, 1102%Q); (RetPair None true, 1133%Q)]
              (RetPair None false) 1030 online_world) as (_ & Hfail & Hrun & _).
  split; [exact (Hsucc eq_refl)|]. split; [exact (Hfail eq_refl)|].
  exact Hrun.
Defined.

(** ** Publisher: the device availability topic *)

(** C6 fails as stated: the device is stored as online, the poll succeeds
    and the computed state is online again, yet the iteration publishes on
    the device availability topic. *)
Lemma availability_sent_without_state_change :
  let w' :=
    snd (main_loop_iteration default_config (RetPair None true) 1030
           online_world) in
  ~ (device_availability_messages default_config online_world w' <> []
     <-> desired_availability default_config (inverter (app_state w')) 1030
         <> availability (inverter (app_state online_world))).
Proof.
  cbv zeta. intros [Hsent _]. apply Hsent.
  - vm_compute. discriminate.
  - vm_compute. reflexivity.
Qed.

(** C6, amended. An iteration with a broker client publishes, in this
    order: after a successful poll the heartbeat and an unconditional
    device "online"; the sensors document when there is one; from
    [_publish_inverter_availability] one device availability message
    carrying the computed state if and only if that state differs from the
    stored one (which a successful poll has just set to online); and the
    process-level "online". The computed state is stored. *)
Theorem availability_messages_per_iteration (cfg : Config) (now : Q)
    (w : World) (c : Client) (log_data : option InverterData)
    (poll_success : bool) :
  mqtt_client (app_state w) = Some c ->
  let inv := inverter (app_state w) in
  let w' :=
    snd (main_loop_iteration cfg (RetPair log_data poll_success) now w) in
  let stored := if poll_success then "online"%string else availability inv in
  let desired :=
    desired_availability cfg
      {| address := address inv;
         last_success_ts := if poll_success then now else last_success_ts inv;
         publish_counter := publish_counter inv;
         availability := stored |} now in
  published_since w w'
  = (if poll_success
     then [heartbeat_message cfg (publish_counter inv + 1);
           availability_message cfg (MODBUS_ID cfg) "online"]
     else [])
    ++ match log_data with
       | Some d => [sensors_message cfg d]
       | None => []
       end
    ++ (if String.eqb stored desired then []
        else [availability_message cfg (address inv) desired])
    ++ [process_online_message cfg]
  /\ availability (inverter (app_state w')) = desired.
Proof.
  destruct w as [[client ins inv0] ts conn]. cbn [app_state mqtt_client].
  intros ->. cbv zeta. unfold published_since, outbox_of.
  destruct poll_success, log_data as [d|]; run_statements;
    unfold desired_availability;
    cbn [last_success_ts availability];
    match goal with
    | |- context [negb (String.eqb ?a ?b)] =>
        destruct (String.eqb a b) eqn:E;
        cbn [negb app_state mqtt_client inverter availability outbox
             fst snd]
    end;
    destruct (sleep_error (MQTT_UPDATE_INTERVAL cfg));
    cbn [app_state mqtt_client inverter availability outbox fst snd];
    (split;
     [ rewrite <- ?app_assoc, drop_app_length; reflexivity
     | try reflexivity; now apply String.eqb_eq in E ]).
Qed.

Lemma availability_messages_per_iteration_witness :
  let after (r : retval) (now : Q) := snd (main_loop_iteration default_config r now online_world) in
  published_since online_world (after (RetPair None false) 1030%Q)
  = [process_online_message default_config]
  /\ published_since online_world (after (RetPair None false) 2000%Q)
     = [availability_message default_config 1 "offline";
        process_online_message default_config]
  /\ published_since online_world (after (RetPair None true) 1030%Q)
     = [heartbeat_message default_config 2;
        availability_message default_config 1 "online";
        process_online_message default_config]
  /\ availability (inverter (app_state (after (RetPair None false) 2000%Q)))
     = "offline"%string.
Proof.
  cbv zeta.
  destruct (availability_messages_per_iteration default_config 1030
              online_world running_client None false eq_refl) as [Hsame _].
  destruct (availability_messages_per_iteration default_config 2000
              online_world running_client None false eq_refl) as [Hlate Hstate].
  destruct (availability_messages_per_iteration default_config 1030
              online_world running_client None true eq_refl) as [Hpoll _].
  split; [exact Hsame|]. split; [exact Hlate|]. split; [exact Hpoll|].
  exact Hstate.
Defined.

(** * Further properties of the code *)

(** ** RegisterDecoder: integer registers *)

(** X1. For a 16-bit raw value and no decimals the decoder returns an
    integer congruent to the raw value modulo 65536: the raw value itself
    when unsigned, its two's-complement reading in [-32768, 32767] when
    signed. *)
Theorem process_register_integer_round_trip (register_map : gmap Z Z)
    (a v decimals : Z) (signed : bool) :
  register_map !! a = Some v ->
  0 <= v <= 65535 ->
  decimals <= 0 ->
  exists r,
    process_register (ObjDict register_map) (ObjInt a) decimals signed
    = Ok (PyInt r)
    /\ r mod 65536 = v
    /\ (if signed then -32768 <= r <= 32767 else r = v).
Proof.
  intros Hv Hrange Hd.
  unfold process_register, py_getitem, result_bind. rewrite Hv.
  destruct (Z.ltb_spec 0 decimals) as [|_]; [lia|].
  destruct signed; cbn [andb].
  - destruct (Z.ltb_spec 32767 v) as [Hhigh|Hlow].
    + exists (v - 65536). split; [reflexivity|]. split; [|lia].
      symmetry. apply (Z.mod_unique _ _ (-1)); lia.
    + exists v. split; [reflexivity|]. split; [|lia].
      apply Z.mod_small. lia.
  - exists v. split; [reflexivity|]. split; [|reflexivity].
    apply Z.mod_small. lia.
Qed.

Lemma process_register_integer_round_trip_witness :
  exists r,
    process_register (ObjDict {[279 := 65436]}) (ObjInt 279) 0 true
    = Ok (PyInt r)
    /\ r mod 65536 = 65436
    /\ -32768 <= r <= 32767.
Proof.
  apply (process_register_integer_round_trip {[279 := 65436]} 279 65436 0 true).
  - reflexivity.
  - lia.
  - lia.
Defined.

(** ** ModbusPagedReader: requests issued *)

Lemma read_registers_spec (page_address : Z) (ins : Instrument) :
  read_registers page_address ins
  = (answer ins (requests ins) page_address,
     {| serial_is_open := serial_is_open ins;
        requests := S (requests ins);
        device := device ins |}).
Proof.
  unfold read_registers, Instrument_read_registers, answer.
  now destruct (device ins (requests ins) page_address REGISTER_PAGE).
Qed.

(** A retry loop of [n + 1] rounds issues [n + 1] requests and keeps the
    answer to the last one only. *)
Lemma retry_loop_spec (n : nat) (page_address : Z) (values : list Z)
    (ins : Instrument) :
  retry_loop (S n) page_address values ins
  = (answer ins (requests ins + n) page_address,
     {| serial_is_open := serial_is_open ins;
        requests := requests ins + S n;
        device := device ins |}).
Proof.
  revert values ins. induction n as [|n IH]; intros values ins.
  - cbn [retry_loop]. rewrite read_registers_spec.
    rewrite Nat.add_0_r, Nat.add_1_r. reflexivity.
  - change (retry_loop (S (S n)) page_address values ins)
      with (let '(values, ins) := read_registers page_address ins in
            retry_loop (S n) page_address values ins).
    rewrite read_registers_spec, IH. unfold answer. cbn [requests device serial_is_open].
    rewrite !Nat.add_succ_r. reflexivity.
Qed.

(** One page: five requests, then the page loop is left if the answer to
    the fifth is not empty and goes on with the same dict otherwise. *)
Lemma page_loop_step (p : Z) (ps : list Z) (start_address : Z)
    (register_map : gmap Z Z) (ins : Instrument) :
  page_loop (p :: ps) start_address register_map ins
  = let ins5 := {| serial_is_open := serial_is_open ins;
                   requests := requests ins + 5;
                   device := device ins |} in
    match answer ins (requests ins + 4) (start_address + REGISTER_PAGE * p) with
    | [] => page_loop ps start_address register_map ins5
    | _ :: _ => (register_map, ins5)
    end.
Proof.
  rewrite page_loop_cons. unfold FRAME_READ_RETRIES.
  rewrite retry_loop_spec. cbv zeta. cbn [fst snd].
  destruct (answer ins (requests ins + 4) _) as [|v values];
    cbn [length Nat.ltb Nat.leb]; [|reflexivity].
  unfold page_dict. cbn [imap fold_left].
  now rewrite (left_id_L ∅ (∪)).
Qed.

Lemma page_loop_frame (ps : list Z) (start_address : Z)
    (register_map : gmap Z Z) (ins : Instrument) :
  let r := page_loop ps start_address register_map ins in
  fst r = register_map
  /\ serial_is_open (snd r) = serial_is_open ins
  /\ device (snd r) = device ins
  /\ exists k : nat,
       requests (snd r) = (requests ins + 5 * k)%nat
       /\ (k <= length ps)%nat
       /\ (ps <> [] -> 1 <= k)%nat.
Proof.
  revert ins. induction ps as [|p ps IH]; intros ins.
  - cbn. repeat split. exists 0%nat. repeat split; [lia | lia | easy].
  - rewrite page_loop_step. cbv zeta.
    destruct (answer ins (requests ins + 4) _) as [|v values].
    + destruct (IH {| serial_is_open := serial_is_open ins;
                      requests := requests ins + 5;
                      device := device ins |})
        as (Hmap & Hopen & Hdev & k & Hreq & Hk & _).
      cbv zeta in *. cbn [serial_is_open device requests] in *.
      repeat split; try assumption.
      exists (S k). cbn [length]. repeat split; lia.
    + cbn [fst snd serial_is_open device requests]. repeat split.
      exists 1%nat. cbn [length]. repeat split; lia.
Qed.

Lemma seqZ_to_nat (m n : Z) : seqZ m n = seqZ m (Z.of_nat (Z.to_nat n)).
Proof. unfold seqZ. now rewrite Nat2Z.id. Qed.

Lemma seqZ_S (m : Z) (n : nat) :
  seqZ m (Z.of_nat (S n)) = m :: seqZ (Z.succ m) (Z.of_nat n).
Proof.
  rewrite seqZ_cons by lia. f_equal. f_equal. lia.
Qed.

(** The page loop over pages [m, m + 1, ...]: it leaves after the first
    page whose fifth answer is not empty. *)
Lemma page_loop_first_answer (n : nat) (m start_address : Z)
    (register_map : gmap Z Z) (ins : Instrument) (p : nat) :
  (p < n)%nat ->
  (forall q : nat, (q < p)%nat ->
     answer ins (requests ins + 5 * q + 4)
       (start_address + REGISTER_PAGE * (m + Z.of_nat q)) = []) ->
  answer ins (requests ins + 5 * p + 4)
    (start_address + REGISTER_PAGE * (m + Z.of_nat p)) <> [] ->
  requests (snd (page_loop (seqZ m (Z.of_nat n)) start_address register_map ins))
  = (requests ins + 5 * S p)%nat.
Proof.
  revert m ins p. induction n as [|n IH]; intros m ins p Hp Hempty Hfull; [lia|].
  rewrite seqZ_S, page_loop_step. cbv zeta.
  destruct p as [|p].
  - replace (requests ins + 5 * 0 + 4)%nat with (requests ins + 4)%nat in Hfull by lia.
    replace (m + Z.of_nat 0) with m in Hfull by lia.
    destruct (answer ins (requests ins + 4) _); [easy|].
    cbn [snd requests]. lia.
  - pose proof (Hempty 0%nat ltac:(lia)) as H0.
    replace (requests ins + 5 * 0 + 4)%nat with (requests ins + 4)%nat in H0 by lia.
    replace (m + Z.of_nat 0) with m in H0 by lia.
    rewrite H0.
    rewrite (IH (Z.succ m) _ p); cbn [requests].
    + lia.
    + lia.
    + intros q Hq. specialize (Hempty (S q) ltac:(lia)).
      unfold answer in *. cbn [device requests].
      replace (requests ins + 5 + 5 * q + 4)%nat
        with (requests ins + 5 * S q + 4)%nat by lia.
      replace (Z.succ m + Z.of_nat q) with (m + Z.of_nat (S q)) by lia.
      exact Hempty.
    + unfold answer in *. cbn [device requests].
      replace (requests ins + 5 + 5 * p + 4)%nat
        with (requests ins + 5 * S p + 4)%nat by lia.
      replace (Z.succ m + Z.of_nat p) with (m + Z.of_nat (S p)) by lia.
      exact Hfull.
Qed.

Lemma page_loop_no_answer (n : nat) (m start_address : Z)
    (register_map : gmap Z Z) (ins : Instrument) :
  (forall q : nat, (q < n)%nat ->
     answer ins (requests ins + 5 * q + 4)
       (start_address + REGISTER_PAGE * (m + Z.of_nat q)) = []) ->
  requests (snd (page_loop (seqZ m (Z.of_nat n)) start_address register_map ins))
  = (requests ins + 5 * n)%nat.
Proof.
  revert m ins. induction n as [|n IH]; intros m ins Hempty.
  - change (seqZ m (Z.of_nat 0)) with (@nil Z). cbn [page_loop snd]. lia.
  - rewrite seqZ_S, page_loop_step. cbv zeta.
    pose proof (Hempty 0%nat ltac:(lia)) as H0.
    replace (requests ins + 5 * 0 + 4)%nat with (requests ins + 4)%nat in H0 by lia.
    replace (m + Z.of_nat 0) with m in H0 by lia.
    rewrite H0, IH; cbn [requests]; [lia|].
    intros q Hq. specialize (Hempty (S q) ltac:(lia)).
    unfold answer in *. cbn [device requests].
    replace (requests ins + 5 + 5 * q + 4)%nat
      with (requests ins + 5 * S q + 4)%nat by lia.
    replace (Z.succ m + Z.of_nat q) with (m + Z.of_nat (S q)) by lia.
    exact Hempty.
Qed.

(** X3. Whatever the device answers, [read_modbus] hands the caller's
    register dict back as it received it: no address is added, none is
    changed. The serial port and the device are left as they were. *)
Theorem read_modbus_never_stores (register_map : gmap Z Z)
    (start_address pages : Z) (ins : Instrument) :
  let r := read_modbus register_map start_address pages ins in
  fst r = register_map
  /\ (forall a, fst r !! a = register_map !! a)
  /\ serial_is_open (snd r) = serial_is_open ins
  /\ device (snd r) = device ins.
Proof.
  cbv zeta. unfold read_modbus.
  destruct (page_loop_frame (seqZ 0 pages) start_address register_map ins)
    as (Hmap & Hopen & Hdev & _).
  cbv zeta in Hmap. rewrite Hmap. repeat split; assumption.
Qed.

(** X4. [read_modbus] issues its requests in groups of five: five times
    the number of pages it visits, which is at most [pages], at least one
    when [pages] is positive and none when [pages] is zero or negative. *)
Theorem read_modbus_request_bound (register_map : gmap Z Z)
    (start_address pages : Z) (ins : Instrument) :
  exists k : nat,
    requests (snd (read_modbus register_map start_address pages ins))
    = (requests ins + FRAME_READ_RETRIES * k)%nat
    /\ (k <= Z.to_nat pages)%nat
    /\ (0 < pages -> (1 <= k)%nat).
Proof.
  unfold read_modbus, FRAME_READ_RETRIES.
  destruct (page_loop_frame (seqZ 0 pages) start_address register_map ins)
    as (_ & _ & _ & k & Hreq & Hk & Hpos).
  rewrite length_seqZ in Hk.
  exists k. repeat split; [exact Hreq | exact Hk |].
  intros Hpages. apply Hpos. rewrite seqZ_cons by lia. discriminate.
Qed.

Lemma read_modbus_request_bound_witness :
  exists k : nat,
    requests (snd (read_modbus ∅ 100 3 fifth_attempt_instrument))
    = (0 + FRAME_READ_RETRIES * k)%nat
    /\ (k <= 3)%nat /\ (1 <= k)%nat.
Proof.
  destruct (read_modbus_request_bound ∅ 100 3 fifth_attempt_instrument)
    as (k & Hreq & Hk & Hpos).
  exists k. repeat split; [exact Hreq | exact Hk | apply Hpos; lia].
Defined.

(** X5. Only the answer to the fifth request of a page counts. If page
    [p] is the first whose fifth answer is not empty, the reader stops
    after that page, having issued [5 * (p + 1)] requests; if no page of
    the range has a non-empty fifth answer, it visits all of them. Answers
    to the first four requests of a page change nothing. *)
Theorem read_modbus_stops_at_first_answer (register_map : gmap Z Z)
    (start_address pages : Z) (ins : Instrument) :
  let fifth_answer (q : nat) :=
    answer ins (requests ins + 5 * q + 4)
      (start_address + REGISTER_PAGE * Z.of_nat q) in
  let r := read_modbus register_map start_address pages ins in
  (forall p : nat,
     Z.of_nat p < pages ->
     (forall q : nat, (q < p)%nat -> fifth_answer q = []) ->
     fifth_answer p <> [] ->
     requests (snd r) = (requests ins + 5 * (p + 1))%nat)
  /\ ((forall q : nat, Z.of_nat q < pages -> fifth_answer q = []) ->
      requests (snd r) = (requests ins + 5 * Z.to_nat pages)%nat).
Proof.
  cbv zeta. unfold read_modbus. rewrite seqZ_to_nat. split.
  - intros p Hp Hempty Hfull.
    rewrite (page_loop_first_answer (Z.to_nat pages) 0 _ _ _ p).
    + lia.
    + lia.
    + intros q Hq. rewrite Z.add_0_l. now apply Hempty.
    + now rewrite Z.add_0_l.
  - intros Hempty. apply page_loop_no_answer.
    intros q Hq. rewrite Z.add_0_l. apply Hempty. lia.
Qed.

Lemma read_modbus_stops_at_first_answer_witness :
  requests (snd (read_modbus ∅ 100 3 fifth_attempt_instrument)) = 5%nat
  /\ requests
       (snd (read_modbus ∅ 100 3
               {| serial_is_open := true; requests := 0;
                  device := fun _ _ _ => Registers [] |})) = 15%nat.
Proof.
  destruct (read_modbus_stops_at_first_answer ∅ 100 3 fifth_attempt_instrument)
    as [Hfirst _].
  destruct (read_modbus_stops_at_first_answer ∅ 100 3
              {| serial_is_open := true; requests := 0;
                 device := fun _ _ _ => Registers [] |})
    as [_ Hnone].
  split.
  - apply (Hfirst 0%nat).
    + lia.
    + intros q Hq. lia.
    + discriminate.
  - apply Hnone. reflexivity.
Defined.

(** ** PollCycle as it is shipped *)

Lemma read_modbus_frame (register_map : gmap Z Z) (start_address pages : Z)
    (ins : Instrument) :
  let r := read_modbus register_map start_address pages ins in
  fst r = register_map
  /\ serial_is_open (snd r) = serial_is_open ins
  /\ device (snd r) = device ins
  /\ exists k : nat,
       requests (snd r) = (requests ins + 5 * k)%nat
       /\ (k <= Z.to_nat pages)%nat
       /\ (0 < pages -> (1 <= k)%nat).
Proof.
  cbv zeta. unfold read_modbus.
  destruct (page_loop_frame (seqZ 0 pages) start_address register_map ins)
    as (Hmap & Hopen & Hdev & k & Hreq & Hk & Hpos).
  rewrite length_seqZ in Hk. repeat split; try assumption.
  exists k. repeat split; try assumption.
  intros Hpages. apply Hpos. rewrite seqZ_cons by lia. discriminate.
Qed.

(** X6. With the reader and the mapper of the class, a poll cycle with an
    instrument always returns [(None, False)] and leaves the
    [SolarInverter] object, the broker client and the inverter record as
    they were. On a closed port it issues no request at all; on an open
    port it issues between 10 and 20 requests (3 pages at most, then 1
    page, five requests each). *)
Theorem read_serial_data_as_shipped (self : SolarInverter) (app : AppState)
    (ins : Instrument) :
  instrument app = Some ins ->
  let out := read_serial_data self app in
  fst (fst out) = RetPair None false
  /\ snd (fst out) = self
  /\ mqtt_client (snd out) = mqtt_client app
  /\ inverter (snd out) = inverter app
  /\ exists ins',
       instrument (snd out) = Some ins'
       /\ serial_is_open ins' = serial_is_open ins
       /\ device ins' = device ins
       /\ if serial_is_open ins
          then (requests ins + 10 <= requests ins' <= requests ins + 20)%nat
          else requests ins' = requests ins.
Proof.
  intros Hins. cbv zeta.
  unfold read_serial_data, read_serial_data_via, Serial_flush. rewrite Hins.
  destruct (serial_is_open ins) eqn:Hopen; cbn [result_bind].
  - destruct (read_modbus_frame ∅ 100 3 ins)
      as (_ & Ho1 & Hd1 & k1 & Hr1 & Hk1 & Hp1).
    cbv zeta in *.
    destruct (read_modbus ∅ 100 3 ins) as [register_map ins1].
    cbn [fst snd] in *.
    destruct (read_modbus_frame register_map 600 1 ins1)
      as (_ & Ho2 & Hd2 & k2 & Hr2 & Hk2 & Hp2).
    cbv zeta in *.
    destruct (read_modbus register_map 600 1 ins1) as [register_map2 ins2].
    cbn [fst snd] in *.
    rewrite get_telemetry_raises. cbn [fst snd set_instrument mqtt_client
                                        inverter instrument].
    destruct self as [id status tel]. cbn [modbus_id last_status telemetry].
    repeat split.
    exists ins2. rewrite Ho2, Ho1, Hd2, Hd1, Hopen.
    repeat split; try reflexivity.
    + specialize (Hp1 ltac:(lia)). specialize (Hp2 ltac:(lia)). lia.
    + assert (Z.to_nat 3 = 3%nat) by reflexivity.
      assert (Z.to_nat 1 = 1%nat) by reflexivity. lia.
  - cbn [fst snd]. repeat split. exists ins. rewrite Hopen. repeat split; assumption.
Qed.

Lemma read_serial_data_as_shipped_witness :
  let out := read_serial_data (SolarInverter_init 1) (counting_app 0) in
  fst (fst out) = RetPair None false
  /\ snd (fst out) = SolarInverter_init 1
  /\ exists ins',
       instrument (snd out) = Some ins'
       /\ (10 <= requests ins' <= 20)%nat.
Proof.
  destruct (read_serial_data_as_shipped (SolarInverter_init 1) (counting_app 0)
              _ eq_refl) as (Hr & Hself & _ & _ & ins' & Hi & _ & _ & Hreq).
  cbv zeta. split; [exact Hr|]. split; [exact Hself|].
  exists ins'. split; [exact Hi|]. exact Hreq.
Defined.

(** ** The change-detection gate *)

Lemma dict_get_In (d : dict) (k : string) (v : number) :
  dict_get d k = Some v -> In (k, v) d.
Proof.
  induction d as [|[k' v'] d IH]; cbn [dict_get]; [discriminate|].
  destruct (String.eqb k' k) eqn:E.
  - apply String.eqb_eq in E as ->. intros [= ->]. now left.
  - intros H. right. now apply IH.
Qed.

Lemma dict_get_set_eq (d : dict) (k : string) (v : number) :
  dict_get (dict_set d k v) k = Some v.
Proof.
  induction d as [|[k' v'] d IH]; cbn [dict_set dict_get].
  - now rewrite String.eqb_refl.
  - destruct (String.eqb k' k) eqn:E; cbn [dict_get]; now rewrite E.
Qed.

Lemma dict_get_NoDup (d : dict) (k : string) (v : number) :
  NoDup (fst <$> d) -> In (k, v) d -> dict_get d k = Some v.
Proof.
  induction d as [|[k' v'] d IH]; cbn [fmap list_fmap fst dict_get In];
    [easy|].
  intros Hnd [[= -> ->]|Hin].
  - now rewrite String.eqb_refl.
  - apply NoDup_cons in Hnd as [Hnotin Hnd].
    destruct (String.eqb k' k) eqn:E; [|now apply IH].
    apply String.eqb_eq in E as ->. exfalso. apply Hnotin.
    apply list_elem_of_fmap. exists (k, v). split; [reflexivity|].
    now apply list_elem_of_In.
Qed.

(** A well-formed dictionary equals itself. *)
Lemma dict_eqb_refl (d : dict) : well_formed_dict d -> dict_eqb d d = true.
Proof.
  intros [Hnd Hnan]. unfold dict_eqb.
  rewrite Nat.eqb_refl. cbn [andb]. apply forallb_forall.
  intros [k v] Hin. cbn [fst snd].
  rewrite (dict_get_NoDup d k v Hnd Hin).
  rewrite Forall_forall in Hnan.
  apply (Hnan (k, v)). now apply list_elem_of_In.
Qed.

(** Replacing the value of one key by an unequal one is seen. *)
Lemma dict_eqb_set_ne (d : dict) (k : string) (v v' : number) :
  dict_get d k = Some v ->
  number_eqb v v' = false ->
  dict_eqb d (dict_set d k v') = false.
Proof.
  intros Hget Hne. unfold dict_eqb.
  destruct (forallb _ d) eqn:Hall; [|apply andb_false_r].
  rewrite forallb_forall in Hall.
  specialize (Hall (k, v) (dict_get_In d k v Hget)). cbn [fst snd] in Hall.
  rewrite dict_get_set_eq in Hall. congruence.
Qed.

(** X7. When a cycle decodes exactly the snapshot that is remembered, and
    that snapshot is well formed (no key twice, no NaN), the cycle returns
    [(None, True)] and keeps the remembered snapshot: an unchanged reading
    is not handed out for publication again. *)
Theorem unchanged_snapshot_is_suppressed
    (reader : gmap Z Z -> Z -> Z -> Instrument -> gmap Z Z * Instrument)
    (mapper : gmap Z Z -> TM (option TelemetryFeedback))
    (self : SolarInverter) (app : AppState) (ins : Instrument)
    (snapshot : InverterData) :
  instrument app = Some ins ->
  last_status self = Some snapshot ->
  decoded_snapshot reader mapper self ins = Some snapshot ->
  well_formed_dict (normal (log_telemetry snapshot)) ->
  fst (fst (read_serial_data_via reader mapper self app)) = RetPair None true
  /\ last_status (snd (fst (read_serial_data_via reader mapper self app)))
     = Some snapshot.
Proof.
  intros Hins Hlast Hdec Hwf.
  pose proof (read_serial_data_via_cases reader mapper self app ins Hins) as Hcase.
  cbv zeta in Hcase. rewrite Hdec, Hlast in Hcase.
  unfold InverterData_neb in Hcase. rewrite (dict_eqb_refl _ Hwf) in Hcase.
  exact Hcase.
Qed.

(** X8. When the decoded snapshot is the remembered one with the value of
    a single field replaced by an unequal number, the cycle returns
    [(snapshot, True)] and remembers the new snapshot: a change of any one
    field is detected. *)
Theorem changed_field_is_detected
    (reader : gmap Z Z -> Z -> Z -> Instrument -> gmap Z Z * Instrument)
    (mapper : gmap Z Z -> TM (option TelemetryFeedback))
    (self : SolarInverter) (app : AppState) (ins : Instrument)
    (previous : InverterData) (k : string) (v v' : number) :
  instrument app = Some ins ->
  last_status self = Some previous ->
  dict_get (normal (log_telemetry previous)) k = Some v ->
  number_eqb v v' = false ->
  let snapshot :=
    {| log_telemetry :=
         {| normal := dict_set (normal (log_telemetry previous)) k v' |} |} in
  decoded_snapshot reader mapper self ins = Some snapshot ->
  fst (fst (read_serial_data_via reader mapper self app))
  = RetPair (Some snapshot) true
  /\ last_status (snd (fst (read_serial_data_via reader mapper self app)))
     = Some snapshot.
Proof.
  intros Hins Hlast Hget Hne snapshot Hdec.
  pose proof (read_serial_data_via_cases reader mapper self app ins Hins) as Hcase.
  cbv zeta in Hcase. rewrite Hdec, Hlast in Hcase.
  unfold InverterData_neb, snapshot in Hcase.
  cbn [log_telemetry normal] in Hcase.
  rewrite (dict_eqb_set_ne _ k v v' Hget Hne) in Hcase.
  exact Hcase.
Qed.

Lemma unchanged_snapshot_is_suppressed_witness :
  let cycle := read_serial_data_via one_register_reader soc_mapper in
  let self1 := snd (fst (cycle (SolarInverter_init 1) (counting_app 0))) in
  fst (fst (cycle self1 (counting_app 0))) = RetPair None true.
Proof.
  cbv zeta.
  refine (proj1 (unchanged_snapshot_is_suppressed one_register_reader soc_mapper
                   (snd (fst (read_serial_data_via one_register_reader soc_mapper
                               (SolarInverter_init 1) (counting_app 0))))
                   (counting_app 0) _
                   {| log_telemetry :=
                        {| normal := [("battery_soc"%string, PyInt 0)] |} |}
                   eq_refl eq_refl eq_refl _)).
  split.
  - cbn. apply NoDup_singleton.
  - repeat constructor.
Defined.

Lemma changed_field_is_detected_witness :
  let cycle := read_serial_data_via one_register_reader soc_mapper in
  let self1 := snd (fst (cycle (SolarInverter_init 1) (counting_app 0))) in
  fst (fst (cycle self1 (counting_app 5)))
  = RetPair
      (Some {| log_telemetry :=
                 {| normal := [("battery_soc"%string, PyInt 5)] |} |}) true.
Proof.
  cbv zeta.
  exact (proj1 (changed_field_is_detected one_register_reader soc_mapper
                  (snd (fst (read_serial_data_via one_register_reader soc_mapper
                               (SolarInverter_init 1) (counting_app 0))))
                  (counting_app 5) _
                  {| log_telemetry :=
                       {| normal := [("battery_soc"%string, PyInt 0)] |} |}
                  "battery_soc" (PyInt 0) (PyInt 5)
                  eq_refl eq_refl eq_refl eq_refl eq_refl)).
Defined.

(** ** AvailabilityTracker: the watchdog bound and the rule over time *)

(** X9. The watchdog bound is never below 15 seconds nor below three poll
    intervals plus 5 seconds, and it does not shrink when the poll interval
    grows; every interval up to 3 seconds, negative ones included, gives
    exactly 15. *)
Theorem max_age_bounds (cfg cfg' : Config) :
  15 <= _compute_max_age_seconds cfg
  /\ 3 * MQTT_UPDATE_INTERVAL cfg + 5 <= _compute_max_age_seconds cfg
  /\ (MQTT_UPDATE_INTERVAL cfg <= MQTT_UPDATE_INTERVAL cfg' ->
      _compute_max_age_seconds cfg <= _compute_max_age_seconds cfg')
  /\ (MQTT_UPDATE_INTERVAL cfg <= 3 -> _compute_max_age_seconds cfg = 15).
Proof. unfold _compute_max_age_seconds. lia. Qed.

Lemma max_age_bounds_witness :
  _compute_max_age_seconds default_config
  <= _compute_max_age_seconds
       {| MODBUS_ID := 1; MQTT_TOPIC := "inverter";
          MQTT_UPDATE_INTERVAL := 60; ENABLE_HA_DISCOVERY_CONFIG := true |}
  /\ _compute_max_age_seconds
       {| MODBUS_ID := 1; MQTT_TOPIC := "inverter";
          MQTT_UPDATE_INTERVAL := -7; ENABLE_HA_DISCOVERY_CONFIG := true |} = 15.
Proof.
  split.
  - apply (max_age_bounds default_config
             {| MODBUS_ID := 1; MQTT_TOPIC := "inverter";
                MQTT_UPDATE_INTERVAL := 60;
                ENABLE_HA_DISCOVERY_CONFIG := true |}).
    cbn. lia.
  - apply (max_age_bounds
             {| MODBUS_ID := 1; MQTT_TOPIC := "inverter";
                MQTT_UPDATE_INTERVAL := -7;
                ENABLE_HA_DISCOVERY_CONFIG := true |} default_config).
    cbn. lia.
Defined.

(** X10. Without a new successful poll, time alone never brings a device
    back: once the rule computes offline it computes offline at every
    later time; a device that has never succeeded (timestamp 0 or below)
    is offline at every time; and the rule only ever computes "online" or
    "offline". *)
Theorem offline_is_absorbing (cfg : Config) (inv : Inverter) (now1 now2 : Q) :
  ((now1 <= now2)%Q ->
   desired_availability cfg inv now1 = "offline"%string ->
   desired_availability cfg inv now2 = "offline"%string)
  /\ ((last_success_ts inv <= 0)%Q ->
      desired_availability cfg inv now1 = "offline"%string)
  /\ (desired_availability cfg inv now1 = "online"%string
      \/ desired_availability cfg inv now1 = "offline"%string).
Proof.
  split; [|split].
  - intros Hle Hoff. apply desired_availability_offline.
    apply desired_availability_offline in Hoff.
    intros [Hpos Hfresh]. apply Hoff. split; [exact Hpos|].
    apply Qle_trans with (now2 - last_success_ts inv)%Q; [|exact Hfresh].
    unfold Qminus. apply Qplus_le_compat; [exact Hle | apply Qle_refl].
  - intros Hnever. apply desired_availability_offline.
    intros [Hpos _]. now apply Qlt_not_le in Hpos.
  - unfold desired_availability. destruct (_ && _); auto.
Qed.

Lemma offline_is_absorbing_witness :
  desired_availability default_config (inverter (app_state online_world)) 5000
  = "offline"%string
  /\ desired_availability default_config
       (inverter (app_state World_init)) 5 = "offline"%string.
Proof.
  destruct (offline_is_absorbing default_config
              (inverter (app_state online_world)) 1096 5000) as [Hlater _].
  destruct (offline_is_absorbing default_config
              (inverter (app_state World_init)) 5 5) as (_ & Hnever & _).
  split.
  - apply Hlater; [unfold Qle; cbn; lia | reflexivity].
  - apply Hnever. unfold Qle; cbn; lia.
Defined.

(** X11. [_publish_inverter_availability] is idempotent: it never raises,
    and a second call at the same time publishes nothing and changes
    nothing; without a broker client the first call changes nothing
    either. *)
Theorem publish_inverter_availability_idempotent (cfg : Config) (now : Q)
    (w : World) :
  let w1 := snd (_publish_inverter_availability cfg now w) in
  fst (_publish_inverter_availability cfg now w) = Ok tt
  /\ _publish_inverter_availability cfg now w1 = (Ok tt, w1)
  /\ (mqtt_client (app_state w) = None -> w1 = w).
Proof.
  destruct w as [[client ins inv] ts conn]. cbv zeta.
  unfold _publish_inverter_availability. cbn [app_state mqtt_client inverter].
  destruct client as [c|]; [|repeat split].
  destruct (String.eqb (availability inv) (desired_availability cfg inv now))
    eqn:E; cbn [negb].
  - cbn [fst snd app_state mqtt_client inverter]. rewrite E. cbn [negb].
    repeat split; try discriminate.
  - unfold wm_bind, publish, with_inverter.
    cbn [app_state mqtt_client inverter instrument last_update_ts
         mqtt_connected fst snd availability].
    replace (desired_availability cfg
               {| address := address inv;
                  last_success_ts := last_success_ts inv;
                  publish_counter := publish_counter inv;
                  availability := desired_availability cfg inv now |} now)
      with (desired_availability cfg inv now) by reflexivity.
    rewrite String.eqb_refl. cbn [negb]. repeat split; try discriminate.
Qed.

Lemma publish_inverter_availability_idempotent_witness :
  snd (_publish_inverter_availability default_config 1030 World_init)
  = World_init.
Proof.
  apply (publish_inverter_availability_idempotent default_config 1030 World_init).
  reflexivity.
Defined.

(** ** Topics *)

Lemma list_ascii_of_string_append (s1 s2 : string) :
  String.list_ascii_of_string (s1 +:+ s2)
  = String.list_ascii_of_string s1 ++ String.list_ascii_of_string s2.
Proof.
  induction s1 as [|a s1 IH]; [reflexivity|].
  change (a :: String.list_ascii_of_string (s1 +:+ s2)
          = a :: (String.list_ascii_of_string s1
                  ++ String.list_ascii_of_string s2)).
  now rewrite IH.
Qed.

Lemma list_ascii_of_string_injective (s1 s2 : string) :
  String.list_ascii_of_string s1 = String.list_ascii_of_string s2 -> s1 = s2.
Proof.
  intros H. rewrite <- (String.string_of_list_ascii_of_string s1),
              <- (String.string_of_list_ascii_of_string s2).
  now rewrite H.
Qed.

(** Equal strings with the same ending have the same beginning. *)
Lemma append_inj_l (s1 s2 t : string) : s1 +:+ t = s2 +:+ t -> s1 = s2.
Proof.
  intros H. apply list_ascii_of_string_injective.
  apply (f_equal String.list_ascii_of_string) in H.
  rewrite !list_ascii_of_string_append in H.
  now apply app_inv_tail in H.
Qed.

(** Strings whose last characters differ are different. *)
Lemma append_last_ne (s1 s2 t1 t2 : string) (a1 a2 : Ascii.ascii) :
  a1 <> a2 ->
  s1 +:+ t1 +:+ String a1 EmptyString <> s2 +:+ t2 +:+ String a2 EmptyString.
Proof.
  intros Hne H. apply (f_equal String.list_ascii_of_string) in H.
  rewrite !list_ascii_of_string_append in H.
  apply (f_equal (@rev Ascii.ascii)) in H.
  rewrite !rev_app_distr in H. cbn in H. congruence.
Qed.

(** X12. The topics never collide: two device ids have different
    availability topics and different heartbeat topics, and for any ids
    the availability, heartbeat and sensors topics of devices and the
    process-level availability topic are pairwise different. *)
Theorem topics_do_not_collide (cfg : Config) (i j : Z) :
  let sensors_topic (id : Z) :=
    (MQTT_TOPIC cfg +:+ "/inverter-" +:+ pretty id +:+ "/sensors")%string in
  let process_topic := (MQTT_TOPIC cfg +:+ "/availability")%string in
  (_availability_topic cfg i = _availability_topic cfg j -> i = j)
  /\ (_heartbeat_topic cfg i = _heartbeat_topic cfg j -> i = j)
  /\ (sensors_topic i = sensors_topic j -> i = j)
  /\ _availability_topic cfg i <> _heartbeat_topic cfg j
  /\ _availability_topic cfg i <> sensors_topic j
  /\ _heartbeat_topic cfg i <> sensors_topic j
  /\ _availability_topic cfg i <> process_topic
  /\ _heartbeat_topic cfg i <> process_topic
  /\ sensors_topic i <> process_topic.
Proof.
  cbv zeta. unfold _availability_topic, _heartbeat_topic.
  assert (Hid : forall suffix : string,
             (MQTT_TOPIC cfg +:+ "/inverter-" +:+ pretty i +:+ suffix
              = MQTT_TOPIC cfg +:+ "/inverter-" +:+ pretty j +:+ suffix)%string
             -> i = j).
  { intros suffix H. apply String.app_inj in H. apply String.app_inj in H.
    apply append_inj_l in H. now apply pretty_Z_inj in H. }
  assert (Hlast : forall (x y : Z) (t1 t2 : string) (a1 a2 : Ascii.ascii),
             a1 <> a2 ->
             (MQTT_TOPIC cfg +:+ "/inverter-" +:+ pretty x +:+ t1
              +:+ String a1 EmptyString
              <> MQTT_TOPIC cfg +:+ "/inverter-" +:+ pretty y +:+ t2
                 +:+ String a2 EmptyString)%string).
  { intros x y t1 t2 a1 a2 Hne H.
    apply String.app_inj in H. apply String.app_inj in H.
    now apply append_last_ne in H. }
  assert (Hproc : forall (x : Z) (t : string),
             (MQTT_TOPIC cfg +:+ "/inverter-" +:+ pretty x +:+ t
              <> MQTT_TOPIC cfg +:+ "/availability")%string).
  { intros x t H. apply String.app_inj in H. discriminate H. }
  repeat split; try apply Hid; try apply Hproc.
  - apply (Hlast i j "/availabilit" "/heartbea")%string. discriminate.
  - apply (Hlast i j "/availabilit" "/sensor")%string. discriminate.
  - apply (Hlast i j "/heartbea" "/sensor")%string. discriminate.
Qed.

Lemma topics_do_not_collide_witness :
  _availability_topic default_config 1 = "inverter/inverter-1/availability"%string
  /\ (_availability_topic default_config 2 = _availability_topic default_config 2
      -> 2 = 2).
Proof.
  split; [reflexivity|].
  apply (topics_do_not_collide default_config 2 2).
Defined.

(** ** The broker callbacks and the probe *)

Lemma run_callbacks_snoc (cbs : list callback) (cb : callback) (w : World) :
  run_callbacks (cbs ++ [cb]) w = run_callback cb (run_callbacks cbs w).
Proof. unfold run_callbacks. now rewrite fold_left_app. Qed.

(** Callbacks leave the client, the instrument and the timestamp alone. *)
Lemma run_callbacks_frame (cbs : list callback) (w : World) :
  app_state (run_callbacks cbs w) = app_state w
  /\ last_update_ts (run_callbacks cbs w) = last_update_ts w.
Proof.
  revert w. induction cbs as [|cb cbs IH]; intros w; [now split|].
  change (run_callbacks (cb :: cbs) w)
    with (run_callbacks cbs (run_callback cb w)).
  destruct (IH (run_callback cb w)) as [Ha Ht]. rewrite Ha, Ht.
  now destruct cb.
Qed.

(** X13. However many connects and disconnects the broker client has
    reported, the probe goes by the last report alone: after it [/health]
    is answered 200 exactly when that report was a connect with reason
    code 0 and, in the state the reports started from, the client's loop
    thread is alive, the instrument's port is open and the last update is
    fresh; after a disconnect or a refused connect it is answered 503
    whatever the rest of the state. *)
Theorem broker_callbacks_drive_probe (cfg : Config) (now : Q) (w : World)
    (cbs : list callback) (cb : callback) :
  let w' := run_callbacks (cbs ++ [cb]) w in
  (fst (do_GET cfg "/health" now w') = 200
   <-> cb = Connect 0
       /\ (exists c, mqtt_client (app_state w) = Some c
                     /\ loop_thread c = Some true)
       /\ (exists ins, instrument (app_state w) = Some ins
                       /\ serial_is_open ins = true)
       /\ (now - last_update_ts w
           < inject_Z (Z.max 15 (3 * MQTT_UPDATE_INTERVAL cfg + 5)))%Q)
  /\ (cb <> Connect 0 -> fst (do_GET cfg "/health" now w') = 503).
Proof.
  cbv zeta. rewrite run_callbacks_snoc.
  destruct (run_callbacks_frame cbs w) as [Ha Ht].
  set (w1 := run_callbacks cbs w) in *.
  destruct (do_GET_health_state cfg now (run_callback cb w1)) as [H200 H503].
  assert (Hframe : app_state (run_callback cb w1) = app_state w
                   /\ last_update_ts (run_callback cb w1) = last_update_ts w)
    by (destruct cb; cbn [run_callback on_mqtt_connect on_mqtt_disconnect
                          app_state last_update_ts]; now split).
  destruct Hframe as [Ha' Ht'].
  assert (Hflag : mqtt_connected (run_callback cb w1) = true <-> cb = Connect 0).
  { destruct cb as [rc|];
      cbn [run_callback on_mqtt_connect on_mqtt_disconnect mqtt_connected].
    - split; [intros ->%Z.eqb_eq; reflexivity | intros [= ->]; reflexivity].
    - split; discriminate. }
  unfold loop_thread_alive, serial_port_open, last_update_fresh in H200, H503.
  rewrite Ha', Ht', Hflag in H200, H503.
  split; [exact H200|].
  intros Hne. apply H503. intros [Hcb _]. now apply Hne.
Qed.

Lemma broker_callbacks_drive_probe_witness :
  let w := probe_world (Some (client_with_thread (Some true)))
             (Some (port true)) false 1000 in
  fst (do_GET default_config "/health" 1030
         (run_callbacks [Connect 5; Disconnect; Connect 0] w)) = 200
  /\ fst (do_GET default_config "/health" 1030
            (run_callbacks [Connect 0; Connect 5] w)) = 503
  /\ fst (do_GET default_config "/health" 1030
            (run_callbacks [Connect 0; Disconnect] w)) = 503
  /\ fst (do_GET default_config "/health" 1030
            (run_callbacks [Connect 0]
               (probe_world (Some (client_with_thread (Some true)))
                  (Some (port false)) false 1000))) <> 200.
Proof.
  cbv zeta.
  destruct (broker_callbacks_drive_probe default_config 1030
              (probe_world (Some (client_with_thread (Some true)))
                 (Some (port true)) false 1000)
              [Connect 5; Disconnect] (Connect 0)) as [Hup _].
  destruct (broker_callbacks_drive_probe default_config 1030
              (probe_world (Some (client_with_thread (Some true)))
                 (Some (port true)) false 1000)
              [Connect 0] (Connect 5)) as [_ Hbad].
  destruct (broker_callbacks_drive_probe default_config 1030
              (probe_world (Some (client_with_thread (Some true)))
                 (Some (port true)) false 1000)
              [Connect 0] Disconnect) as [_ Hdown].
  destruct (broker_callbacks_drive_probe default_config 1030
              (probe_world (Some (client_with_thread (Some true)))
                 (Some (port false)) false 1000)
              [] (Connect 0)) as [Hclosed _].
  split; [|split; [|split]].
  - apply Hup. split; [reflexivity|].
    split; [eexists; split; reflexivity|].
    split; [eexists; split; reflexivity|]. reflexivity.
  - apply Hbad. discriminate.
  - apply Hdown. discriminate.
  - intros H. apply Hclosed in H.
    destruct H as (_ & _ & (i & [= <-] & Hi) & _). discriminate Hi.
Defined.

(** ** MainLoop: one iteration and runs of iterations *)

(** One iteration with a broker client, in full. *)
Lemma main_loop_iteration_with_client (cfg : Config) (now : Q) (w : World)
    (c : Client) (log_data : option InverterData) (poll_success : bool) :
  mqtt_client (app_state w) = Some c ->
  main_loop_iteration cfg (RetPair log_data poll_success) now w
  = (sleep_error (MQTT_UPDATE_INTERVAL cfg),
     {| app_state :=
          {| mqtt_client :=
               Some {| loop_thread := loop_thread c;
                       outbox :=
                         outbox c
                         ++ iteration_messages cfg (inverter (app_state w))
                              now log_data poll_success |};
             instrument := instrument (app_state w);
             inverter :=
               inverter_after cfg (inverter (app_state w)) now poll_success |};
        last_update_ts := if poll_success then now else last_update_ts w;
        mqtt_connected := mqtt_connected w |}).
Proof.
  destruct w as [[client ins inv] ts conn]. cbn [app_state mqtt_client].
  intros ->. unfold iteration_messages, inverter_after.
  destruct poll_success, log_data as [d|]; run_statements;
    unfold desired_availability;
    cbn [last_success_ts availability address publish_counter];
    match goal with
    | |- context [negb (String.eqb ?a ?b)] =>
        destruct (String.eqb a b) eqn:E;
        cbn [negb app_state mqtt_client inverter availability outbox
             instrument last_update_ts mqtt_connected address
             last_success_ts publish_counter loop_thread fst snd]
    end;
    try (apply String.eqb_eq in E; rewrite <- E);
    destruct (sleep_error (MQTT_UPDATE_INTERVAL cfg));
    cbn [app_state mqtt_client inverter availability outbox fst snd];
    rewrite <- ?app_assoc; try destruct inv; reflexivity.
Qed.

(** What one iteration with a broker client does to the outbox and to the
    timestamps, for any value handed back by the poll. *)
Lemma main_loop_iteration_summary (cfg : Config) (r : retval) (now : Q)
    (w : World) (c : Client) :
  mqtt_client (app_state w) = Some c ->
  let w' := snd (main_loop_iteration cfg r now w) in
  exists c' new,
    mqtt_client (app_state w') = Some c'
    /\ loop_thread c' = loop_thread c
    /\ outbox c' = outbox c ++ new
    /\ heartbeat_counters new
       = (if is_success r
          then [publish_counter (inverter (app_state w)) + 1] else [])
    /\ sensor_documents new
       = match r with
         | RetPair (Some d) _ => [d]
         | _ => []
         end
    /\ last_update_ts w' = (if is_success r then now else last_update_ts w)
    /\ last_success_ts (inverter (app_state w'))
       = (if is_success r then now
          else last_success_ts (inverter (app_state w)))
    /\ instrument (app_state w') = instrument (app_state w)
    /\ mqtt_connected w' = mqtt_connected w.
Proof.
  intros Hc. cbv zeta. destruct r as [|log_data poll_success].
  - exists c, []. cbn [main_loop_iteration main_loop_body unpack_pair wm_bind
                       snd is_success].
    rewrite app_nil_r. repeat split; try reflexivity. exact Hc.
  - rewrite (main_loop_iteration_with_client cfg now w c log_data poll_success Hc).
    cbn [snd app_state mqtt_client inverter instrument last_update_ts
         mqtt_connected].
    eexists _, _. split; [reflexivity|]. cbn [loop_thread outbox].
    split; [reflexivity|]. split; [reflexivity|].
    unfold iteration_messages, inverter_after.
    destruct poll_success, log_data as [d|];
      cbn [is_success last_success_ts];
      match goal with
      | |- context [String.eqb ?a ?b] => destruct (String.eqb a b)
      end;
      repeat split.
Qed.

(** The same over a run of iterations. *)
Lemma main_loop_summary (cfg : Config) (polls : list (retval * Q)) (w : World)
    (c : Client) :
  mqtt_client (app_state w) = Some c ->
  let w' := main_loop cfg polls w in
  exists c' new,
    mqtt_client (app_state w') = Some c'
    /\ loop_thread c' = loop_thread c
    /\ outbox c' = outbox c ++ new
    /\ heartbeat_counters new
       = seqZ (publish_counter (inverter (app_state w)) + 1)
           (Z.of_nat (count_successes polls))
    /\ sensor_documents new = handed_snapshots polls
    /\ last_update_ts w' = last_success_time polls (last_update_ts w)
    /\ last_success_ts (inverter (app_state w'))
       = last_success_time polls (last_success_ts (inverter (app_state w)))
    /\ instrument (app_state w') = instrument (app_state w)
    /\ mqtt_connected w' = mqtt_connected w.
Proof.
  revert w c. induction polls as [|[r now] polls IH]; intros w c Hc.
  - exists c, []. cbn. rewrite app_nil_r. repeat split; assumption.
  - cbv zeta. cbn [main_loop].
    destruct (main_loop_iteration_summary cfg r now w c Hc)
      as (c1 & new1 & Hc1 & Hl1 & Ho1 & Hh1 & Hs1 & Hu1 & Ht1 & Hi1 & Hm1).
    cbv zeta in *.
    destruct (IH _ c1 Hc1)
      as (c2 & new2 & Hc2 & Hl2 & Ho2 & Hh2 & Hs2 & Hu2 & Ht2 & Hi2 & Hm2).
    cbv zeta in *.
    exists c2, (new1 ++ new2).
    split; [exact Hc2|]. split; [congruence|].
    split; [rewrite Ho2, Ho1; now rewrite app_assoc|].
    unfold heartbeat_counters, sensor_documents in *.
    rewrite !flat_map_app, Hh1, Hs1, Hh2, Hs2, Hu2, Ht2, Hu1, Ht1.
    rewrite main_loop_iteration_counter.
    unfold count_successes, handed_snapshots, last_success_time.
    cbn [List.filter flat_map fold_left fst snd].
    repeat split; try congruence.
    destruct (is_success r); cbn [length app].
    + rewrite seqZ_S. reflexivity.
    + now rewrite Z.add_0_r.
Qed.

Lemma published_since_outbox (w w' : World) (c c' : Client)
    (new : list message) :
  mqtt_client (app_state w) = Some c ->
  mqtt_client (app_state w') = Some c' ->
  outbox c' = outbox c ++ new ->
  published_since w w' = new.
Proof.
  intros Hc Hc' Ho. unfold published_since, outbox_of.
  rewrite Hc, Hc', Ho. apply drop_app_length.
Qed.

(** X14. An iteration that runs with a broker client on a pair returned by
    the poll publishes everything before its final [time.sleep], which is
    the only statement that can raise: with an interval from 0 to
    [2^31 - 1] seconds the iteration ends without an exception, with a
    negative interval the sleep raises [ValueError], and with an interval
    beyond the 64-bit nanosecond clock (above 9223372036 seconds in
    absolute value) it raises [OverflowError]. In every case the last
    message published is the process-level "online", and the instrument,
    the connection flag and the client's loop thread are left alone. *)
Theorem main_loop_iteration_completes (cfg : Config) (now : Q) (w : World)
    (c : Client) (log_data : option InverterData) (poll_success : bool) :
  mqtt_client (app_state w) = Some c ->
  let out := main_loop_iteration cfg (RetPair log_data poll_success) now w in
  (0 <= MQTT_UPDATE_INTERVAL cfg <= 2147483647 -> fst out = None)
  /\ (-9223372036 <= MQTT_UPDATE_INTERVAL cfg < 0 ->
      fst out = Some (ValueError "sleep length must be non-negative"))
  /\ (9223372036 < Z.abs (MQTT_UPDATE_INTERVAL cfg) ->
      fst out
      = Some (OverflowError "timestamp too large to convert to C _PyTime_t"))
  /\ last (published_since w (snd out)) = Some (process_online_message cfg)
  /\ instrument (app_state (snd out)) = instrument (app_state w)
  /\ mqtt_connected (snd out) = mqtt_connected w
  /\ exists c', mqtt_client (app_state (snd out)) = Some c'
                /\ loop_thread c' = loop_thread c.
Proof.
  intros Hc. cbv zeta.
  rewrite (main_loop_iteration_with_client cfg now w c log_data poll_success Hc).
  cbn [fst snd].
  assert (Hmax : PyTime_MAX_SECONDS = 9223372036) by reflexivity.
  unfold sleep_error. rewrite Hmax.
  split; [|split; [|split; [|split; [|split; [|split]]]]].
  - intros Hpos.
    destruct (Z.ltb_spec 9223372036 (Z.abs (MQTT_UPDATE_INTERVAL cfg))); [lia|].
    destruct (Z.ltb_spec (MQTT_UPDATE_INTERVAL cfg) 0); [lia|reflexivity].
  - intros Hneg.
    destruct (Z.ltb_spec 9223372036 (Z.abs (MQTT_UPDATE_INTERVAL cfg))); [lia|].
    destruct (Z.ltb_spec (MQTT_UPDATE_INTERVAL cfg) 0); [reflexivity|lia].
  - intros Hbig.
    destruct (Z.ltb_spec 9223372036 (Z.abs (MQTT_UPDATE_INTERVAL cfg)));
      [reflexivity|lia].
  - erewrite published_since_outbox; [|exact Hc|reflexivity|reflexivity].
    unfold iteration_messages. rewrite !app_assoc. apply last_snoc.
  - reflexivity.
  - reflexivity.
  - eexists. split; reflexivity.
Qed.

Lemma main_loop_iteration_completes_witness :
  let run cfg :=
    main_loop_iteration cfg (RetPair None true) 1030 online_world in
  let with_interval i :=
    {| MODBUS_ID := 1; MQTT_TOPIC := "inverter"; MQTT_UPDATE_INTERVAL := i;
       ENABLE_HA_DISCOVERY_CONFIG := true |} in
  fst (run default_config) = None
  /\ last (published_since online_world (snd (run default_config)))
     = Some (process_online_message default_config)
  /\ fst (run (with_interval (-5)))
     = Some (ValueError "sleep length must be non-negative")
  /\ fst (run (with_interval (10 ^ 20)))
     = Some (OverflowError "timestamp too large to convert to C _PyTime_t").
Proof.
  cbv zeta.
  destruct (main_loop_iteration_completes default_config 1030 online_world
              running_client None true eq_refl) as (Hok & _ & _ & Hlast & _).
  destruct (main_loop_iteration_completes
              {| MODBUS_ID := 1; MQTT_TOPIC := "inverter";
                 MQTT_UPDATE_INTERVAL := -5;
                 ENABLE_HA_DISCOVERY_CONFIG := true |} 1030 online_world
              running_client None true eq_refl) as (_ & Hneg & _).
  destruct (main_loop_iteration_completes
              {| MODBUS_ID := 1; MQTT_TOPIC := "inverter";
                 MQTT_UPDATE_INTERVAL := 10 ^ 20;
                 ENABLE_HA_DISCOVERY_CONFIG := true |} 1030 online_world
              running_client None true eq_refl) as (_ & _ & Hbig & _).
  split; [apply Hok; cbn; lia|]. split; [exact Hlast|].
  split; [apply Hneg; cbn; lia | apply Hbig; vm_compute; reflexivity].
Defined.

(** X15. Over any run of iterations with a broker client, the sensors
    documents published are exactly the snapshots the polls handed to the
    loop, in order: a poll that hands no snapshot (unchanged reading,
    failure, bare [None]) publishes no telemetry. *)
Theorem sensors_published_when_handed (cfg : Config)
    (polls : list (retval * Q)) (w : World) (c : Client) :
  mqtt_client (app_state w) = Some c ->
  sensor_documents (published_since w (main_loop cfg polls w))
  = handed_snapshots polls.
Proof.
  intros Hc.
  destruct (main_loop_summary cfg polls w c Hc)
    as (c' & new & Hc' & _ & Ho & _ & Hs & _).
  cbv zeta in *.
  now rewrite (published_since_outbox _ _ c c' new Hc Hc' Ho).
Qed.

Lemma sensors_published_when_handed_witness :
  let d := {| log_telemetry := {| normal := [("battery_soc"%string, PyInt 55)] |} |} in
  sensor_documents
    (published_since online_world
       (main_loop default_config
          [(RetPair (Some d) true, 1030%Q); (RetPair None true, 1061%Q);
           (RetPair None false, 1092%Q)] online_world))
  = [d].
Proof.
  cbv zeta.
  exact (sensors_published_when_handed default_config
           [(RetPair (Some {| log_telemetry :=
                                {| normal := [("battery_soc"%string, PyInt 55)] |} |})
               true, 1030%Q);
            (RetPair None true, 1061%Q); (RetPair None false, 1092%Q)]
           online_world running_client eq_refl).
Defined.

(** X16. Over any run of iterations with a broker client, exactly one
    heartbeat is published per successful poll, and the heartbeats carry
    consecutive counter values starting one above the counter the run
    started with. *)
Theorem heartbeats_carry_consecutive_counters (cfg : Config)
    (polls : list (retval * Q)) (w : World) (c : Client) :
  mqtt_client (app_state w) = Some c ->
  heartbeat_counters (published_since w (main_loop cfg polls w))
  = seqZ (publish_counter (inverter (app_state w)) + 1)
      (Z.of_nat (count_successes polls)).
Proof.
  intros Hc.
  destruct (main_loop_summary cfg polls w c Hc)
    as (c' & new & Hc' & _ & Ho & Hh & _).
  cbv zeta in *.
  now rewrite (published_since_outbox _ _ c c' new Hc Hc' Ho).
Qed.

Lemma heartbeats_carry_consecutive_counters_witness :
  heartbeat_counters
    (published_since online_world
       (main_loop default_config
          [(RetPair None true, 1030%Q); (RetPair None false, 1061%Q);
           (RetNone, 1092%Q); (RetPair None true, 1123%Q)] online_world))
  = [2; 3].
Proof.
  exact (heartbeats_carry_consecutive_counters default_config
           [(RetPair None true, 1030%Q); (RetPair None false, 1061%Q);
            (RetNone, 1092%Q); (RetPair None true, 1123%Q)]
           online_world running_client eq_refl).
Defined.

Lemma last_success_time_some (polls : list (retval * Q)) (t1 t2 : Q) :
  (0 < count_successes polls)%nat ->
  last_success_time polls t1 = last_success_time polls t2.
Proof.
  revert t1 t2. unfold last_success_time, count_successes.
  induction polls as [|[r now] polls IH]; intros t1 t2; cbn [List.filter fst].
  - cbn. lia.
  - cbn [fold_left fst snd]. destruct (is_success r); cbn [length].
    + intros _. reflexivity.
    + apply IH.
Qed.

(** X17. The process-wide [last_update_ts] and the device's
    [last_success_ts] move together and only on success: after any run of
    iterations with a broker client each holds the clock reading of the
    last successful poll of the run, or its old value if none succeeded;
    so after at least one success the two are equal. *)
Theorem timestamps_follow_last_success (cfg : Config)
    (polls : list (retval * Q)) (w : World) (c : Client) :
  mqtt_client (app_state w) = Some c ->
  let w' := main_loop cfg polls w in
  last_update_ts w' = last_success_time polls (last_update_ts w)
  /\ last_success_ts (inverter (app_state w'))
     = last_success_time polls (last_success_ts (inverter (app_state w)))
  /\ ((0 < count_successes polls)%nat ->
      last_success_ts (inverter (app_state w')) = last_update_ts w').
Proof.
  intros Hc.
  destruct (main_loop_summary cfg polls w c Hc)
    as (c' & new & _ & _ & _ & _ & _ & Hu & Ht & _).
  cbv zeta in *. split; [exact Hu|]. split; [exact Ht|].
  intros Hsome. rewrite Hu, Ht. now apply last_success_time_some.
Qed.

Lemma timestamps_follow_last_success_witness :
  let w' :=
    main_loop default_config
      [(RetPair None true, 1030%Q); (RetPair None false, 1061%Q)]
      online_world in
  last_update_ts w' = 1030%Q
  /\ last_success_ts (inverter (app_state w')) = last_update_ts w'.
Proof.
  destruct (timestamps_follow_last_success default_config
              [(RetPair None true, 1030%Q); (RetPair None false, 1061%Q)]
              online_world running_client eq_refl) as (Hu & _ & Heq).
  cbv zeta. split; [exact Hu|]. apply Heq. cbn. lia.
Defined.

(** ** Startup and the loop as it is shipped *)

Lemma publish_all_spec (discovery : list message) (w : World) (c : Client) :
  mqtt_client (app_state w) = Some c ->
  fold_right (fun m k => (publish (topic m) (body m) (retain m) ;; k)%wm)
    (wm_ret tt) discovery w
  = (Ok tt,
     {| app_state :=
          {| mqtt_client :=
               Some {| loop_thread := loop_thread c;
                       outbox := outbox c ++ discovery |};
             instrument := instrument (app_state w);
             inverter := inverter (app_state w) |};
        last_update_ts := last_update_ts w;
        mqtt_connected := mqtt_connected w |}).
Proof.
  revert w c. induction discovery as [|m ms IH]; intros w c Hc.
  - destruct w as [[client ins inv] ts conn]. cbn in Hc. subst client.
    destruct c as [thread box]. cbn. now rewrite app_nil_r.
  - cbn [fold_right]. unfold wm_bind at 1.
    rewrite (publish_with_client w c _ _ _ Hc).
    match goal with
    | |- context [fold_right ?f ?z ms ?w1] =>
        rewrite (IH w1 _ eq_refl)
    end.
    cbn [app_state mqtt_client instrument inverter last_update_ts
         mqtt_connected loop_thread outbox].
    rewrite <- app_assoc. destruct m. reflexivity.
Qed.

Lemma main_startup_state (cfg : Config) (client : Client) (ins : Instrument)
    (t0 : Q) (discovery : list message) :
  main_startup cfg client ins t0 discovery World_init
  = (Ok tt,
     {| app_state :=
          {| mqtt_client :=
               Some {| loop_thread := loop_thread client;
                       outbox :=
                         outbox client
                         ++ availability_message cfg (MODBUS_ID cfg) "offline"
                            :: (if ENABLE_HA_DISCOVERY_CONFIG cfg
                                then discovery else []) |};
             instrument := Some ins;
             inverter := {| address := MODBUS_ID cfg; last_success_ts := 0;
                            publish_counter := 0; availability := "offline" |} |};
        last_update_ts := t0;
        mqtt_connected := false |}).
Proof.
  unfold main_startup, wm_bind, publish, with_inverter, set_last_update_ts.
  cbn [app_state mqtt_client instrument inverter last_update_ts
       mqtt_connected World_init].
  destruct (ENABLE_HA_DISCOVERY_CONFIG cfg).
  - match goal with
    | |- context [fold_right ?f ?z discovery ?w1] =>
        pose proof (publish_all_spec discovery w1 _ eq_refl) as Hall
    end.
    unfold wm_bind, publish in Hall. rewrite Hall.
    cbn [app_state mqtt_client instrument inverter last_update_ts
         mqtt_connected loop_thread outbox].
    now rewrite <- app_assoc.
  - reflexivity.
Qed.

Lemma desired_availability_never_succeeded (cfg : Config) (inv : Inverter)
    (now : Q) :
  last_success_ts inv = 0%Q ->
  desired_availability cfg inv now = "offline"%string.
Proof. intros H. unfold desired_availability. now rewrite H. Qed.

(** The poll cycle of the class, as an equation. *)
Lemma read_serial_data_shipped (self : SolarInverter) (app : AppState)
    (ins : Instrument) :
  instrument app = Some ins ->
  exists ins',
    read_serial_data self app
    = (RetPair None false, self,
       {| mqtt_client := mqtt_client app;
          instrument := Some ins';
          inverter := inverter app |})
    /\ serial_is_open ins' = serial_is_open ins
    /\ device ins' = device ins.
Proof.
  intros Hins.
  unfold read_serial_data, read_serial_data_via, Serial_flush. rewrite Hins.
  destruct (serial_is_open ins) eqn:Hopen; cbn [result_bind].
  - destruct (read_modbus_frame ∅ 100 3 ins) as (_ & Ho1 & Hd1 & _).
    cbv zeta in *.
    destruct (read_modbus ∅ 100 3 ins) as [register_map ins1].
    cbn [fst snd] in *.
    destruct (read_modbus_frame register_map 600 1 ins1) as (_ & Ho2 & Hd2 & _).
    cbv zeta in *.
    destruct (read_modbus register_map 600 1 ins1) as [register_map2 ins2].
    cbn [fst snd] in *.
    rewrite get_telemetry_raises. cbn [fst snd]. unfold set_instrument.
    exists ins2. destruct self. repeat split; congruence.
  - exists ins. destruct app as [client i inv]. cbn in Hins. subst i.
    repeat split. exact Hopen.
Qed.

(** One pass of the loop as shipped, for a device that has never
    succeeded and is stored as offline. *)
Lemma main_cycle_shipped (cfg : Config) (now : Q) (self : SolarInverter)
    (w : World) (c : Client) (ins : Instrument) :
  mqtt_client (app_state w) = Some c ->
  instrument (app_state w) = Some ins ->
  last_success_ts (inverter (app_state w)) = 0%Q ->
  availability (inverter (app_state w)) = "offline"%string ->
  exists ins',
    snd (main_cycle cfg now (self, w))
    = (self,
       {| app_state :=
            {| mqtt_client :=
                 Some {| loop_thread := loop_thread c;
                         outbox := outbox c ++ [process_online_message cfg] |};
               instrument := Some ins';
               inverter := inverter (app_state w) |};
          last_update_ts := last_update_ts w;
          mqtt_connected := mqtt_connected w |})
    /\ serial_is_open ins' = serial_is_open ins
    /\ device ins' = device ins.
Proof.
  intros Hc Hins Hnever Hoff.
  destruct (read_serial_data_shipped self (app_state w) ins Hins)
    as (ins' & Hread & Hopen & Hdev).
  exists ins'. split; [|split; assumption].
  unfold main_cycle. cbn [fst snd]. rewrite Hread.
  rewrite (main_loop_iteration_with_client cfg now _ c None false)
    by (cbn; exact Hc).
  cbn [snd with_app_state app_state mqtt_client instrument inverter
       last_update_ts mqtt_connected].
  unfold iteration_messages, inverter_after.
  cbn [availability last_success_ts address publish_counter].
  rewrite (desired_availability_never_succeeded cfg _ now)
    by (cbn [last_success_ts]; exact Hnever).
  rewrite Hoff. cbn [String.eqb Ascii.eqb Bool.eqb app].
  destruct (inverter (app_state w)) as [a ts n av].
  cbn [availability] in Hoff. subst av. reflexivity.
Qed.

Lemma main_run_shipped (cfg : Config) (nows : list Q) (self : SolarInverter)
    (w : World) (c : Client) (ins : Instrument) :
  mqtt_client (app_state w) = Some c ->
  instrument (app_state w) = Some ins ->
  last_success_ts (inverter (app_state w)) = 0%Q ->
  availability (inverter (app_state w)) = "offline"%string ->
  exists ins',
    main_run cfg nows (self, w)
    = (self,
       {| app_state :=
            {| mqtt_client :=
                 Some {| loop_thread := loop_thread c;
                         outbox :=
                           outbox c
                           ++ replicate (length nows)
                                (process_online_message cfg) |};
               instrument := Some ins';
               inverter := inverter (app_state w) |};
          last_update_ts := last_update_ts w;
          mqtt_connected := mqtt_connected w |})
    /\ serial_is_open ins' = serial_is_open ins
    /\ device ins' = device ins.
Proof.
  revert w c ins. induction nows as [|now nows IH]; intros w c ins Hc Hins Hn Ho.
  - exists ins. cbn [main_run length replicate]. rewrite app_nil_r.
    destruct w as [[client i inv] ts conn]. cbn in Hc, Hins. subst client i.
    destruct c. repeat split.
  - cbn [main_run].
    destruct (main_cycle_shipped cfg now self w c ins Hc Hins Hn Ho)
      as (ins1 & -> & Hopen1 & Hdev1).
    match goal with
    | |- context [main_run cfg nows (self, ?w1)] =>
        destruct (IH w1 _ ins1 eq_refl eq_refl Hn Ho)
          as (ins2 & -> & Hopen2 & Hdev2)
    end.
    exists ins2.
    cbn [app_state mqtt_client instrument inverter last_update_ts
         mqtt_connected loop_thread outbox length replicate].
    rewrite <- app_assoc. repeat split; congruence.
Qed.

(** X19. The program as shipped, from startup through any number of passes
    of its loop: no poll ever succeeds, so the only thing published after
    startup is the process-level "online", once per pass; no heartbeat, no
    telemetry and no device availability message is ever sent; the counter
    stays 0, the device stays stored as offline and nothing is ever
    remembered as a last snapshot; the watchdog timestamp stays at the
    startup time, so [/health] is answered 503 from [maxAge] seconds after
    startup on. *)
Theorem shipped_program_never_reports (cfg : Config) (client : Client)
    (ins : Instrument) (t0 : Q) (discovery : list message) (nows : list Q)
    (now : Q) :
  let w0 := snd (main_startup cfg client ins t0 discovery World_init) in
  let st := main_run cfg nows (SolarInverter_init (MODBUS_ID cfg), w0) in
  published_since w0 (snd st)
  = replicate (length nows) (process_online_message cfg)
  /\ last_status (fst st) = None
  /\ inverter (app_state (snd st))
     = {| address := MODBUS_ID cfg; last_success_ts := 0;
          publish_counter := 0; availability := "offline" |}
  /\ last_update_ts (snd st) = t0
  /\ ((inject_Z (_compute_max_age_seconds cfg) <= now - t0)%Q ->
      fst (do_GET cfg "/health" now (on_mqtt_connect 0 (snd st))) = 503).
Proof.
  cbv zeta. rewrite main_startup_state. cbn [snd].
  match goal with
  | |- context [main_run cfg nows (?self, ?w)] =>
      destruct (main_run_shipped cfg nows self w _ ins eq_refl eq_refl
                  eq_refl eq_refl) as (ins' & -> & _ & _)
  end.
  cbn [fst snd app_state inverter last_update_ts mqtt_client loop_thread outbox].
  split; [|split; [|split; [|split]]]; try reflexivity.
  - unfold published_since, outbox_of. cbn [app_state mqtt_client outbox].
    apply drop_app_length.
  - intros Hstale.
    match goal with
    | |- fst (do_GET cfg _ now ?w) = 503 =>
        destruct (do_GET_health cfg now w) as [_ H503]
    end.
    apply H503. intros (_ & _ & _ & Hfresh).
    cbn [on_mqtt_connect last_update_ts] in Hfresh.
    now apply Qlt_not_le in Hfresh.
Qed.

Lemma shipped_program_never_reports_witness :
  let w0 :=
    snd (main_startup default_config running_client fifth_attempt_instrument
           1000 [] World_init) in
  let st :=
    main_run default_config [1030%Q; 1061%Q; 1092%Q]
      (SolarInverter_init 1, w0) in
  published_since w0 (snd st)
  = replicate 3 (process_online_message default_config)
  /\ fst (do_GET default_config "/health" 1100 (on_mqtt_connect 0 (snd st)))
     = 503.
Proof.
  destruct (shipped_program_never_reports default_config running_client
              fifth_attempt_instrument 1000 [] [1030%Q; 1061%Q; 1092%Q] 1100)
    as (Hpub & _ & _ & _ & Hprobe).
  cbv zeta. split; [exact Hpub|]. apply Hprobe. vm_compute. discriminate.
Defined.

(** ** Configuration loading *)



(** X21. For the configuration loaded from any environment the watchdog
    bound is at least 15 seconds; when [MQTT_UPDATE_INTERVAL] is unset,
    empty or not an integer, the interval is 30 and the bound 95. *)
Theorem loaded_config_max_age (py_int : string -> option Z)
    (env : gmap string string) :
  let cfg := Config_of_env py_int env in
  15 <= _compute_max_age_seconds cfg
  /\ ((env !! "MQTT_UPDATE_INTERVAL"%string = None
       \/ env !! "MQTT_UPDATE_INTERVAL"%string = Some EmptyString
       \/ exists s, env !! "MQTT_UPDATE_INTERVAL"%string = Some s
                    /\ py_int s = None) ->
      MQTT_UPDATE_INTERVAL cfg = 30 /\ _compute_max_age_seconds cfg = 95).
Proof.
  cbv zeta. split; [unfold _compute_max_age_seconds; lia|].
  intros Hcase.
  assert (Hinterval : MQTT_UPDATE_INTERVAL (Config_of_env py_int env) = 30).
  { cbn [Config_of_env MQTT_UPDATE_INTERVAL]. unfold get_env_value.
    destruct Hcase as [-> | [-> | (s & -> & Hs)]]; try reflexivity.
    destruct s as [|a s]; [reflexivity|].
    cbn [int_of_value]. now rewrite Hs. }
  split; [exact Hinterval|].
  unfold _compute_max_age_seconds. rewrite Hinterval. reflexivity.
Qed.

Lemma loaded_config_max_age_witness :
  _compute_max_age_seconds (Config_of_env (fun _ => None) ∅) = 95.
Proof.
  destruct (loaded_config_max_age (fun _ => None) ∅) as [_ Hdefault].
  apply Hdefault. left. reflexivity.
Defined.

(** ** Discovery documents *)

Lemma obj_get_set_eq (o : list (string * Discovery.json)) (k : string)
    (v : Discovery.json) :
  Discovery.obj_get (Discovery.obj_set o k v) k = Some v.
Proof.
  induction o as [|[k' v'] o IH]; cbn [Discovery.obj_set Discovery.obj_get].
  - now rewrite String.eqb_refl.
  - destruct (String.eqb k' k) eqn:E; cbn [Discovery.obj_get]; now rewrite E.
Qed.

Lemma obj_get_set_ne (o : list (string * Discovery.json)) (k k' : string)
    (v : Discovery.json) :
  String.eqb k k' = false ->
  Discovery.obj_get (Discovery.obj_set o k v) k' = Discovery.obj_get o k'.
Proof.
  intros Hne.
  induction o as [|[k0 v0] o IH]; cbn [Discovery.obj_set Discovery.obj_get].
  - now rewrite Hne.
  - destruct (String.eqb k0 k) eqn:E; cbn [Discovery.obj_get].
    + apply String.eqb_eq in E as ->. now rewrite Hne.
    + now rewrite IH.
Qed.

(** Optional fields leave every other key alone. *)
Lemma apply_optional_fields_other (entity : list (string * Discovery.json))
    (optional_fields : list (string * option Discovery.json)) (k : string) :
  forallb (fun kv => negb (String.eqb (fst kv) k)) optional_fields = true ->
  Discovery.obj_get (Discovery._apply_optional_fields entity optional_fields) k
  = Discovery.obj_get entity k.
Proof.
  unfold Discovery._apply_optional_fields. revert entity.
  induction optional_fields as [|[k' v'] fields IH]; intros entity Hall;
    [reflexivity|].
  cbn [forallb fst] in Hall. apply andb_true_iff in Hall as [Hk Hall].
  apply negb_true_iff in Hk.
  cbn [fold_left fst snd]. rewrite (IH _ Hall).
  destruct v' as [v|]; [now apply obj_get_set_ne | reflexivity].
Qed.

(** [_build_base_entity], written out: the first entity built for an id
    gets the full device block and records the id, every later one gets
    the short block. *)
Lemma build_base_entity_spec (self : Discovery.AutoDiscoveryConfig)
    (modbus_id : Z) (name value_template uniq_obj_id : string)
    (state_topic : option string) :
  let topic :=
    match state_topic with
    | Some (String a t) => String a t
    | _ => (Discovery.mqtt_topic self +:+ "/inverter-" +:+ pretty modbus_id
            +:+ "/sensors")%string
    end in
  Discovery._build_base_entity self modbus_id name value_template uniq_obj_id
    state_topic
  = if bool_decide (modbus_id ∉ Discovery._device_info_published self)
    then (base_entity (Discovery.mqtt_topic self) modbus_id name
            value_template uniq_obj_id topic (full_device_block modbus_id),
          Discovery.set_published self
            ({[modbus_id]} ∪ Discovery._device_info_published self))
    else (base_entity (Discovery.mqtt_topic self) modbus_id name
            value_template uniq_obj_id topic (short_device_block modbus_id),
          self).
Proof.
  cbv zeta.
  unfold Discovery._build_base_entity, Discovery._add_device_info,
    base_entity, full_device_block, short_device_block.
  destruct (bool_decide (modbus_id ∉ Discovery._device_info_published self));
    destruct (0 <? modbus_id); reflexivity.
Qed.

Lemma create_sensor_config_spec (self : Discovery.AutoDiscoveryConfig)
    (modbus_id : Z) (group : string) (t : Discovery.template)
    (docs : list Discovery.document) :
  Discovery.mqtt_client self = Some docs ->
  let first :=
    bool_decide (modbus_id ∉ Discovery._device_info_published self) in
  Discovery.create_sensor_config self modbus_id group t
  = {| Discovery.mqtt_topic := Discovery.mqtt_topic self;
       Discovery.discovery_prefix := Discovery.discovery_prefix self;
       Discovery.invert_ha_dis_charge_measurements :=
         Discovery.invert_ha_dis_charge_measurements self;
       Discovery.mqtt_client :=
         Some (docs ++ [sensor_document (Discovery.mqtt_topic self)
                          (Discovery.discovery_prefix self)
                          (Discovery.invert_ha_dis_charge_measurements self)
                          first modbus_id group t]);
       Discovery._device_info_published :=
         if first
         then {[modbus_id]} ∪ Discovery._device_info_published self
         else Discovery._device_info_published self |}.
Proof.
  intros Hdocs. cbv zeta.
  unfold Discovery.create_sensor_config, Discovery._build_sensor_config.
  rewrite build_base_entity_spec. cbv zeta.
  destruct (bool_decide (modbus_id ∉ Discovery._device_info_published self));
    unfold Discovery._publish_config, sensor_document, discovery_topic;
    cbn [Discovery.mqtt_topic Discovery.discovery_prefix
         Discovery.invert_ha_dis_charge_measurements Discovery.mqtt_client
         Discovery._device_info_published Discovery.set_published];
    rewrite Hdocs; reflexivity.
Qed.

Lemma create_heartbeat_sensor_config_spec
    (self : Discovery.AutoDiscoveryConfig) (modbus_id : Z)
    (docs : list Discovery.document) :
  Discovery.mqtt_client self = Some docs ->
  let first :=
    bool_decide (modbus_id ∉ Discovery._device_info_published self) in
  Discovery.documents (Discovery.create_heartbeat_sensor_config self modbus_id)
  = docs ++ [heartbeat_document (Discovery.mqtt_topic self)
               (Discovery.discovery_prefix self) first modbus_id].
Proof.
  intros Hdocs. cbv zeta.
  unfold Discovery.create_heartbeat_sensor_config. cbv zeta.
  rewrite build_base_entity_spec. cbv zeta.
  destruct self as [mt dp inv cl pub].
  cbn [Discovery.mqtt_topic Discovery.discovery_prefix
       Discovery.invert_ha_dis_charge_measurements Discovery.mqtt_client
       Discovery._device_info_published] in *.
  destruct (bool_decide (modbus_id ∉ pub)), mt;
    unfold Discovery._publish_config, Discovery.documents, heartbeat_document,
      discovery_topic;
    cbn [Discovery.mqtt_topic Discovery.discovery_prefix
         Discovery.invert_ha_dis_charge_measurements Discovery.mqtt_client
         Discovery._device_info_published Discovery.set_published];
    rewrite Hdocs; reflexivity.
Qed.

Lemma create_sensors_from_cons (t : Discovery.template)
    (templates : list Discovery.template)
    (self : Discovery.AutoDiscoveryConfig) (modbus_id : Z) :
  Discovery.create_sensors_from (t :: templates) self modbus_id
  = Discovery.create_sensors_from templates
      (Discovery.create_sensor_config self modbus_id "telemetry" t) modbus_id.
Proof. reflexivity. Qed.

(** Once the id is recorded, every further sensor gets the short block. *)
Lemma create_sensors_from_spec (templates : list Discovery.template)
    (self : Discovery.AutoDiscoveryConfig) (modbus_id : Z)
    (docs : list Discovery.document) :
  Discovery.mqtt_client self = Some docs ->
  modbus_id ∈ Discovery._device_info_published self ->
  Discovery.create_sensors_from templates self modbus_id
  = {| Discovery.mqtt_topic := Discovery.mqtt_topic self;
       Discovery.discovery_prefix := Discovery.discovery_prefix self;
       Discovery.invert_ha_dis_charge_measurements :=
         Discovery.invert_ha_dis_charge_measurements self;
       Discovery.mqtt_client :=
         Some (docs ++ map (sensor_document (Discovery.mqtt_topic self)
                              (Discovery.discovery_prefix self)
                              (Discovery.invert_ha_dis_charge_measurements self)
                              false modbus_id "telemetry") templates);
       Discovery._device_info_published :=
         Discovery._device_info_published self |}.
Proof.
  revert self docs.
  induction templates as [|t ts IH]; intros self docs Hdocs Hin.
  - unfold Discovery.create_sensors_from. cbn [fold_left map].
    rewrite app_nil_r. destruct self. cbn in Hdocs. now subst.
  - rewrite create_sensors_from_cons. cbn [map].
    rewrite (create_sensor_config_spec self modbus_id "telemetry" t docs Hdocs).
    cbv zeta.
    rewrite (bool_decide_eq_false_2 (modbus_id ∉ _)) by (intros Hn; apply Hn, Hin).
    erewrite IH; [|reflexivity|exact Hin].
    cbn [Discovery.mqtt_topic Discovery.discovery_prefix
         Discovery.invert_ha_dis_charge_measurements Discovery.mqtt_client
         Discovery._device_info_published].
    now rewrite <- app_assoc.
Qed.

(** All the documents of [create_autodiscovery_sensors], for any table of
    templates. *)
Lemma create_autodiscovery_documents (templates : list Discovery.template)
    (self : Discovery.AutoDiscoveryConfig) (modbus_id : Z)
    (docs : list Discovery.document) :
  Discovery.mqtt_client self = Some docs ->
  Discovery.documents
    (Discovery.create_heartbeat_sensor_config
       (Discovery.create_sensors_from templates
          (Discovery.set_published self
             (Discovery._device_info_published self ∖ {[modbus_id]}))
          modbus_id)
       modbus_id)
  = docs ++ expected_documents (Discovery.mqtt_topic self)
              (Discovery.discovery_prefix self)
              (Discovery.invert_ha_dis_charge_measurements self)
              modbus_id templates.
Proof.
  intros Hdocs.
  assert (Hnot : modbus_id ∉ Discovery._device_info_published self ∖ {[modbus_id]}).
  { intros [_ Hn]%elem_of_difference. apply Hn. now apply elem_of_singleton. }
  destruct templates as [|t0 rest].
  - unfold Discovery.create_sensors_from. cbn [fold_left].
    rewrite (create_heartbeat_sensor_config_spec _ modbus_id docs)
      by exact Hdocs.
    cbn [Discovery.set_published Discovery._device_info_published
         Discovery.mqtt_topic Discovery.discovery_prefix].
    now rewrite (bool_decide_eq_true_2 _ Hnot).
  - rewrite create_sensors_from_cons.
    rewrite (create_sensor_config_spec _ modbus_id "telemetry" t0 docs)
      by exact Hdocs.
    cbv zeta.
    cbn [Discovery.set_published Discovery._device_info_published
         Discovery.mqtt_topic Discovery.discovery_prefix
         Discovery.invert_ha_dis_charge_measurements].
    rewrite (bool_decide_eq_true_2 _ Hnot).
    erewrite create_sensors_from_spec; [|reflexivity|cbn; set_solver].
    erewrite create_heartbeat_sensor_config_spec; [|reflexivity].
    cbn [Discovery.mqtt_topic Discovery.discovery_prefix
         Discovery.invert_ha_dis_charge_measurements
         Discovery._device_info_published].
    rewrite bool_decide_eq_false_2 by (intros Hn; apply Hn; set_solver).
    unfold expected_documents, expected_sensor_documents.
    cbn [app]. now rewrite <- !app_assoc.
Qed.

Lemma create_autodiscovery_sensors_documents
    (self : Discovery.AutoDiscoveryConfig) (modbus_id : Z)
    (docs : list Discovery.document) :
  Discovery.mqtt_client self = Some docs ->
  Discovery.documents (Discovery.create_autodiscovery_sensors self modbus_id)
  = docs ++ expected_documents (Discovery.mqtt_topic self)
              (Discovery.discovery_prefix self)
              (Discovery.invert_ha_dis_charge_measurements self)
              modbus_id Discovery.TELEMETRY_SENSOR_TEMPLATES.
Proof.
  intros Hdocs. unfold Discovery.create_autodiscovery_sensors. cbv zeta.
  now apply create_autodiscovery_documents.
Qed.

Lemma expected_sensor_documents_length (mqtt_topic prefix : string)
    (invert : bool) (modbus_id : Z) (templates : list Discovery.template) :
  length (expected_sensor_documents mqtt_topic prefix invert modbus_id templates)
  = length templates.
Proof.
  destruct templates as [|t0 rest]; [reflexivity|].
  cbn [expected_sensor_documents length]. now rewrite length_map.
Qed.

Lemma expected_sensor_documents_Forall (P : Discovery.document -> Prop)
    (mqtt_topic prefix : string) (invert : bool) (modbus_id : Z)
    (templates : list Discovery.template) :
  (forall first t,
      P (sensor_document mqtt_topic prefix invert first modbus_id
           "telemetry" t)) ->
  Forall P
    (expected_sensor_documents mqtt_topic prefix invert modbus_id templates).
Proof.
  intros HP. destruct templates as [|t0 rest]; [constructor|].
  cbn [expected_sensor_documents]. constructor; [apply HP|].
  induction rest as [|t rest IH]; cbn [map]; constructor; [apply HP|exact IH].
Qed.

Lemma sensor_document_points_at (cfg : Config) (prefix : string)
    (invert first : bool) (group : string) (t : Discovery.template)
    (d : InverterData) :
  points_at cfg (MODBUS_ID cfg) (topic (sensors_message cfg d))
    (sensor_document (MQTT_TOPIC cfg) prefix invert first (MODBUS_ID cfg)
       group t).
Proof.
  unfold points_at, sensor_document.
  cbn [Discovery.doc_retain Discovery.doc_qos Discovery.doc_config].
  repeat split; rewrite apply_optional_fields_other by reflexivity;
    reflexivity.
Qed.

Lemma heartbeat_document_points_at (cfg : Config) (prefix : string)
    (first : bool) (n : Z) :
  points_at cfg (MODBUS_ID cfg) (topic (heartbeat_message cfg n))
    (heartbeat_document (MQTT_TOPIC cfg) prefix first (MODBUS_ID cfg)).
Proof.
  unfold points_at, heartbeat_document.
  cbn [Discovery.doc_retain Discovery.doc_qos Discovery.doc_config].
  repeat split; reflexivity.
Qed.

(** X22. The discovery documents agree with what the main loop publishes:
    every document is retained and sent with QoS 1, lists the process-level
    and the device availability topics of [main] with mode "all"; the state
    topic of each of the sensor documents, one per template, is the topic
    of the sensors message, and that of the last document is the heartbeat
    topic. *)
Theorem discovery_documents_use_main_topics (cfg : Config) (prefix : string)
    (invert : bool) (d : InverterData) (n : Z) :
  exists sensors hb,
    Discovery.documents
      (Discovery.create_autodiscovery_sensors
         (Discovery.init (MQTT_TOPIC cfg) prefix invert) (MODBUS_ID cfg))
    = sensors ++ [hb]
    /\ length sensors = length Discovery.TELEMETRY_SENSOR_TEMPLATES
    /\ Forall (points_at cfg (MODBUS_ID cfg) (topic (sensors_message cfg d)))
         sensors
    /\ points_at cfg (MODBUS_ID cfg) (topic (heartbeat_message cfg n)) hb.
Proof.
  rewrite (create_autodiscovery_sensors_documents _ _ []) by reflexivity.
  cbn [app Discovery.init Discovery.mqtt_topic Discovery.discovery_prefix
       Discovery.invert_ha_dis_charge_measurements].
  unfold expected_documents. eexists _, _. split; [reflexivity|].
  split; [apply expected_sensor_documents_length|].
  split.
  - apply expected_sensor_documents_Forall. intros first t.
    apply sensor_document_points_at.
  - apply heartbeat_document_points_at.
Qed.

Lemma sensor_document_device_block (mqtt_topic prefix : string)
    (invert first : bool) (modbus_id : Z) (group : string)
    (t : Discovery.template) :
  device_block
    (sensor_document mqtt_topic prefix invert first modbus_id group t)
  = Some (Discovery.JObj (if first then full_device_block modbus_id
                          else short_device_block modbus_id)).
Proof.
  unfold device_block, sensor_document. cbn [Discovery.doc_config].
  rewrite apply_optional_fields_other by reflexivity. reflexivity.
Qed.

Lemma heartbeat_document_device_block (mqtt_topic prefix : string)
    (first : bool) (modbus_id : Z) :
  device_block (heartbeat_document mqtt_topic prefix first modbus_id)
  = Some (Discovery.JObj (if first then full_device_block modbus_id
                          else short_device_block modbus_id)).
Proof. reflexivity. Qed.

(** X23. Each call of [create_autodiscovery_sensors] sends the device
    description once, whatever was published before: the first document it
    appends carries the full device block, each of the documents after it
    (as many as there are templates) the short one, and the two blocks
    name the device by different identifiers, [Inverter_<id>] and
    [inverter_<id>]. *)
Theorem device_block_sent_once (self : Discovery.AutoDiscoveryConfig)
    (modbus_id : Z) (docs : list Discovery.document) :
  Discovery.mqtt_client self = Some docs ->
  exists first rest,
    Discovery.documents (Discovery.create_autodiscovery_sensors self modbus_id)
    = docs ++ first :: rest
    /\ length rest = length Discovery.TELEMETRY_SENSOR_TEMPLATES
    /\ device_block first
       = Some (Discovery.JObj (full_device_block modbus_id))
    /\ Forall (fun d => device_block d
                        = Some (Discovery.JObj (short_device_block modbus_id)))
         rest
    /\ Discovery.obj_get (full_device_block modbus_id) "ids"
       = Some (Discovery.JStr ("Inverter_" +:+ pretty modbus_id))
    /\ Discovery.obj_get (short_device_block modbus_id) "ids"
       = Some (Discovery.JStr ("inverter_" +:+ pretty modbus_id))
    /\ Discovery.obj_get (full_device_block modbus_id) "ids"
       <> Discovery.obj_get (short_device_block modbus_id) "ids".
Proof.
  intros Hdocs.
  rewrite (create_autodiscovery_sensors_documents _ _ docs Hdocs).
  unfold expected_documents, expected_sensor_documents.
  destruct Discovery.TELEMETRY_SENSOR_TEMPLATES as [|t0 rest] eqn:Htable;
    [discriminate Htable|].
  cbn [app]. eexists _, _. split; [reflexivity|].
  split; [rewrite length_app, length_map; cbn [length]; lia|].
  split; [apply sensor_document_device_block|].
  split.
  - apply Forall_app. split.
    + apply Forall_forall. intros d [t [<- _]]%list_elem_of_In%in_map_iff.
      apply sensor_document_device_block.
    + repeat constructor.
  - repeat split; try reflexivity. cbn. discriminate.
Qed.

Lemma device_block_sent_once_witness :
  exists first rest,
    Discovery.documents
      (Discovery.create_autodiscovery_sensors
         (Discovery.init "solar" "homeassistant" true) 1)
    = [] ++ first :: rest
    /\ length rest = length Discovery.TELEMETRY_SENSOR_TEMPLATES
    /\ device_block first = Some (Discovery.JObj (full_device_block 1))
    /\ Forall (fun d => device_block d
                        = Some (Discovery.JObj (short_device_block 1)))
         rest
    /\ Discovery.obj_get (full_device_block 1) "ids"
       = Some (Discovery.JStr ("Inverter_" +:+ pretty 1))
    /\ Discovery.obj_get (short_device_block 1) "ids"
       = Some (Discovery.JStr ("inverter_" +:+ pretty 1))
    /\ Discovery.obj_get (full_device_block 1) "ids"
       <> Discovery.obj_get (short_device_block 1) "ids".
Proof.
  exact (device_block_sent_once
           (Discovery.init "solar" "homeassistant" true) 1 [] eq_refl).
Defined.

(** Equal strings with the same beginning have the same ending. *)
Lemma append_inj_r (t s1 s2 : string) : t +:+ s1 = t +:+ s2 -> s1 = s2.
Proof.
  intros H. apply list_ascii_of_string_injective.
  apply (f_equal String.list_ascii_of_string) in H.
  rewrite !list_ascii_of_string_append in H.
  now apply app_inv_head in H.
Qed.

Lemma discovery_topic_inj (prefix : string) (modbus_id : Z) :
  Inj (=) (=) (discovery_topic prefix modbus_id).
Proof.
  intros k1 k2 H. unfold discovery_topic in H.
  apply append_inj_r in H.
  apply (append_inj_r "/sensor/inverter-") in H.
  apply append_inj_r in H.
  apply (append_inj_r "/") in H.
  now apply append_inj_l in H.
Qed.

Lemma uniq_obj_id_inj (modbus_id : Z) :
  Inj (=) (=)
    (fun key => Some (Discovery.JStr
                        ("inverter_" +:+ pretty modbus_id +:+ "_" +:+ key))).
Proof.
  intros k1 k2 H. injection H as H.
  change (pretty modbus_id +:+ "_" +:+ k1 = pretty modbus_id +:+ "_" +:+ k2)
    in H.
  apply append_inj_r in H.
  now apply (append_inj_r "_") in H.
Qed.

(** The topics and unique ids of the documents, from the template keys. *)
Lemma expected_documents_topics (mqtt_topic prefix : string) (invert : bool)
    (modbus_id : Z) (templates : list Discovery.template) :
  Discovery.doc_topic
    <$> expected_documents mqtt_topic prefix invert modbus_id templates
  = discovery_topic prefix modbus_id
    <$> ((Discovery.value_template_key <$> templates) ++ ["last_publish"%string]).
Proof.
  unfold expected_documents. rewrite !fmap_app. f_equal.
  destruct templates as [|t0 rest]; [reflexivity|].
  cbn [expected_sensor_documents]. rewrite !fmap_cons. f_equal.
  induction rest as [|t rest IH]; [reflexivity|].
  cbn [map]. rewrite !fmap_cons. now rewrite IH.
Qed.

Lemma expected_documents_unique_ids (mqtt_topic prefix : string)
    (invert : bool) (modbus_id : Z) (templates : list Discovery.template) :
  unique_id
    <$> expected_documents mqtt_topic prefix invert modbus_id templates
  = (fun key => Some (Discovery.JStr
                        ("inverter_" +:+ pretty modbus_id +:+ "_" +:+ key)))
    <$> ((Discovery.value_template_key <$> templates) ++ ["last_publish"%string]).
Proof.
  assert (Hone : forall first t,
             unique_id (sensor_document mqtt_topic prefix invert first
                          modbus_id "telemetry" t)
             = Some (Discovery.JStr
                       ("inverter_" +:+ pretty modbus_id +:+ "_"
                        +:+ Discovery.value_template_key t))).
  { intros first t. unfold unique_id, sensor_document.
    cbn [Discovery.doc_config].
    rewrite apply_optional_fields_other by reflexivity. reflexivity. }
  unfold expected_documents. rewrite !fmap_app. f_equal.
  destruct templates as [|t0 rest]; [reflexivity|].
  cbn [expected_sensor_documents]. rewrite !fmap_cons, Hone. f_equal.
  induction rest as [|t rest IH]; [reflexivity|].
  cbn [map]. rewrite !fmap_cons, Hone. now rewrite IH.
Qed.

Lemma template_keys_NoDup :
  NoDup ((Discovery.value_template_key <$> Discovery.TELEMETRY_SENSOR_TEMPLATES)
         ++ ["last_publish"%string]).
Proof. apply (bool_decide_unpack _). vm_compute. exact I. Qed.

(** X24. No two discovery documents of a device share a topic or a unique
    id: a retained document is never overwritten by another one of the
    same run, and every entity has an id of its own. *)
Theorem discovery_documents_distinct (mqtt_topic prefix : string)
    (invert : bool) (modbus_id : Z) :
  let docs :=
    Discovery.documents
      (Discovery.create_autodiscovery_sensors
         (Discovery.init mqtt_topic prefix invert) modbus_id) in
  NoDup (Discovery.doc_topic <$> docs) /\ NoDup (unique_id <$> docs).
Proof.
  cbv zeta.
  rewrite (create_autodiscovery_sensors_documents _ _ []) by reflexivity.
  cbn [app Discovery.init Discovery.mqtt_topic Discovery.discovery_prefix
       Discovery.invert_ha_dis_charge_measurements].
  rewrite expected_documents_topics, expected_documents_unique_ids. split.
  - apply (@NoDup_fmap_2 _ _ _ (discovery_topic_inj prefix modbus_id)).
    apply template_keys_NoDup.
  - apply (@NoDup_fmap_2 _ _ _ (uniq_obj_id_inj modbus_id)).
    apply template_keys_NoDup.
Qed.

Lemma sensor_document_not_inverted (mqtt_topic prefix : string)
    (invert first : bool) (modbus_id : Z) (group : string)
    (t : Discovery.template) :
  Discovery.invert_value t = false ->
  sensor_document mqtt_topic prefix invert first modbus_id group t
  = sensor_document mqtt_topic prefix false first modbus_id group t.
Proof. intros H. unfold sensor_document. now rewrite H. Qed.

Lemma expected_documents_not_inverted (mqtt_topic prefix : string)
    (invert : bool) (modbus_id : Z) (templates : list Discovery.template) :
  forallb (fun t => negb (Discovery.invert_value t)) templates = true ->
  expected_documents mqtt_topic prefix invert modbus_id templates
  = expected_documents mqtt_topic prefix false modbus_id templates.
Proof.
  intros Hall. unfold expected_documents. f_equal.
  destruct templates as [|t0 rest]; [reflexivity|].
  cbn [forallb] in Hall. apply andb_true_iff in Hall as [H0 Hall].
  apply negb_true_iff in H0.
  cbn [expected_sensor_documents].
  rewrite (sensor_document_not_inverted _ _ invert) by exact H0. f_equal.
  induction rest as [|t rest IH]; [reflexivity|].
  cbn [forallb] in Hall. apply andb_true_iff in Hall as [Ht Hall].
  apply negb_true_iff in Ht. cbn [map].
  rewrite (sensor_document_not_inverted _ _ invert) by exact Ht.
  now rewrite (IH Hall).
Qed.

(** X25. The option [INVERT_HA_DIS_CHARGE_MEASUREMENTS] changes nothing:
    no template asks for an inverted value, so the documents published
    with the option set are those published without it, and every sensor
    reads its value with the plain template. *)
Theorem invert_option_has_no_effect (mqtt_topic prefix : string)
    (invert : bool) (modbus_id : Z) :
  Discovery.documents
    (Discovery.create_autodiscovery_sensors
       (Discovery.init mqtt_topic prefix invert) modbus_id)
  = Discovery.documents
      (Discovery.create_autodiscovery_sensors
         (Discovery.init mqtt_topic prefix false) modbus_id)
  /\ Forall (fun t =>
               Discovery.obj_get
                 (Discovery.doc_config
                    (sensor_document mqtt_topic prefix invert false modbus_id
                       "telemetry" t)) "val_tpl"
               = Some (Discovery.JStr
                         ("{{ " +:+ ("value_json.telemetry.normal."
                                     +:+ Discovery.value_template_key t)
                          +:+ " }}")))
       Discovery.TELEMETRY_SENSOR_TEMPLATES.
Proof.
  assert (Hall : forallb (fun t => negb (Discovery.invert_value t))
                   Discovery.TELEMETRY_SENSOR_TEMPLATES = true)
    by (vm_compute; reflexivity).
  split.
  - rewrite !(create_autodiscovery_sensors_documents _ _ []) by reflexivity.
    cbn [app Discovery.init Discovery.mqtt_topic Discovery.discovery_prefix
         Discovery.invert_ha_dis_charge_measurements].
    now apply expected_documents_not_inverted.
  - apply Forall_forall. intros t Ht%list_elem_of_In.
    apply (proj1 (forallb_forall _ _) Hall) in Ht.
    apply negb_true_iff in Ht.
    rewrite (sensor_document_not_inverted _ _ invert) by exact Ht.
    unfold sensor_document. cbn [Discovery.doc_config].
    rewrite apply_optional_fields_other by reflexivity.
    rewrite Ht. reflexivity.
Qed.
